(** * Stamp placement engine of stampwise: [find_whitest_space]

    Shallow embedding of [PDFProcessor.find_whitest_space] of
    [src/server.py] (the gRPC server) and of its shorter sibling in
    [src/packages/client-node/python/processor.py] (the stand-alone CLI),
    with the properties the specification states about them.

    Conventions of the embedding.
    - Python [int] is [Z]; a numpy [uint8] array of shape [(height, width)]
      is an [ndarray]: its two dimensions and its pixel function.
    - binary64 ratios ([np.mean(..) / 255.0], [np.sum(..) / (s * s)]) are
      exact rationals, [None] standing for [nan]. Two ratios of pixel
      counts over zones of a few thousand pixels a side differ by far more
      than a rounding error unless they are equal, and a ratio equal to
      0.90, 0.95, 0.98 or 0.10 rounds to that literal, so the comparisons
      of the engine come out the same.
    - The returned coordinates are [float(n)] of Python integers [n]; they
      are kept as the integers themselves.
    - The OpenCV routines whose result is not an integer formula of the
      pixels (Gaussian blur and Laplacian, contour extraction, polygon
      filling) are the fields of the class [Cv2].
    - numpy and OpenCV calls are total functions here: on the two
      dimensional [uint8] array of a rendered page none of them raises. *)

From Stdlib Require Import ZArith List Bool Lia QArith Sorted.
From Stdlib Require Ascii String.
Import String.StringSyntax.
Delimit Scope string_scope with string.
From ExtLib Require Import Structures.Monad Structures.MonadState.
From ExtLib Require Import Data.Monads.StateMonad.
Import ListNotations.
Import MonadNotation.
Local Open Scope Z_scope.
Local Open Scope monad_scope.

(** ** Python built-ins *)

Module Py.

(** Number of items of [range(start, stop, step)], as CPython computes it. *)
Definition range_len (start stop step : Z) : Z :=
  if 0 <? step then
    if start <? stop then (stop - start - 1) / step + 1 else 0
  else if step <? 0 then
    if stop <? start then (start - stop - 1) / (- step) + 1 else 0
  else 0.

(** [list(range(start, stop, step))]; every step of the source is a
    non-zero constant. *)
Definition range (start stop step : Z) : list Z :=
  map (fun i => start + Z.of_nat i * step)
      (seq 0 (Z.to_nat (range_len start stop step))).

(** [l[-1]]; [None] is the [IndexError] of an empty list. *)
Definition last_item {A : Type} (l : list A) : option A :=
  match rev l with
  | [] => None
  | a :: _ => Some a
  end.

(** Bound of a slice [a[i:j]] on an axis of length [len]: negative
    indices count from the end, and everything is clipped to the axis. *)
Definition slice_index (len i : Z) : Z :=
  if i <? 0 then Z.max 0 (i + len) else Z.min i len.

(** [for a in xs: body], where the body reports whether it executed
    [break]. *)
Fixpoint for_break {A S : Type} (xs : list A) (body : A -> S -> S * bool)
    (st : S) : S :=
  match xs with
  | [] => st
  | a :: rest =>
      let (st', broke) := body a st in
      if broke then st' else for_break rest body st'
  end.

(** [for a in xs: body] without [break]. *)
Definition for_each {A S : Type} (xs : list A) (body : A -> S -> S)
    (st : S) : S :=
  fold_left (fun s a => body a s) xs st.

(** Outcome of a call. *)
Inductive result (A : Type) : Type :=
| Returns (v : A)
| RaisesIndexError.
Arguments Returns {A} v.
Arguments RaisesIndexError {A}.

End Py.

(** ** binary64 ratios *)

(** [None] is [nan]: every comparison with it is false. *)
Definition pyfloat : Type := option Q.

(** A literal such as [0.95]. *)
Definition fconst (q : Q) : pyfloat := Some q.

(** [n / d] for integers, as numpy's true division; a zero divisor only
    meets a zero dividend in the engine (an empty region), which is [nan]. *)
Definition true_div (n d : Z) : pyfloat :=
  match d with
  | Zpos p => Some (n # p)
  | Zneg p => Some ((- n) # p)
  | Z0 => None
  end.

(** [f / k] for a positive constant [k], as in [np.mean(..) / 255.0]. *)
Definition fdiv_by (f : pyfloat) (k : positive) : pyfloat :=
  match f with
  | Some q => Some (Qnum q # (Qden q * k))
  | None => None
  end.

(** [a > b], [a < b], [a <= b] and [a == b]. *)
Definition fgt (a b : pyfloat) : bool :=
  match a, b with
  | Some p, Some q => negb (Qle_bool p q)
  | _, _ => false
  end.

Definition flt (a b : pyfloat) : bool := fgt b a.

Definition fle (a b : pyfloat) : bool :=
  match a, b with
  | Some p, Some q => Qle_bool p q
  | _, _ => false
  end.

Definition feq (a b : pyfloat) : bool :=
  match a, b with
  | Some p, Some q => Qeq_bool p q
  | _, _ => false
  end.

(** ** numpy arrays of [uint8] *)

Record ndarray : Type := mk_ndarray
  { shape0 : N;           (* shape[0], the height *)
    shape1 : N;           (* shape[1], the width *)
    px : Z -> Z -> Z }.   (* px y x, row first as in a[y, x] *)

(** The two dimensions as Python integers. *)
Definition nrows (a : ndarray) : Z := Z.of_N (shape0 a).
Definition ncols (a : ndarray) : Z := Z.of_N (shape1 a).

Module Np.

(** [np.zeros((h, w), dtype=np.uint8)] *)
Definition zeros (h w : Z) : ndarray :=
  mk_ndarray (Z.to_N h) (Z.to_N w) (fun _ _ => 0).

(** [a[y0:y1, x0:x1]] *)
Definition slice (a : ndarray) (y0 y1 x0 x1 : Z) : ndarray :=
  let ylo := Py.slice_index (nrows a) y0 in
  let yhi := Py.slice_index (nrows a) y1 in
  let xlo := Py.slice_index (ncols a) x0 in
  let xhi := Py.slice_index (ncols a) x1 in
  mk_ndarray (Z.to_N (yhi - ylo)) (Z.to_N (xhi - xlo))
             (fun y x => px a (ylo + y) (xlo + x)).

(** [f lo + f (lo + 1) + ... ], [n] terms. *)
Fixpoint sum_from (f : Z -> Z) (lo : Z) (n : nat) : Z :=
  match n with
  | O => 0
  | S k => f lo + sum_from f (lo + 1) k
  end.

(** [np.sum(a)]; the accumulator is 64 bits wide, which no page reaches. *)
Definition sum (a : ndarray) : Z :=
  sum_from (fun y => sum_from (fun x => px a y x) 0 (Z.to_nat (ncols a)))
           0 (Z.to_nat (nrows a)).

(** [np.sum(a * a)] in exact arithmetic, for [np.std]. *)
Definition sum_sq (a : ndarray) : Z :=
  sum_from (fun y => sum_from (fun x => px a y x * px a y x) 0
                              (Z.to_nat (ncols a)))
           0 (Z.to_nat (nrows a)).

(** [a.size] *)
Definition size (a : ndarray) : Z := nrows a * ncols a.

(** [np.mean(a)]: [nan] on an empty array. *)
Definition mean (a : ndarray) : pyfloat := true_div (sum a) (size a).

(** [np.std(a) > t] for an integer [t >= 0]: the variance
    [sum_sq / n - (sum / n)^2] against [t^2], cleared of denominators. *)
Definition std_gt (a : ndarray) (t : Z) : bool :=
  let n := size a in
  (0 <? n) && (t * t * n * n <? n * sum_sq a - sum a * sum a).

End Np.

(** ** OpenCV routines with an integer model *)

(** A rectangular structuring element of [ksize = (width, height)],
    every entry 1. *)
Record Kernel : Type := mk_kernel { kwidth : Z; kheight : Z }.

Definition key_eqb (a b : Z * Z) : bool :=
  (fst a =? fst b) && (snd a =? snd b).

Module Cv.

(** [cv2.threshold(src, thresh, 255, cv2.THRESH_BINARY)[1]] *)
Definition threshold_binary (src : ndarray) (thresh maxval : Z) : ndarray :=
  mk_ndarray (shape0 src) (shape1 src)
             (fun y x => if thresh <? px src y x then maxval else 0).

(** [cv2.threshold(src, thresh, 255, cv2.THRESH_BINARY_INV)[1]] *)
Definition threshold_binary_inv (src : ndarray) (thresh maxval : Z)
    : ndarray :=
  mk_ndarray (shape0 src) (shape1 src)
             (fun y x => if thresh <? px src y x then 0 else maxval).

(** [255 - a] on [uint8], wrapping modulo 256. *)
Definition rsub255 (a : ndarray) : ndarray :=
  mk_ndarray (shape0 a) (shape1 a) (fun y x => (255 - px a y x) mod 256).

(** [cv2.bitwise_or(a, b)] *)
Definition bitwise_or (a b : ndarray) : ndarray :=
  mk_ndarray (shape0 a) (shape1 a) (fun y x => Z.lor (px a y x) (px b y x)).

(** [cv2.getStructuringElement(cv2.MORPH_RECT, size)] *)
Definition getStructuringElement (size : Z * Z) : Kernel :=
  mk_kernel (fst size) (snd size).

Definition in_image (a : ndarray) (y x : Z) : bool :=
  (0 <=? y) && (y <? nrows a) && (0 <=? x) && (x <? ncols a).

(** Pixel read with a constant border. *)
Definition px_border (a : ndarray) (border : Z) (yx : Z * Z) : Z :=
  if in_image a (fst yx) (snd yx) then px a (fst yx) (snd yx) else border.

(** The pixels under the element anchored (at its centre) on [(y, x)]. *)
Definition window (k : Kernel) (y x : Z) : list (Z * Z) :=
  flat_map
    (fun dy => map (fun dx => (y + dy - kheight k / 2, x + dx - kwidth k / 2))
                   (Py.range 0 (kwidth k) 1))
    (Py.range 0 (kheight k) 1).

(** [cv2.dilate(src, k, iterations=1)]: the border never wins a maximum. *)
Definition dilate (src : ndarray) (k : Kernel) : ndarray :=
  mk_ndarray (shape0 src) (shape1 src)
    (fun y x => fold_left Z.max (map (px_border src 0) (window k y x)) 0).

(** [cv2.erode(src, k, iterations=1)]: the border never wins a minimum. *)
Definition erode (src : ndarray) (k : Kernel) : ndarray :=
  mk_ndarray (shape0 src) (shape1 src)
    (fun y x => fold_left Z.min (map (px_border src 255) (window k y x)) 255).

(** [cv2.morphologyEx(src, cv2.MORPH_OPEN, k)] *)
Definition morph_open (src : ndarray) (k : Kernel) : ndarray :=
  dilate (erode src k) k.

(** [cv2.morphologyEx(src, cv2.MORPH_CLOSE, k)] *)
Definition morph_close (src : ndarray) (k : Kernel) : ndarray :=
  erode (dilate src k) k.

End Cv.

(** ** OpenCV routines taken as an interface *)

(** What the engine reads of one contour. *)
Record Contour : Type := mk_contour
  { contourArea : Q;                     (* cv2.contourArea(contour) *)
    boundingRect : Z * Z * Z * Z;        (* (x, y, w, h) *)
    inside : Z -> Z -> bool }.           (* pixels cv2.fillPoly sets *)

Inductive RetrievalMode : Type := RETR_EXTERNAL | RETR_TREE.

Class Cv2 : Type :=
  { (** [np.abs(cv2.Laplacian(cv2.GaussianBlur(image, (5, 5), 0),
        cv2.CV_64F)).astype(np.uint8)] *)
    laplacian_abs_u8 : ndarray -> ndarray;
    (** [cv2.findContours(img, mode, cv2.CHAIN_APPROX_SIMPLE)[0]] *)
    findContours : ndarray -> RetrievalMode -> list Contour }.

(** [m = np.zeros((h, w)); cv2.fillPoly(m, [contour], 255)] *)
Definition fillPoly_zeros (h w : Z) (c : Contour) : ndarray :=
  mk_ndarray (Z.to_N h) (Z.to_N w) (fun y x => if inside c y x then 255 else 0).

(** ** The processor object and the world it runs in *)

(** [PDFProcessor] as [__init__] builds it. [enable_ocr] is [False] for
    every such object (server.py line 61 is its only assignment besides the
    reset of line 185), so the pytesseract branch of lines 146-185 is never
    entered and [not self.enable_ocr] of line 187 always holds. *)
Record PDFProcessor : Type := mk_processor
  { stamp_size_max : Z;
    stamp_size_min : Z }.

Inductive Level : Type := DEBUG | INFO | WARNING | ERROR.

(** A call of [logging.debug/info/warning/error]: its level and the line of
    server.py that makes it (the formatted text is not modelled). *)
Definition LogRecord : Type := (Level * Z)%type.

(** What a call can touch: the caller's array bound to [image] (Python
    passes it by reference), the [lru_cache] of
    [_get_text_detection_kernel] (most recent entry first; the [self]
    component of its keys is constant) and the records handed to [logging]. *)
Record World : Type := mk_world
  { raster : ndarray;
    kernel_lru : list ((Z * Z) * Kernel);
    log_out : list LogRecord }.

Definition read_image : state World ndarray :=
  w <- get ;; ret (raster w).

Definition logging (lvl : Level) (line : Z) : state World unit :=
  w <- get ;;
  put (mk_world (raster w) (kernel_lru w) (log_out w ++ [(lvl, line)])).

Definition emit (records : list LogRecord) : state World unit :=
  w <- get ;;
  put (mk_world (raster w) (kernel_lru w) (log_out w ++ records)).

Fixpoint lru_lookup (key : Z * Z) (c : list ((Z * Z) * Kernel))
    : option Kernel :=
  match c with
  | [] => None
  | (k, v) :: rest => if key_eqb key k then Some v else lru_lookup key rest
  end.

Definition lru_remove (key : Z * Z) (c : list ((Z * Z) * Kernel))
    : list ((Z * Z) * Kernel) :=
  filter (fun e => negb (key_eqb key (fst e))) c.

(** [@lru_cache(maxsize=32) def _get_text_detection_kernel(self, size)]:
    a hit returns the stored element and makes it the most recent; a miss
    builds the element, stores it and drops the least recent beyond 32. *)
Definition _get_text_detection_kernel (size : Z * Z) : state World Kernel :=
  w <- get ;;
  match lru_lookup size (kernel_lru w) with
  | Some k =>
      put (mk_world (raster w)
                    ((size, k) :: lru_remove size (kernel_lru w))
                    (log_out w)) ;;
      ret k
  | None =>
      let k := Cv.getStructuringElement size in
      put (mk_world (raster w)
                    (firstn 32 ((size, k) :: kernel_lru w))
                    (log_out w)) ;;
      ret k
  end.

(** ** Detection stage (server.py lines 139-350) *)

Record Masks : Type := mk_masks
  { forbidden_mask : ndarray;
    text_mask : ndarray;
    image_mask : ndarray;
    qrcode_mask : ndarray }.

(** Lines 189-213: the text mask. *)
Definition detect_text (image : ndarray) : state World ndarray :=
  let binary := Cv.threshold_binary image 220 255 in
  let inverted := Cv.rsub255 binary in
  horizontal_kernel <- _get_text_detection_kernel (30, 1) ;;
  let horizontal_lines := Cv.morph_open inverted horizontal_kernel in
  vertical_kernel <- _get_text_detection_kernel (1, 15) ;;
  let vertical_lines := Cv.morph_open inverted vertical_kernel in
  small_kernel <- _get_text_detection_kernel (3, 3) ;;
  let small_elements := Cv.morph_close inverted small_kernel in
  let text_combined := Cv.bitwise_or horizontal_lines vertical_lines in
  let text_combined := Cv.bitwise_or text_combined small_elements in
  dilate_kernel <- _get_text_detection_kernel (30, 15) ;;
  ret (Cv.dilate text_combined dilate_kernel).

(** One guarded [line_masks.append(cv2.morphologyEx(line_binary, OPEN, k))]. *)
Definition append_opening (guard : bool) (size : Z * Z) (line_binary : ndarray)
    (line_masks : list ndarray) : state World (list ndarray) :=
  if guard then
    k <- _get_text_detection_kernel size ;;
    ret (line_masks ++ [Cv.morph_open line_binary k])
  else ret line_masks.

(** [acc = np.zeros(..); for mask in masks: acc = cv2.bitwise_or(acc, mask)] *)
Definition union_masks (height width : Z) (masks : list ndarray) : ndarray :=
  Py.for_each masks (fun mask acc => Cv.bitwise_or acc mask)
              (Np.zeros height width).

(** Lines 218-282: adds the rules to the forbidden mask. No statement of
    the [try] block raises on an array of integers, so the handler of
    lines 284-285 is not reached. *)
Definition detect_lines (image forbidden : ndarray) : state World ndarray :=
  let height := nrows image in
  let width := ncols image in
  let line_binary := Cv.threshold_binary_inv image 200 255 in
  line_masks <- append_opening (100 <? width) (Z.max 100 (width / 3), 1)
                               line_binary [] ;;
  line_masks <- append_opening (60 <? width) (Z.max 60 (width / 5), 1)
                               line_binary line_masks ;;
  line_masks <- append_opening (30 <? width) (Z.max 30 (width / 10), 1)
                               line_binary line_masks ;;
  let detected_horizontal_lines := union_masks height width line_masks in
  line_dilate_kernel <- _get_text_detection_kernel (1, 15) ;;
  let detected_horizontal_lines :=
    Cv.dilate detected_horizontal_lines line_dilate_kernel in
  let forbidden := Cv.bitwise_or forbidden detected_horizontal_lines in
  vertical_line_masks <-
    append_opening (100 <? height) (1, Z.max 100 (height / 3)) line_binary [] ;;
  vertical_line_masks <-
    append_opening (60 <? height) (1, Z.max 60 (height / 5)) line_binary
                   vertical_line_masks ;;
  let detected_vertical_lines :=
    union_masks height width vertical_line_masks in
  vertical_line_dilate_kernel <- _get_text_detection_kernel (15, 1) ;;
  let detected_vertical_lines :=
    Cv.dilate detected_vertical_lines vertical_line_dilate_kernel in
  let forbidden := Cv.bitwise_or forbidden detected_vertical_lines in
  logging DEBUG 282 ;;
  ret forbidden.

(** Lines 301-313: the loop over the contours of the high-frequency map;
    the state is [(image_mask, forbidden_mask)]. *)
Fixpoint mark_images (height width : Z) (contours : list Contour)
    (acc : ndarray * ndarray) : state World (ndarray * ndarray) :=
  match contours with
  | [] => ret acc
  | contour :: rest =>
      if negb (Qle_bool (contourArea contour) (5000 # 1)) then
        let contour_mask := fillPoly_zeros height width contour in
        image_dilate_kernel <- _get_text_detection_kernel (30, 30) ;;
        let contour_mask := Cv.dilate contour_mask image_dilate_kernel in
        mark_images height width rest
          (Cv.bitwise_or (fst acc) contour_mask,
           Cv.bitwise_or (snd acc) contour_mask)
      else mark_images height width rest acc
  end.

(** Lines 326-338: the tests a contour passes to count as a QR code. *)
Definition looks_like_qrcode (image : ndarray) (contour : Contour) : bool :=
  let area := contourArea contour in
  if negb (Qle_bool area (1000 # 1)) && negb (Qle_bool (50000 # 1) area) then
    let '(x, y, w, h) := boundingRect contour in
    let aspect_ratio := if 0 <? h then true_div w h else fconst 0 in
    if flt (fconst (7 # 10)) aspect_ratio
       && flt aspect_ratio (fconst (13 # 10)) then
      let roi := Np.slice image y (y + h) x (x + w) in
      if 0 <? Np.size roi then Np.std_gt roi 40 else false
    else false
  else false.

(** Lines 323-348: the loop over the contours of the binarised page; the
    state is [(qrcode_mask, forbidden_mask)]. No statement of the [try]
    block raises, so the handler of lines 349-350 is not reached. *)
Fixpoint mark_qrcodes (image : ndarray) (contours : list Contour)
    (acc : ndarray * ndarray) : state World (ndarray * ndarray) :=
  match contours with
  | [] => ret acc
  | contour :: rest =>
      if looks_like_qrcode image contour then
        let qr_mask := fillPoly_zeros (nrows image) (ncols image) contour in
        qr_dilate_kernel <- _get_text_detection_kernel (40, 40) ;;
        let qr_mask := Cv.dilate qr_mask qr_dilate_kernel in
        mark_qrcodes image rest
          (Cv.bitwise_or (fst acc) qr_mask, Cv.bitwise_or (snd acc) qr_mask)
      else mark_qrcodes image rest acc
  end.

(** Lines 132-350: the four masks of a page. *)
Definition detect `{Cv2} (image : ndarray) : state World Masks :=
  let height := nrows image in
  let width := ncols image in
  let forbidden := Np.zeros height width in
  text <- detect_text image ;;
  let forbidden := Cv.bitwise_or forbidden text in
  forbidden <- detect_lines image forbidden ;;
  let image_detection :=
    Cv.threshold_binary (laplacian_abs_u8 image) 30 255 in
  let contours := findContours image_detection RETR_EXTERNAL in
  '(images, forbidden) <-
    mark_images height width contours (Np.zeros height width, forbidden) ;;
  let qr_binary := Cv.threshold_binary image 128 255 in
  let qr_contours := findContours qr_binary RETR_TREE in
  '(qrcodes, forbidden) <-
    mark_qrcodes image qr_contours (Np.zeros height width, forbidden) ;;
  ret (mk_masks forbidden text images qrcodes).

(** ** Search stage (server.py lines 352-788) *)

(** The dict [{"x": .., "y": .., "size": .., "stamp_size": ..}]. *)
Module Placement.
Record t : Type := mk { x : Z; y : Z; size : Z; stamp_size : Z }.
End Placement.

(** Line 356. *)
Definition min_margin : Z := 5.

(** [(x, y, white_ratio, available_stamp_size, square_size)] *)
Definition position : Type := (Z * Z * pyfloat * Z * Z)%type.

Record Scan : Type := mk_scan
  { best_position : option position;
    best_stamp_size : Z;
    scan_log : list LogRecord }.

Record CornerBest : Type := mk_corner_best
  { best_corner : option Placement.t;
    corner_stamp_size : Z;
    best_forbidden_ratio : pyfloat;
    best_white_ratio : pyfloat }.

Record FallbackBest : Type := mk_fallback_best
  { best_fallback : option Placement.t;
    best_fallback_stamp_size : Z;
    best_fallback_white_ratio : pyfloat }.

Record EmergencyBest : Type := mk_emergency_best
  { best_emergency : option Placement.t;
    best_emergency_stamp_size : Z;
    best_emergency_white_ratio : pyfloat;
    best_emergency_overlap : pyfloat }.

Section Search.

Variable self : PDFProcessor.
(** [height, width = image.shape] and the two masks the loops read. *)
Variables height width : Z.
Variables forbidden white_binary : ndarray.

Definition min_zone_size : Z := stamp_size_min self + 2 * min_margin.

Definition max_zone_size : Z :=
  Z.max (stamp_size_max self + 2 * min_margin) 410.

(** Lines 370-372. *)
Definition search_sizes_to_try : option (list Z) :=
  let sizes := Py.range max_zone_size (min_zone_size - 1) (-5) in
  match Py.last_item sizes with
  | None => None
  | Some smallest =>
      Some (if smallest =? min_zone_size then sizes
            else sizes ++ [min_zone_size])
  end.

(** [np.sum(forbidden_mask[y:y + s, x:x + s])] *)
Definition forbidden_sum (y x s : Z) : Z :=
  Np.sum (Np.slice forbidden y (y + s) x (x + s)).

(** [np.sum(roi_forbidden) / (s * s)] *)
Definition forbidden_ratio_at (y x s : Z) : pyfloat :=
  true_div (forbidden_sum y x s) (s * s).

(** [np.mean(white_binary[y:y + s, x:x + s]) / 255.0] *)
Definition white_ratio_at (y x s : Z) : pyfloat :=
  fdiv_by (Np.mean (Np.slice white_binary y (y + s) x (x + s))) 255.

(** [min(square_size - 2 * min_margin, stamp_size_max)] *)
Definition available_stamp_size (square_size : Z) : Z :=
  Z.min (square_size - 2 * min_margin) (stamp_size_max self).

(** [square_size >= stamp_size_max + 2 * min_margin - 20] *)
Definition near_max (square_size : Z) : bool :=
  stamp_size_max self + 2 * min_margin - 20 <=? square_size.

(** Line 416. *)
Definition white_threshold (square_size : Z) : pyfloat :=
  if near_max square_size then fconst (95 # 100) else fconst (98 # 100).

(** Lines 410 and 417: the two tests of the primary scan. *)
Definition candidate_is_clean (square_size y x : Z) : bool :=
  (forbidden_sum y x square_size =? 0)
  && fgt (white_ratio_at y x square_size) (white_threshold square_size).

(** Lines 408-434; the flag is the [break] of line 428. *)
Definition scan_visit (square_size y x : Z) (st : Scan) : Scan * bool :=
  if candidate_is_clean square_size y x then
    let white_ratio := white_ratio_at y x square_size in
    let available := available_stamp_size square_size in
    if stamp_size_min self <=? available then
      if stamp_size_max self <=? available then
        (mk_scan (Some (x, y, white_ratio, available, square_size))
                 available (scan_log st ++ [(INFO, 427)]), true)
      else if best_stamp_size st <? available then
        (mk_scan (Some (x, y, white_ratio, available, square_size))
                 available (scan_log st ++ [(DEBUG, 434)]), false)
      else (st, false)
    else (st, false)
  else (st, false).

(** Body of the loop over [x], lines 405-438. *)
Definition scan_x (square_size y x : Z) (st : Scan) : Scan * bool :=
  let (st', broke) := scan_visit square_size y x st in
  if broke then (st', true)
  else (st', stamp_size_max self <=? best_stamp_size st').

(** Body of the loop over [y], lines 404-442. *)
Definition scan_row (square_size step y : Z) (st : Scan) : Scan * bool :=
  let st' :=
    Py.for_break (Py.range 0 (width - square_size) step)
                 (scan_x square_size y) st in
  (st', stamp_size_max self <=? best_stamp_size st').

(** Lines 396-399. *)
Definition scan_step (square_size : Z) : Z :=
  if near_max square_size then Z.max 5 (square_size / 30)
  else Z.max 10 (square_size / 20).

(** Body of the loop over the sizes, lines 381-446. *)
Definition scan_size (square_size : Z) (st : Scan) : Scan * bool :=
  if stamp_size_max self <=? best_stamp_size st then (st, true)
  else
    let search_width := width - square_size in
    let search_height := height - square_size in
    if (search_width <=? 0) || (search_height <=? 0) then (st, false)
    else
      let step := scan_step square_size in
      let st := mk_scan (best_position st) (best_stamp_size st)
                        (scan_log st ++ [(DEBUG, 401)]) in
      let st' :=
        Py.for_break (Py.range 0 search_height step)
                     (scan_row square_size step) st in
      (st', stamp_size_max self <=? best_stamp_size st').

(** Lines 378-446: the primary multi-scale scan. *)
Definition primary_scan (sizes : list Z) : Scan :=
  Py.for_break sizes scan_size (mk_scan None 0 []).

(** Lines 466-476: one position of the local refinement; the state is
    [(best_refined, best_refined_stamp_size)]. *)
Definition refine_visit (found_square_size y x : Z)
    (st : option position * Z) : option position * Z :=
  if forbidden_sum y x found_square_size =? 0 then
    let white_ratio := white_ratio_at y x found_square_size in
    if fgt white_ratio (fconst (98 # 100)) then
      let available := available_stamp_size found_square_size in
      if stamp_size_min self <=? available then
        if snd st <? available then
          (Some (x, y, white_ratio, available, found_square_size), available)
        else st
      else st
    else st
  else st.

(** Lines 450-483: local refinement around the position found, with the
    record it logs. *)
Definition local_refinement (found : position) : position * LogRecord :=
  let '(best_x, best_y, best_white, found_stamp_size, found_square_size) :=
    found in
  let refine_radius := 5 in
  let search_width := width - found_square_size in
  let search_height := height - found_square_size in
  let refined :=
    if (0 <? search_width) && (0 <? search_height) then
      let fine_step := 2 in
      Py.for_each
        (Py.range (Z.max 0 (best_y - refine_radius))
                  (Z.min search_height (best_y + refine_radius + 1))
                  fine_step)
        (fun y st =>
           Py.for_each
             (Py.range (Z.max 0 (best_x - refine_radius))
                       (Z.min search_width (best_x + refine_radius + 1))
                       fine_step)
             (refine_visit found_square_size y) st)
        (None, found_stamp_size)
    else (None, found_stamp_size) in
  match fst refined with
  | Some best_refined =>
      if found_stamp_size <? snd refined then (best_refined, (INFO, 481))
      else (found, (INFO, 483))
  | None => (found, (INFO, 483))
  end.

(** The dict built at line 485 from the position tuple. *)
Definition coords_of (p : position) : Placement.t :=
  let '(best_x, best_y, _, found_stamp_size, found_square_size) := p in
  Placement.mk best_x best_y found_square_size found_stamp_size.

(** Lines 527-528 (and 603-604, 663-664, 712-713). *)
Definition inside_page (x y square_size : Z) : bool :=
  (0 <=? x) && (0 <=? y)
  && (x + square_size <=? width) && (y + square_size <=? height).

(** Lines 497-505. *)
Definition corner_positions_base : list (Z * Z) :=
  [ (width - 20, 20); (20, 20); (width - 20, height - 20);
    (20, height - 20); (width - 50, 50); (50, 50); (width / 2, 20) ].

(** Lines 514-516. *)
Definition fallback_sizes : option (list Z) :=
  let sizes :=
    Py.range (stamp_size_max self + 2 * min_margin) (min_zone_size - 1)
             (-50) in
  match Py.last_item sizes with
  | None => None
  | Some smallest =>
      Some (if smallest =? min_zone_size then sizes
            else sizes ++ [min_zone_size])
  end.

(** Lines 524-567; the flag is the [break] of line 556. *)
Definition corner_visit (square_size : Z) (base : Z * Z) (st : CornerBest)
    : CornerBest * bool :=
  let corner_x := fst base - square_size in
  let corner_y := snd base in
  if inside_page corner_x corner_y square_size then
    let forbidden_ratio := forbidden_ratio_at corner_y corner_x square_size in
    let white_ratio := white_ratio_at corner_y corner_x square_size in
    if feq forbidden_ratio (fconst 0) && fgt white_ratio (fconst (95 # 100))
    then
      let available := available_stamp_size square_size in
      let chosen :=
        mk_corner_best
          (Some (Placement.mk corner_x corner_y square_size available))
          available forbidden_ratio white_ratio in
      if stamp_size_min self <=? available then
        if stamp_size_max self <=? available then (chosen, true)
        else if (corner_stamp_size st <? available)
                || ((available =? corner_stamp_size st)
                    && fgt white_ratio (best_white_ratio st))
        then (chosen, false)
        else (st, false)
      else (st, false)
    else (st, false)
  else (st, false).

Definition is_some {A : Type} (o : option A) : bool :=
  match o with Some _ => true | None => false end.

(** Body of the loop over [fallback_sizes], lines 518-571. *)
Definition corner_size (square_size : Z) (st : CornerBest)
    : CornerBest * bool :=
  if is_some (best_corner st)
     && (stamp_size_max self <=? corner_stamp_size st) then (st, true)
  else
    let st' :=
      Py.for_break corner_positions_base (corner_visit square_size) st in
    (st', is_some (best_corner st')
          && (stamp_size_max self <=? corner_stamp_size st')).

(** Lines 507-571: the corners of the page. *)
Definition corner_search (sizes : list Z) : CornerBest :=
  Py.for_break sizes corner_size
               (mk_corner_best None 0 (fconst 1) (fconst 0)).

(** Lines 579-586. *)
Definition fallback_positions_base : list (Z * Z) :=
  [ (width - 50, 50); (50, 50); (width - 50, height - 50);
    (50, height - 50); (width / 2, 50); (width / 2, height - 50) ].

(** Lines 600-629. *)
Definition fallback_visit (square_size : Z) (base : Z * Z)
    (st : FallbackBest) : FallbackBest :=
  let x := fst base - square_size in
  let y := snd base in
  if inside_page x y square_size then
    if forbidden_sum y x square_size =? 0 then
      let white_ratio := white_ratio_at y x square_size in
      if fgt white_ratio (fconst (95 # 100)) then
        let available := available_stamp_size square_size in
        if stamp_size_min self <=? available then
          if (best_fallback_stamp_size st <? available)
             || ((available =? best_fallback_stamp_size st)
                 && fgt white_ratio (best_fallback_white_ratio st))
          then mk_fallback_best
                 (Some (Placement.mk x y square_size available))
                 available white_ratio
          else st
        else st
      else st
    else st
  else st.

(** Body of the loop over [fallback_sizes], lines 594-629. *)
Definition fallback_size (square_size : Z) (st : FallbackBest)
    : FallbackBest * bool :=
  if is_some (best_fallback st)
     && (stamp_size_min self <=? best_fallback_stamp_size st) then (st, true)
  else
    (Py.for_each fallback_positions_base (fallback_visit square_size) st,
     false).

(** Lines 588-629: the rescue positions. *)
Definition fallback_search (sizes : list Z) : FallbackBest :=
  Py.for_break sizes fallback_size
               (mk_fallback_best None 0 (fconst 0)).

(** Lines 645-650. *)
Definition emergency_positions_base : list (Z * Z) :=
  [ (width - 20, height - 20); (20, height - 20);
    (width - 20, 20); (20, 20) ].

(** Lines 660-688. *)
Definition emergency_strict_visit (square_size : Z) (base : Z * Z)
    (st : EmergencyBest) : EmergencyBest :=
  let emergency_x := fst base - square_size in
  let emergency_y := snd base in
  if inside_page emergency_x emergency_y square_size then
    let forbidden_ratio :=
      forbidden_ratio_at emergency_y emergency_x square_size in
    if feq forbidden_ratio (fconst 0) then
      let white_ratio := white_ratio_at emergency_y emergency_x square_size in
      if fgt white_ratio (fconst (95 # 100)) then
        let available := available_stamp_size square_size in
        if stamp_size_min self <=? available then
          if (best_emergency_stamp_size st <? available)
             || ((available =? best_emergency_stamp_size st)
                 && fgt white_ratio (best_emergency_white_ratio st))
          then mk_emergency_best
                 (Some (Placement.mk emergency_x emergency_y square_size
                                     available))
                 available white_ratio (fconst 0)
          else st
        else st
      else st
    else st
  else st.

(** Lines 652-688: the emergency corners without overlap. *)
Definition emergency_strict (sizes : list Z) : EmergencyBest :=
  Py.for_each sizes
    (fun square_size st =>
       Py.for_each emergency_positions_base
                   (emergency_strict_visit square_size) st)
    (mk_emergency_best None 0 (fconst 0) (fconst 1)).

(** Line 698. *)
Definition MAX_ALLOWED_OVERLAP : pyfloat := fconst (10 # 100).

(** Lines 709-751. *)
Definition emergency_overlap_visit (square_size : Z) (base : Z * Z)
    (st : EmergencyBest) : EmergencyBest :=
  let emergency_x := fst base - square_size in
  let emergency_y := snd base in
  if inside_page emergency_x emergency_y square_size then
    let forbidden_ratio :=
      forbidden_ratio_at emergency_y emergency_x square_size in
    if fle forbidden_ratio MAX_ALLOWED_OVERLAP then
      let white_ratio := white_ratio_at emergency_y emergency_x square_size in
      if fgt white_ratio (fconst (90 # 100)) then
        let available := available_stamp_size square_size in
        if stamp_size_min self <=? available then
          let is_better :=
            if best_emergency_stamp_size st <? available then true
            else if available =? best_emergency_stamp_size st then
              if flt forbidden_ratio (best_emergency_overlap st) then true
              else feq forbidden_ratio (best_emergency_overlap st)
                   && fgt white_ratio (best_emergency_white_ratio st)
            else false in
          if is_better then
            mk_emergency_best
              (Some (Placement.mk emergency_x emergency_y square_size
                                  available))
              available white_ratio forbidden_ratio
          else st
        else st
      else st
    else st
  else st.

(** Lines 700-751: the emergency corners with at most 10% of overlap. *)
Definition emergency_overlap (sizes : list Z) : EmergencyBest :=
  Py.for_each sizes
    (fun square_size st =>
       Py.for_each emergency_positions_base
                   (emergency_overlap_visit square_size) st)
    (mk_emergency_best None 0 (fconst 0) (fconst 1)).

(** Lines 763-778: the forced position, top right. *)
Definition forced_position : Placement.t :=
  let forced_square_size := stamp_size_min self + 2 * min_margin in
  let forced_x := Z.max 0 (width - forced_square_size - 20) in
  let forced_y := 20 in
  let forced_x :=
    if width <? forced_x + forced_square_size
    then Z.max 0 (width - forced_square_size) else forced_x in
  let forced_y :=
    if height <? forced_y + forced_square_size
    then Z.max 0 (height - forced_square_size) else forced_y in
  Placement.mk forced_x forced_y forced_square_size (stamp_size_min self).

(** Lines 781-786: the record logged with the forced position. *)
Definition forced_log : list LogRecord :=
  let p := forced_position in
  let roi_forbidden :=
    Np.slice forbidden
             (Placement.y p) (Z.min (Placement.y p + Placement.size p) height)
             (Placement.x p) (Z.min (Placement.x p + Placement.size p) width)
    in
  if 0 <? Np.size roi_forbidden then [(WARNING, 786)] else [].

(** What [return] hands back, with the line of the [return] statement
    that did (485, 575, 633, 692, 756 or 788); the line is not part of
    the Python value. *)
Definition outcome : Type := (Placement.t * Z)%type.

(** Lines 492-788: the tiers tried when the primary scan found nothing. *)
Definition fallback_tiers (sizes : list Z)
    : list LogRecord * Py.result outcome :=
  let log := [(WARNING, 493)] in
  match fallback_sizes with
  | None => (log, Py.RaisesIndexError)
  | Some fsizes =>
      let corner := corner_search fsizes in
      match best_corner corner with
      | Some c => (log ++ [(WARNING, 574)], Py.Returns (c, 575))
      | None =>
          match best_fallback (fallback_search fsizes) with
          | Some f => (log ++ [(INFO, 632)], Py.Returns (f, 633))
          | None =>
              let log := log ++ [(WARNING, 641)] in
              let strict := emergency_strict sizes in
              match best_emergency strict with
              | Some e =>
                  if feq (best_emergency_overlap strict) (fconst 0)
                  then (log ++ [(INFO, 691)], Py.Returns (e, 692))
                  else
                    let log := log ++ [(WARNING, 696)] in
                    match best_emergency (emergency_overlap sizes) with
                    | Some e' =>
                        (log ++ [(WARNING, 755)], Py.Returns (e', 756))
                    | None =>
                        (log ++ [(ERROR, 760)] ++ forced_log,
                         Py.Returns (forced_position, 788))
                    end
              | None =>
                  let log := log ++ [(WARNING, 696)] in
                  match best_emergency (emergency_overlap sizes) with
                  | Some e' =>
                      (log ++ [(WARNING, 755)], Py.Returns (e', 756))
                  | None =>
                      (log ++ [(ERROR, 760)] ++ forced_log,
                       Py.Returns (forced_position, 788))
                  end
              end
          end
      end
  end.

(** Lines 352-788: the search on the two masks. *)
Definition search : list LogRecord * Py.result outcome :=
  match search_sizes_to_try with
  | None => ([], Py.RaisesIndexError)
  | Some sizes =>
      let log := [(INFO, 374)] in
      let scan := primary_scan sizes in
      let log := log ++ scan_log scan in
      match best_position scan with
      | Some found =>
          let (best, record) := local_refinement found in
          (log ++ [record], Py.Returns (coords_of best, 485))
      | None =>
          let (log', r) := fallback_tiers sizes in (log ++ log', r)
      end
  end.

(** [search] with lines 452-483 left out: the position of the primary
    scan is returned as found. *)
Definition search_without_refinement
    : list LogRecord * Py.result outcome :=
  match search_sizes_to_try with
  | None => ([], Py.RaisesIndexError)
  | Some sizes =>
      let log := [(INFO, 374)] in
      let scan := primary_scan sizes in
      let log := log ++ scan_log scan in
      match best_position scan with
      | Some found => (log ++ [(INFO, 483)], Py.Returns (coords_of found, 485))
      | None =>
          let (log', r) := fallback_tiers sizes in (log ++ log', r)
      end
  end.

End Search.

(** ** [PDFProcessor.find_whitest_space] of server.py *)

(** The tuple [(coords, forbidden_mask, text_mask, image_mask,
    qrcode_mask)] of the [return] statements, tagged with the line of the
    statement that built it. *)
Record Returned : Type := mk_returned
  { coords : Placement.t;
    masks : Masks;
    return_line : Z }.

(** The value built from the outcome of the search. *)
Definition returned_of (found : Masks) (r : Py.result (Placement.t * Z))
    : Py.result Returned :=
  match r with
  | Py.Returns (c, line) => Py.Returns (mk_returned c found line)
  | Py.RaisesIndexError => Py.RaisesIndexError
  end.

Definition find_whitest_space `{Cv2} (self : PDFProcessor)
    : state World (Py.result Returned) :=
  image <- read_image ;;
  let height := nrows image in
  let width := ncols image in
  found <- detect image ;;
  let white_binary := Cv.threshold_binary image 245 255 in
  let (records, r) :=
    search self height width (forbidden_mask found) white_binary in
  emit records ;;
  ret (returned_of found r).

(** The engine without its local-refinement stage (lines 452-483). *)
Definition find_whitest_space_without_refinement `{Cv2} (self : PDFProcessor)
    : state World (Py.result Returned) :=
  image <- read_image ;;
  let height := nrows image in
  let width := ncols image in
  found <- detect image ;;
  let white_binary := Cv.threshold_binary image 245 255 in
  let (records, r) :=
    search_without_refinement self height width (forbidden_mask found)
                              white_binary in
  emit records ;;
  ret (returned_of found r).

(** ** [PDFProcessor.find_whitest_space] of processor.py *)

Module Client.

(** Lines 87-93: the long horizontal rules. *)
Definition detect_lines (image forbidden : ndarray) : state World ndarray :=
  let width := ncols image in
  let line_binary := Cv.threshold_binary_inv image 200 255 in
  if 100 <? width then
    kernel_long <- _get_text_detection_kernel (Z.max 100 (width / 3), 1) ;;
    let lines_long := Cv.morph_open line_binary kernel_long in
    line_dilate <- _get_text_detection_kernel (1, 15) ;;
    let lines_long := Cv.dilate lines_long line_dilate in
    ret (Cv.bitwise_or forbidden lines_long)
  else ret forbidden.

(** Lines 102-108: the loop over the contours of the high-frequency map. *)
Fixpoint mark_images (height width : Z) (contours : list Contour)
    (forbidden : ndarray) : state World ndarray :=
  match contours with
  | [] => ret forbidden
  | contour :: rest =>
      if negb (Qle_bool (contourArea contour) (5000 # 1)) then
        let contour_mask := fillPoly_zeros height width contour in
        image_dilate <- _get_text_detection_kernel (30, 30) ;;
        let contour_mask := Cv.dilate contour_mask image_dilate in
        mark_images height width rest (Cv.bitwise_or forbidden contour_mask)
      else mark_images height width rest forbidden
  end.

(** Lines 58-108: the forbidden mask. *)
Definition detect `{Cv2} (image : ndarray) : state World ndarray :=
  let height := nrows image in
  let width := ncols image in
  let forbidden := Np.zeros height width in
  text <- detect_text image ;;
  let forbidden := Cv.bitwise_or forbidden text in
  forbidden <- detect_lines image forbidden ;;
  let image_detection :=
    Cv.threshold_binary (laplacian_abs_u8 image) 30 255 in
  let contours := findContours image_detection RETR_EXTERNAL in
  mark_images height width contours forbidden.

(** State of the scan: the dict of the [return] of line 145 once it has
    run, then [best_position] and [best_stamp_size]. *)
Record Scan : Type := mk_scan
  { returned : option Placement.t;
    best_position : option (Z * Z * Z * Z);
    best_stamp_size : Z }.

Section Search.

Variable self : PDFProcessor.
Variables height width : Z.
Variables forbidden white_binary : ndarray.

(** Lines 137-142: the two tests of the scan. *)
Definition candidate_is_clean (square_size y x : Z) : bool :=
  (forbidden_sum forbidden y x square_size =? 0)
  && fgt (white_ratio_at white_binary y x square_size)
         (fconst (95 # 100)).

(** Lines 137-148; the flag is the [return] of line 145. *)
Definition scan_visit (square_size y x : Z) (st : Scan) : Scan * bool :=
  if candidate_is_clean square_size y x then
    let available := available_stamp_size self square_size in
    if stamp_size_min self <=? available then
      if stamp_size_max self <=? available then
        (mk_scan (Some (Placement.mk x y square_size available))
                 (best_position st) (best_stamp_size st), true)
      else if best_stamp_size st <? available then
        (mk_scan (returned st) (Some (x, y, square_size, available))
                 available, false)
      else (st, false)
    else (st, false)
  else (st, false).

(** Body of the loop over [x], lines 136-151. *)
Definition scan_x (square_size y x : Z) (st : Scan) : Scan * bool :=
  let (st', left) := scan_visit square_size y x st in
  if left then (st', true)
  else (st', stamp_size_max self <=? best_stamp_size st').

(** Body of the loop over [y], lines 135-153. *)
Definition scan_row (square_size step y : Z) (st : Scan) : Scan * bool :=
  let st' :=
    Py.for_break (Py.range 0 (width - square_size) step)
                 (scan_x square_size y) st in
  (st', is_some (returned st')
        || (stamp_size_max self <=? best_stamp_size st')).

(** Line 133. *)
Definition scan_step (square_size : Z) : Z :=
  if stamp_size_max self <=? square_size then Z.max 5 (square_size / 30)
  else Z.max 10 (square_size / 20).

(** Body of the loop over the sizes, lines 123-153. *)
Definition scan_size (square_size : Z) (st : Scan) : Scan * bool :=
  if stamp_size_max self <=? best_stamp_size st then (st, true)
  else
    let search_width := width - square_size in
    let search_height := height - square_size in
    if (search_width <=? 0) || (search_height <=? 0) then (st, false)
    else
      let step := scan_step square_size in
      let st' :=
        Py.for_break (Py.range 0 search_height step)
                     (scan_row square_size step) st in
      (st', is_some (returned st')).

(** Lines 160-165. *)
Definition corners : list (Z * Z) :=
  let m := stamp_size_min self in
  [ (width - m - 40, 20); (20, 20);
    (width - m - 40, height - m - 40); (20, height - m - 40) ].

(** Lines 167-169: the first corner inside the page, if any. *)
Fixpoint first_corner (cs : list (Z * Z)) : option Placement.t :=
  match cs with
  | [] => None
  | (cx, cy) :: rest =>
      let m := stamp_size_min self in
      if (0 <=? cx) && (cx <? width - m) && (0 <=? cy) && (cy <? height - m)
      then Some (Placement.mk cx cy (m + 20) m)
      else first_corner rest
  end.

(** Lines 111-172: the search on the two masks. *)
Definition search : Py.result Placement.t :=
  let min_zone_size := stamp_size_min self + 2 * min_margin in
  let max_zone_size := Z.max (stamp_size_max self + 2 * min_margin) 410 in
  let search_sizes := Py.range max_zone_size (min_zone_size - 1) (-5) in
  let scan := Py.for_break search_sizes scan_size (mk_scan None None 0) in
  match returned scan with
  | Some found => Py.Returns found
  | None =>
      match best_position scan with
      | Some (x, y, sq_size, st_size) =>
          Py.Returns (Placement.mk x y sq_size st_size)
      | None =>
          match first_corner corners with
          | Some c => Py.Returns c
          | None =>
              let m := stamp_size_min self in
              Py.Returns (Placement.mk (width - m - 40) 20 (m + 20) m)
          end
      end
  end.

End Search.

Definition find_whitest_space `{Cv2} (self : PDFProcessor)
    : state World (Py.result Placement.t) :=
  image <- read_image ;;
  let height := nrows image in
  let width := ncols image in
  forbidden <- detect image ;;
  let white_binary := Cv.threshold_binary image 245 255 in
  ret (search self height width forbidden white_binary).

End Client.

(** ** Vocabulary of the properties *)

(** Every pixel of the array has the value [v]. *)
Definition uniform (a : ndarray) (v : Z) : Prop :=
  forall y x, 0 <= y < nrows a -> 0 <= x < ncols a -> px a y x = v.

(** The array has the shape of the page. *)
Definition same_shape (a b : ndarray) : Prop :=
  nrows a = nrows b /\ ncols a = ncols b.

(** Every stored element is the one its key builds: the invariant of the
    [lru_cache], which only [_get_text_detection_kernel] fills. *)
Definition cache_ok (c : list ((Z * Z) * Kernel)) : Prop :=
  Forall (fun e => snd e = Cv.getStructuringElement (fst e)) c.

(** [0 <= x], [0 <= y], [x + zone <= W], [y + zone <= H] and
    [stamp_min <= stamp <= stamp_max]. *)
Definition fits (self : PDFProcessor) (height width : Z) (p : Placement.t)
    : Prop :=
  0 <= Placement.x p /\ 0 <= Placement.y p
  /\ Placement.x p + Placement.size p <= width
  /\ Placement.y p + Placement.size p <= height
  /\ stamp_size_min self <= Placement.stamp_size p <= stamp_size_max self.

(** A computation of the detection stage establishes [Q] on its value from
    any world whose cache is well formed, and leaves the cache so. *)
Definition computes {A : Type} (m : state World A) (Q : A -> Prop) : Prop :=
  forall w, cache_ok (kernel_lru w) ->
    Q (evalState m w) /\ cache_ok (kernel_lru (execState m w)).

(** A computation leaves the caller's raster alone and only appends the
    records [l] to the log. *)
Definition frames {A : Type} (m : state World A) (l : list LogRecord) : Prop :=
  forall w, raster (execState m w) = raster w
            /\ log_out (execState m w) = log_out w ++ l.

(** The masks of a page: the detection stage run from an empty cache. *)
Definition page_masks `{Cv2} (image : ndarray) : Masks :=
  evalState (detect image) (mk_world image [] []).

(** The forbidden mask the client computes for a page. *)
Definition client_forbidden `{Cv2} (image : ndarray) : ndarray :=
  evalState (Client.detect image) (mk_world image [] []).

(** [white_binary] of line 359. *)
Definition white_mask (image : ndarray) : ndarray :=
  Cv.threshold_binary image 245 255.

(** The candidates [(s, y, x)] of one zone size in the order the two inner
    loops visit them: ascending [y], then ascending [x]. *)
Definition scan_positions (step_of : Z -> Z) (height width s : Z)
    : list (Z * Z * Z) :=
  if (width - s <=? 0) || (height - s <=? 0) then []
  else
    flat_map
      (fun y => map (fun x => (s, y, x)) (Py.range 0 (width - s) (step_of s)))
      (Py.range 0 (height - s) (step_of s)).

(** All candidates in scan order, the sizes as listed. *)
Definition scan_order (step_of : Z -> Z) (height width : Z) (sizes : list Z)
    : list (Z * Z * Z) :=
  flat_map (scan_positions step_of height width) sizes.

(** A clean candidate whose effective stamp is [stamp_size_max]. *)
Definition clean_at_max (self : PDFProcessor) (clean : Z -> Z -> Z -> bool)
    (c : Z * Z * Z) : bool :=
  let '(s, y, x) := c in
  clean s y x && (stamp_size_max self <=? available_stamp_size self s).

(** The acceptance rule of the primary scan with the whiteness ratio
    compared to theta by [cmp]: no forbidden pixel in the square, and
    [cmp theta ratio]. The specification words it with [<=]. *)
Definition clean_when (cmp : Q -> Q -> Prop) (self : PDFProcessor)
    (forbidden white_binary : ndarray) (s y x : Z) : Prop :=
  forbidden_sum forbidden y x s = 0
  /\ exists r, white_ratio_at white_binary y x s = Some r
               /\ (if stamp_size_max self + 2 * min_margin - 20 <=? s
                   then cmp (95 # 100) r else cmp (98 # 100) r).

(** An implementation of the interface that sees no contour anywhere. *)
Definition no_contours : Cv2 :=
  {| laplacian_abs_u8 := fun image => Np.zeros (nrows image) (ncols image);
     findContours := fun _ _ => [] |}.

(** A plain implementation of the interface: the Laplacian of the raster
    itself, borders replicated, and a single contour, the frame of the
    map, as soon as the map has a set pixel. *)
Definition frame_contours : Cv2 :=
  {| laplacian_abs_u8 := fun image =>
       let at_ y x :=
         px image (Z.max 0 (Z.min y (nrows image - 1)))
                  (Z.max 0 (Z.min x (ncols image - 1))) in
       mk_ndarray (shape0 image) (shape1 image)
         (fun y x =>
            Z.abs (at_ (y - 1) x + at_ (y + 1) x + at_ y (x - 1)
                   + at_ y (x + 1) - 4 * at_ y x) mod 256);
     findContours := fun a _ =>
       if Np.sum a =? 0 then []
       else [mk_contour (inject_Z ((nrows a - 1) * (ncols a - 1)))
                        (0, 0, ncols a, nrows a)
                        (fun y x => Cv.in_image a y x)] |}.

(** What the engine needs of OpenCV on a page of a single intensity: its
    Laplacian vanishes, and an all-zero map has no contour. *)
Definition flat_pages_have_no_edges (cv : Cv2) : Prop :=
  (forall image v, uniform image v -> uniform (laplacian_abs_u8 image) 0)
  /\ (forall a, uniform a 0 -> findContours a RETR_EXTERNAL = []).

(** The processor of the gRPC servicer (server.py line 1316). *)
Definition servicer_processor : PDFProcessor := mk_processor 300 200.

(** A page of a single intensity, met with an empty cache and log. *)
Definition blank_page (height width v : Z) : World :=
  mk_world (mk_ndarray (Z.to_N height) (Z.to_N width) (fun _ _ => v)) [] [].

(** A page white on its first 285 rows and light grey (240) below. *)
Definition grey_foot_page : ndarray :=
  mk_ndarray 400 400 (fun y _ => if y <? 285 then 255 else 240).

(** A mask of the page with no pixel set. *)
Definition zero_like (image t : ndarray) : Prop :=
  same_shape t image /\ uniform t 0.

(** The value of a computation does not depend on the cache it meets. *)
Definition determined {A : Type} (m : state World A) : Prop :=
  exists v, computes m (eq v).

(** The position kept by the primary scan lies inside the page, and its
    stamp is the effective stamp of its zone. *)
Definition scan_ok (self : PDFProcessor) (height width : Z) (st : Scan)
    : Prop :=
  forall x y wr stp s, best_position st = Some (x, y, wr, stp, s) ->
    0 <= x /\ x + s <= width /\ 0 <= y /\ y + s <= height
    /\ stp = available_stamp_size self s /\ stamp_size_min self <= stp.

(** No square of a listed size inside the page passes a whiteness test. *)
Definition rejecting (self : PDFProcessor) (height width : Z)
    (white_binary : ndarray) : Prop :=
  forall s y x q, min_zone_size self <= s ->
    inside_page height width x y s = true -> (0 < q)%Q ->
    fgt (white_ratio_at white_binary y x s) (Some q) = false.

(** The primary scan has not reached the largest stamp yet. *)
Definition below_max (self : PDFProcessor) (st : Scan) : Prop :=
  best_stamp_size st < stamp_size_max self.

(** The primary scan stopped on [(s, y, x)] with the largest stamp. *)
Definition stopped_at (self : PDFProcessor) (s y x : Z) (st : Scan) : Prop :=
  exists wr log,
    st = mk_scan (Some (x, y, wr, stamp_size_max self, s))
                 (stamp_size_max self) log.

(** The client's scan is still running, below the largest stamp. *)
Definition client_running (self : PDFProcessor) (st : Client.Scan) : Prop :=
  Client.returned st = None /\ Client.best_stamp_size st < stamp_size_max self.

(** The client's scan returned from [(s, y, x)] with the largest stamp. *)
Definition client_stopped_at (self : PDFProcessor) (s y x : Z)
    (st : Client.Scan) : Prop :=
  Client.returned st = Some (Placement.mk x y s (stamp_size_max self)).

(** * The pipeline around the engine

    Shallow embedding of the callers of [find_whitest_space]: the
    processing of a page and of a document in [src/server.py], its gRPC
    servicer, the REST gateway of [src/api_gateway.py], the token reader
    of [src/jwt_service.py], and the pipeline and the command line of
    [processor.py].

    Further conventions.
    - What a processor keeps from one call to the next ([self.low_dpi],
      the kernel cache, the log) is a [Session], threaded through the
      calls by a state monad.
    - A PDF is the list of its pages and a saved PNG is what it shows.
      Rendering a page and reading or writing a temporary file succeed;
      a download succeeds or fails as the network, a function of the
      source, decides.
    - A Python [str] is the list of its code points.
    - The pages handed to [ThreadPoolExecutor.map] are processed one after
      the other, in the order of the arguments. *)

(** ** Stamping a page (server.py lines 997-1123) *)

(** What [_process_single_page] draws on the rendered page: the box the
    stamp image is pasted in ([page_img.paste] at
    [(x + adjusted_margin, y + adjusted_margin)], the image resized to
    [adjusted_stamp_size] a side) and the point the two lines of text are
    laid out around. *)
Record Stamping : Type := mk_stamping
  { paste_x : Z;
    paste_y : Z;
    paste_size : Z;
    center_x : Z;
    center_y : Z }.

(** Lines 1044-1095. [coords] is the dict [find_whitest_space] returned,
    so every [get] finds its key, and [int(float(n))] is [n]. *)
Definition stamping_of (coords : Placement.t) : option Stamping :=
  if (0 <=? Placement.x coords) && (0 <=? Placement.y coords) then
    let x := Placement.x coords in
    let y := Placement.y coords in
    let adjusted_stamp_size := Placement.stamp_size coords in
    let adjusted_zone_size := Placement.size coords in
    let adjusted_margin := (adjusted_zone_size - adjusted_stamp_size) / 2 in
    Some (mk_stamping (x + adjusted_margin) (y + adjusted_margin)
                      adjusted_stamp_size
                      (x + adjusted_margin + adjusted_stamp_size / 2)
                      (y + adjusted_margin + adjusted_stamp_size / 2))
  else None.

(** The PNG file a page is saved to, by what it shows: the page of the
    document, the resolution it was rendered at, and what was drawn. *)
Record Sheet : Type := mk_sheet
  { sheet_page : Z;
    sheet_dpi : Z;
    drawn : option Stamping }.

(** What a processor carries from one call to the next: [self.low_dpi],
    the [lru_cache] of the kernels, and the records handed to [logging]. *)
Record Session : Type := mk_session
  { low_dpi : Z;
    kernel_cache : list ((Z * Z) * Kernel);
    log : list LogRecord }.

(** What the call on a page raises, past the record of line 1122: the
    [IndexError] of [find_whitest_space], or the [ZeroDivisionError] of
    the percentage of line 1062 on a zone of side 0. *)
Inductive PageError : Type :=
| PageIndexError
| PageZeroDivisionError.

Inductive page_result (A : Type) : Type :=
| PageReturns (v : A)
| PageRaises (e : PageError).
Arguments PageReturns {A} v.
Arguments PageRaises {A} e.

(** Outcome of a call that converts every exception to [ValueError]. *)
Inductive raising (A : Type) : Type :=
| Done (v : A)
| RaisesValueError.
Arguments Done {A} v.
Arguments RaisesValueError {A}.

Definition set_low_dpi (dpi : Z) : state Session unit :=
  s <- get ;; put (mk_session dpi (kernel_cache s) (log s)).

Definition record (lvl : Level) (line : Z) : state Session unit :=
  s <- get ;;
  put (mk_session (low_dpi s) (kernel_cache s) (log s ++ [(lvl, line)])).

(** [results.sort(key=lambda x: x[0])]: a stable sort on the page number,
    written as the insertion sort that gives the same list. *)
Fixpoint insert_by_page {A : Type} (r : Z * A) (sorted : list (Z * A))
    : list (Z * A) :=
  match sorted with
  | [] => [r]
  | r' :: rest =>
      if fst r' <=? fst r then r' :: insert_by_page r rest
      else r :: sorted
  end.

Definition sort_by_page {A : Type} (results : list (Z * A)) : list (Z * A) :=
  fold_left (fun sorted r => insert_by_page r sorted) results [].

(** A PDF as the list of its pages: a page of the source document, or a
    page made of a rendered (and stamped) image. *)
Inductive Page : Type :=
| Original (page_number : Z)
| Image (sheet : Sheet).

(** [output.insert_pdf(src, from_page=a, to_page=b)] of PyMuPDF: pages [a]
    to [b] of [src], both included and counted from 0, are appended; the
    calls of the source have [0 <= a <= b]. *)
Definition insert_pdf (output src : list Page) (from_page to_page : Z)
    : list Page :=
  output ++ firstn (Z.to_nat (to_page - from_page + 1))
                   (skipn (Z.to_nat from_page) src).

(** Lines 960-991. *)
Definition _merge_first_page_with_rest (stamped_pdf original_pdf : list Page)
    (num_pages : Z) : state Session (list Page) :=
  let output_pdf := [] in
  let output_pdf := insert_pdf output_pdf stamped_pdf 0 0 in
  let output_pdf :=
    if 1 <? num_pages
    then insert_pdf output_pdf original_pdf 1 (num_pages - 1)
    else output_pdf in
  record INFO 990 ;;
  ret output_pdf.

(** Lines 1207-1227: workers, DPI, and the line of the record logged. *)
Definition adaptive_settings (cpu_count num_pages : Z) : Z * Z * Z :=
  if 300 <? num_pages then (Z.min 16 (Z.max 2 (cpu_count * 2)), 120, 1212)
  else if 100 <? num_pages then
    (Z.min 12 (Z.max 2 (cpu_count * 2)), 150, 1217)
  else if 20 <? num_pages then (Z.min 8 (Z.max 2 cpu_count), 150, 1222)
  else (Z.min 6 (Z.max 2 cpu_count), 200, 1227).

Section Pipeline.

Context `{Cv2}.

(** The document being processed, as pdf2image renders it:
    [cv2.cvtColor(np.array(convert_from_path(pdf_path, dpi=dpi,
    first_page=n, last_page=n)[0]), cv2.COLOR_RGB2GRAY)]. Rendering, like
    every file operation of the pipeline, is taken to succeed. *)
Variable gray_page : Z -> Z -> ndarray.

Variable self : PDFProcessor.

(** Lines 997-1123, with [enable_debug] off as [__init__] leaves it. The
    test [coords is None] of line 1021 fails on the dict every [return]
    of [find_whitest_space] builds, so the third item of the result is
    that dict and never the [None] of line 1036. The record of line 1062
    divides by the side of the zone. *)
Definition _process_single_page (page_num : Z)
    : state Session (page_result (Z * (Sheet * option Placement.t))) :=
  s <- get ;;
  let gray_image := gray_page (low_dpi s) page_num in
  let (result, w) :=
    runState (find_whitest_space self)
             (mk_world gray_image (kernel_cache s) (log s)) in
  match result with
  | Py.Returns r =>
      let coords := coords r in
      match stamping_of coords with
      | Some stamping =>
          if Placement.size coords =? 0 then
            put (mk_session (low_dpi s) (kernel_lru w)
                            (log_out w ++ [(ERROR, 1122)])) ;;
            ret (PageRaises PageZeroDivisionError)
          else
            put (mk_session (low_dpi s) (kernel_lru w)
                            (log_out w ++ [(INFO, 1062)])) ;;
            ret (PageReturns
                   (page_num,
                    (mk_sheet page_num (low_dpi s) (Some stamping),
                     Some coords)))
      | None =>
          put (mk_session (low_dpi s) (kernel_lru w) (log_out w)) ;;
          ret (PageReturns (page_num,
                            (mk_sheet page_num (low_dpi s) None,
                             Some coords)))
      end
  | Py.RaisesIndexError =>
      put (mk_session (low_dpi s) (kernel_lru w)
                      (log_out w ++ [(ERROR, 1122)])) ;;
      ret (PageRaises PageIndexError)
  end.

(** [list(executor.map(self._process_single_page, page_args))]: the
    results come in the order of the arguments, and the first exception
    is raised in their place. The pages are run one after the other: one of
    the schedules of the pool, in which the pages after a failure are
    cancelled. *)
Fixpoint executor_map (page_args : list Z)
    : state Session
        (page_result (list (Z * (Sheet * option Placement.t)))) :=
  match page_args with
  | [] => ret (PageReturns [])
  | page_num :: rest =>
      first <- _process_single_page page_num ;;
      match first with
      | PageReturns r =>
          others <- executor_map rest ;;
          match others with
          | PageReturns rs => ret (PageReturns (r :: rs))
          | PageRaises e => ret (PageRaises e)
          end
      | PageRaises e => ret (PageRaises e)
      end
  end.

(** One [logging.info] per image, line 1249. *)
Definition record_images {A : Type} (images : list A) : state Session unit :=
  s <- get ;;
  put (mk_session (low_dpi s) (kernel_cache s)
                  (log s ++ map (fun _ => (INFO, 1249)) images)).

(** Lines 1125-1266: the PDF written and the list [coordinates].
    [num_pages] is [pdfinfo_from_path(pdf_path)['Pages']], and the source
    document has that many pages. *)
Definition process_document (cpu_count num_pages : Z)
    (stamp_only_first_page : bool)
    : state Session (raising (list Page * list (option Placement.t))) :=
  if stamp_only_first_page then
    record INFO 1135 ;;
    record INFO 1145 ;;
    first_page_result <- _process_single_page 1 ;;
    match first_page_result with
    | PageReturns (_, (sheet, coords)) =>
        let coordinates := [coords] in
        record INFO 1160 ;;
        let stamped_first_page := [Image sheet] in
        record INFO 1184 ;;
        if 1 <? num_pages then
          record INFO 1191 ;;
          let original_pdf :=
            map Original (Py.range 1 (num_pages + 1) 1) in
          output <- _merge_first_page_with_rest stamped_first_page original_pdf
                                                num_pages ;;
          ret (Done (output, coordinates))
        else ret (Done (stamped_first_page, coordinates))
    | PageRaises _ =>
        record ERROR 1265 ;;
        ret RaisesValueError
    end
  else
    let '(adaptive_workers, dpi, line) :=
      adaptive_settings cpu_count num_pages in
    set_low_dpi dpi ;;
    record INFO line ;;
    let page_args := map (fun i => i + 1) (Py.range 0 num_pages 1) in
    results <- executor_map page_args ;;
    match results with
    | PageReturns results =>
        let results := sort_by_page results in
        let stamped_image_paths := map (fun r => fst (snd r)) results in
        let coordinates := map (fun r => snd (snd r)) results in
        record INFO 1247 ;;
        record_images stamped_image_paths ;;
        record INFO 1253 ;;
        ret (Done (map Image stamped_image_paths, coordinates))
    | PageRaises _ =>
        record ERROR 1265 ;;
        ret RaisesValueError
    end.

End Pipeline.

(** A processor fresh from [__init__]: [low_dpi=200], nothing cached,
    nothing logged. *)
Definition fresh_session : Session := mk_session 200 [] [].

(** ** Python strings *)

(** A [str] is the list of its code points. *)
Definition str : Type := list N.

(** An ASCII literal. *)
Definition lit (s : String.string) : str :=
  map Ascii.N_of_ascii (String.list_ascii_of_string s).
Arguments lit s%_string.

(** [a == b] *)
Fixpoint str_eqb (a b : str) : bool :=
  match a, b with
  | [], [] => true
  | c :: a', d :: b' => N.eqb c d && str_eqb a' b'
  | _, _ => false
  end.

(** [bool(s)]: a string is true when it is not empty. *)
Definition nonempty (s : str) : bool :=
  match s with [] => false | _ :: _ => true end.

(** [c.isspace()], the whitespace of [str.strip()]. *)
Definition isspace (c : N) : bool :=
  existsb (N.eqb c)
    [9; 10; 11; 12; 13; 28; 29; 30; 31; 32; 133; 160; 5760; 8192; 8193;
     8194; 8195; 8196; 8197; 8198; 8199; 8200; 8201; 8202; 8232; 8233;
     8239; 8287; 12288]%N.

Fixpoint lstrip (s : str) : str :=
  match s with
  | [] => []
  | c :: rest => if isspace c then lstrip rest else s
  end.

(** [s.strip()] *)
Definition strip (s : str) : str := rev (lstrip (rev (lstrip s))).

(** [s.split(sep)] for a separator of one character: the pieces between
    the occurrences of [sep], empty pieces included; never an empty list. *)
Fixpoint split (sep : N) (s : str) : list str :=
  match s with
  | [] => [[]]
  | c :: rest =>
      if N.eqb c sep then [] :: split sep rest
      else
        match split sep rest with
        | piece :: pieces => (c :: piece) :: pieces
        | [] => [[c]]
        end
  end.

(** ** The messages of [pdf_service_pb2] *)

Module Pb.

(** A sub-message that was never set reads as one whose strings are
    empty. A numeric field holds the number it was given. *)
Record DriveFile : Type := mk_drive_file
  { id : str;
    accessToken : str }.

Record PDFRequest : Type := mk_request
  { pdf_url : str;
    stamp_url : str;
    document_index : Z;
    prefix : str;
    googleDriveFile : DriveFile;
    ooDriveFile : DriveFile;
    stampOnlyFirstPage : bool }.

Record Coordinates : Type := mk_coordinates
  { page_number : Z;
    x : Z;
    y : Z;
    size : Z }.

Record PDFResponse : Type := mk_response
  { processed_pdf : list Page;
    coordinates : list Coordinates }.

(** [pdf_service_pb2.PDFResponse()] *)
Definition empty_response : PDFResponse := mk_response [] [].

(** The status of the call, [OK] unless [context.set_code] changed it. *)
Inductive StatusCode : Type := OK | INTERNAL.

End Pb.

(** ** [PDFServicer.ProcessPDF] of server.py *)

(** Where the PDF is downloaded from. *)
Inductive Source : Type :=
| GoogleDrive (file_id access_token : str)
| OoDrive (ooDriveFile : Pb.DriveFile)
| Url (url : str).

(** Lines 1330-1337: the source of the request; [None] is the
    [ValueError("Aucun fichier source fourni")] of line 1337. A
    sub-message is an object, which the first conjunct of each test takes
    as true. *)
Definition select_source (request : Pb.PDFRequest) : option Source :=
  if nonempty (Pb.id (Pb.googleDriveFile request))
     && nonempty (Pb.accessToken (Pb.googleDriveFile request))
  then Some (GoogleDrive (Pb.id (Pb.googleDriveFile request))
                         (Pb.accessToken (Pb.googleDriveFile request)))
  else if nonempty (Pb.id (Pb.ooDriveFile request))
          && nonempty (Pb.accessToken (Pb.ooDriveFile request))
  then Some (OoDrive (Pb.ooDriveFile request))
  else if nonempty (Pb.pdf_url request)
          && nonempty (strip (Pb.pdf_url request))
  then Some (Url (Pb.pdf_url request))
  else None.

(** Lines 1378-1383: the entry of the response for the [i]-th item of
    [coordinates], counted from 0. *)
Definition encode_coordinates (i : Z) (coord : option Placement.t)
    : Pb.Coordinates :=
  match coord with
  | Some c =>
      Pb.mk_coordinates (i + 1) (Placement.x c) (Placement.y c)
                        (Placement.size c)
  | None => Pb.mk_coordinates (i + 1) (-1) (-1) 0
  end.

(** [[f(i, c) for i, c in enumerate(l)]] *)
Fixpoint enumerate_from {A B : Type} (f : Z -> A -> B) (i : Z) (l : list A)
    : list B :=
  match l with
  | [] => []
  | c :: rest => f i c :: enumerate_from f (i + 1) rest
  end.

(** A document as the pipeline reads it: the page count of [pdfinfo] and
    the rendering of each page at a resolution. *)
Record Document : Type := mk_document
  { Pages : Z;
    gray_page : Z -> Z -> ndarray }.

(** The [finally] of lines 1395-1410: [n] temporary files removed, each
    with the record of line 1403, then the record of line 1410. *)
Definition cleanup (n : nat) : state Session unit :=
  s <- get ;;
  put (mk_session (low_dpi s) (kernel_cache s)
                  (log s ++ repeat (DEBUG, 1403) n ++ [(DEBUG, 1410)])).

Section Service.

Context `{Cv2}.

(** The network: what a download returns, [None] when the request fails
    with a [RequestException]; a PDF that was downloaded opens and
    renders. *)
Variable fetch : Source -> option Document.
Variable fetch_stamp : str -> bool.

(** [multiprocessing.cpu_count()] *)
Variable cpu_count : Z.

(** [download_from_gdrive], [download_from_oodrive] and [download_file]
    (lines 66-119). [None] stands for the exception the caller ends with:
    the [ValueError] of lines 95 and 106, or the [AttributeError] on the
    [None] that [download_from_oodrive] returns after line 119. *)
Definition download (src : Source) : state Session (option Document) :=
  match src, fetch src with
  | Url _, Some d => record INFO 102 ;; ret (Some d)
  | _, Some d => ret (Some d)
  | GoogleDrive _ _, None => record ERROR 94 ;; ret None
  | OoDrive _, None => record ERROR 119 ;; ret None
  | Url _, None => record ERROR 105 ;; ret None
  end.

(** [download_file(request.stamp_url)] of line 1344. *)
Definition download_stamp (url : str) : state Session bool :=
  if fetch_stamp url then record INFO 102 ;; ret true
  else record ERROR 105 ;; ret false.

(** Lines 1318-1410, with the processor of line 1316. *)
Definition ProcessPDF (request : Pb.PDFRequest)
    : state Session (Pb.StatusCode * Pb.PDFResponse) :=
  match select_source request with
  | None =>
      record ERROR 1390 ;; cleanup 0 ;;
      ret (Pb.INTERNAL, Pb.empty_response)
  | Some src =>
      pdf_buffer <- download src ;;
      match pdf_buffer with
      | None =>
          record ERROR 1390 ;; cleanup 0 ;;
          ret (Pb.INTERNAL, Pb.empty_response)
      | Some pdf =>
          stamp_buffer <- download_stamp (Pb.stamp_url request) ;;
          if negb stamp_buffer then
            record ERROR 1390 ;; cleanup 1 ;;
            ret (Pb.INTERNAL, Pb.empty_response)
          else
            record DEBUG 1352 ;;
            record INFO 1355 ;;
            processed <-
              process_document (gray_page pdf) servicer_processor cpu_count
                               (Pages pdf) (Pb.stampOnlyFirstPage request) ;;
            match processed with
            | RaisesValueError =>
                record ERROR 1365 ;; cleanup 2 ;;
                ret (Pb.INTERNAL, Pb.empty_response)
            | Done (processed_pdf, coordinates) =>
                cleanup 3 ;;
                ret (Pb.OK,
                     Pb.mk_response
                       processed_pdf
                       (enumerate_from encode_coordinates 0 coordinates))
            end
      end
  end.

End Service.

(** ** The REST gateway, api_gateway.py *)

Module Gateway.

(** [GoogleDriveSource] and [OoDriveSource]. *)
Record DriveSource : Type := mk_drive_source
  { file_id : str;
    access_token : str }.

(** [StampRequest], once pydantic has validated it: an [HttpUrl] that is
    present is an object, true in a test. *)
Record StampRequest : Type := mk_stamp_request
  { pdf_url : option str;
    google_drive : option DriveSource;
    oodrive : option DriveSource;
    stamp_url : str;
    document_index : Z;
    prefix : str;
    stamp_only_first_page : bool }.

(** What an endpoint answers. *)
Inductive Reply : Type :=
| PdfResponse (content : list Page) (coordinates : list Pb.Coordinates)
              (pages_processed : Z)            (* /stamp, status 200 *)
| StampResponse (coordinates : list Pb.Coordinates)
                (pages_processed : Z)          (* /stamp/metadata *)
| HTTPException (status_code : Z).

(** Lines 240-244 (and 413-417): no source was given. *)
Definition no_source (request : StampRequest) : bool :=
  negb (is_some (pdf_url request))
  && negb (is_some (google_drive request))
  && negb (is_some (oodrive request)).

Definition drive_file (source : option DriveSource) : Pb.DriveFile :=
  match source with
  | Some s => Pb.mk_drive_file (file_id s) (access_token s)
  | None => Pb.mk_drive_file [] []
  end.

(** Lines 247-263 (and 419-433): the gRPC request built. *)
Definition grpc_request_of (request : StampRequest) : Pb.PDFRequest :=
  Pb.mk_request
    (match pdf_url request with Some u => u | None => [] end)
    (stamp_url request) (document_index request) (prefix request)
    (drive_file (google_drive request)) (drive_file (oodrive request))
    (stamp_only_first_page request).

(** [MAX_FILE_SIZE] of line 28. *)
Definition MAX_FILE_SIZE : Z := 200 * 1024 * 1024.

(** [filename.lower().endswith('.pdf')]: the only code points that
    [lower] maps to one of [.], [p], [d], [f] are these and [P], [D],
    [F], so the test reads the last four code points. *)
Definition ends_with_pdf (filename : str) : bool :=
  match rev filename with
  | f :: d :: p :: dot :: _ =>
      (N.eqb dot 46) && (N.eqb p 112 || N.eqb p 80)
      && (N.eqb d 100 || N.eqb d 68) && (N.eqb f 102 || N.eqb f 70)
  | _ => false
  end%N.

(** [os.remove(name)] on the temporary directory. *)
Definition remove_file (name : str) (files : list str) : list str :=
  filter (fun f => negb (str_eqb f name)) files.

(** Lines 356-392, on the files of the temporary directory; [temp_name]
    is the name [NamedTemporaryFile] picks, and [content_length] is
    [len(content)]. *)
Definition stamp_pdf_upload (filename : str) (content_length : Z)
    (temp_name : str) (files : list str) : Reply * list str :=
  if negb (ends_with_pdf filename) then (HTTPException 400, files)
  else if MAX_FILE_SIZE <? content_length then (HTTPException 413, files)
  else
    let files := temp_name :: files in
    let temp_pdf := temp_name in
    (HTTPException 501,
     if nonempty temp_pdf && existsb (str_eqb temp_pdf) files
     then remove_file temp_pdf files else files).

Section Endpoints.

(** [client.process_pdf]: the servicer behind the channel. The request and
    the response cross it unchanged, and a status other than [OK] reaches
    the caller as a [grpc.RpcError]. *)
Variable process_pdf
  : Pb.PDFRequest -> state Session (Pb.StatusCode * Pb.PDFResponse).

(** Lines 218-305. *)
Definition stamp_pdf_from_url (request : StampRequest)
    : state Session Reply :=
  if no_source request then ret (HTTPException 400)
  else
    called <- process_pdf (grpc_request_of request) ;;
    match called with
    | (Pb.OK, response) =>
        let coordinates := Pb.coordinates response in
        ret (PdfResponse (Pb.processed_pdf response) coordinates
                         (Z.of_nat (length coordinates)))
    | (Pb.INTERNAL, _) => ret (HTTPException 500)
    end.

(** Lines 401-459. *)
Definition stamp_pdf_metadata (request : StampRequest)
    : state Session Reply :=
  if no_source request then ret (HTTPException 400)
  else
    called <- process_pdf (grpc_request_of request) ;;
    match called with
    | (Pb.OK, response) =>
        let coordinates := Pb.coordinates response in
        ret (StampResponse coordinates (Z.of_nat (length coordinates)))
    | (Pb.INTERNAL, _) => ret (HTTPException 500)
    end.

End Endpoints.

End Gateway.

(** ** [JWTManager.get_token_from_metadata] of jwt_service.py *)

Module Jwt.

Inductive outcome : Type :=
| Returns (token : str)
| RaisesIndexError              (* [..split(' ')[1]] on a single piece *)
| RaisesTokenNotFound.          (* [Exception('Token not found')] *)

(** [dict(pairs)], read at [key]: the last pair of a key is the one kept;
    [None] when the key is not in the dict. *)
Fixpoint dict_get (pairs : list (str * str)) (key : str) : option str :=
  match pairs with
  | [] => None
  | (k, v) :: rest =>
      match dict_get rest key with
      | Some v' => Some v'
      | None => if str_eqb k key then Some v else None
      end
  end.

(** Lines 16-21, with the message of the record of line 19. *)
Definition get_token_from_metadata (invocation_metadata : list (str * str))
    : list (Level * str) * outcome :=
  let metadata := dict_get invocation_metadata in
  match metadata (lit "authorization") with
  | Some value =>
      let records := [(DEBUG, lit "Authorization value: " ++ value)] in
      match nth_error (split 32 value) 1 with
      | Some token => (records, Returns token)
      | None => (records, RaisesIndexError)
      end
  | None => ([], RaisesTokenNotFound)
  end.

End Jwt.

(** ** The pipeline of processor.py *)

Module Cli.

(** Lines 188-229: what [_process_single_page] draws. Only [x] is
    tested. *)
Definition stamping_of (coords : Placement.t) : option Stamping :=
  if 0 <=? Placement.x coords then
    let x := Placement.x coords in
    let y := Placement.y coords in
    let stamp_size := Placement.stamp_size coords in
    let zone_size := Placement.size coords in
    let margin := (zone_size - stamp_size) / 2 in
    Some (mk_stamping (x + margin) (y + margin) stamp_size
                      (x + margin + stamp_size / 2)
                      (y + margin + stamp_size / 2))
  else None.

(** Outcome of a call that lets its exception through. *)
Inductive raising (A : Type) : Type :=
| Done (v : A)
| Raises.
Arguments Done {A} v.
Arguments Raises {A}.

(** One entry of the ["coordinates"] of the JSON result. *)
Record Entry : Type := mk_entry
  { pageNumber : Z;
    x : Z;
    y : Z;
    size : Z }.

(** Lines 364-369; [coord] has the key ["stamp_size"]. *)
Definition entry_of (i : Z) (coord : option Placement.t) : Entry :=
  match coord with
  | Some c =>
      mk_entry (i + 1) (Placement.x c) (Placement.y c)
               (Placement.stamp_size c)
  | None => mk_entry (i + 1) (-1) (-1) 0
  end.

(** The JSON object [main] prints. *)
Inductive Result : Type :=
| Success (coordinates : list Entry) (pagesProcessed : Z)
| Failure.

Section Pipeline.

Context `{Cv2}.
Variable gray_page : Z -> Z -> ndarray.
Variable self : PDFProcessor.

(** Lines 178-253. *)
Definition _process_single_page (page_num : Z)
    : state Session (Py.result (Z * (Sheet * option Placement.t))) :=
  s <- get ;;
  let gray_image := gray_page (low_dpi s) page_num in
  let (result, w) :=
    runState (Client.find_whitest_space self)
             (mk_world gray_image (kernel_cache s) (log s)) in
  match result with
  | Py.Returns coords =>
      put (mk_session (low_dpi s) (kernel_lru w) (log_out w)) ;;
      ret (Py.Returns (page_num,
                       (mk_sheet page_num (low_dpi s) (stamping_of coords),
                        Some coords)))
  | Py.RaisesIndexError =>
      put (mk_session (low_dpi s) (kernel_lru w)
                      (log_out w ++ [(ERROR, 252)])) ;;
      ret Py.RaisesIndexError
  end.

Fixpoint executor_map (page_args : list Z)
    : state Session (Py.result (list (Z * (Sheet * option Placement.t)))) :=
  match page_args with
  | [] => ret (Py.Returns [])
  | page_num :: rest =>
      first <- _process_single_page page_num ;;
      match first with
      | Py.Returns r =>
          others <- executor_map rest ;;
          match others with
          | Py.Returns rs => ret (Py.Returns (r :: rs))
          | Py.RaisesIndexError => ret Py.RaisesIndexError
          end
      | Py.RaisesIndexError => ret Py.RaisesIndexError
      end
  end.

(** Lines 255-319. [max_workers] is [min(8, cpu_count)] of line 46; a
    pool of no worker is refused with a [ValueError]. *)
Definition process_document (max_workers num_pages : Z)
    (stamp_only_first_page : bool)
    : state Session (raising (list Page * list (option Placement.t))) :=
  let pages_to_process := if stamp_only_first_page then 1 else num_pages in
  (if 100 <? num_pages then set_low_dpi 150
   else if 20 <? num_pages then set_low_dpi 180
   else ret tt) ;;
  let page_args := map (fun i => i + 1) (Py.range 0 pages_to_process 1) in
  let workers := Z.min max_workers pages_to_process in
  if workers <=? 0 then record ERROR 318 ;; ret Raises
  else
    results <- executor_map page_args ;;
    match results with
    | Py.Returns results =>
        let results := sort_by_page results in
        let stamped_image_paths := map (fun r => fst (snd r)) results in
        let coordinates := map (fun r => snd (snd r)) results in
        let stamped_pdf := map Image stamped_image_paths in
        if stamp_only_first_page && (1 <? num_pages) then
          let original_pdf := map Original (Py.range 1 (num_pages + 1) 1) in
          let final_pdf := insert_pdf [] stamped_pdf 0 0 in
          let final_pdf :=
            if 1 <? num_pages
            then insert_pdf final_pdf original_pdf 1 (num_pages - 1)
            else final_pdf in
          ret (Done (final_pdf, coordinates))
        else ret (Done (stamped_pdf, coordinates))
    | Py.RaisesIndexError => record ERROR 318 ;; ret Raises
    end.

End Pipeline.

(** Lines 344-375 of [main], past the checks of the two paths: a fresh
    processor with the defaults of line 41. *)
Definition main `{Cv2} (gray_page : Z -> Z -> ndarray)
    (cpu_count num_pages : Z) (first_page_only : bool) : Result :=
  let processor := mk_processor 300 90 in
  let max_workers := Z.min 8 cpu_count in
  match evalState (process_document gray_page processor max_workers
                                    num_pages first_page_only)
                  fresh_session with
  | Done (_, coordinates) =>
      Success (enumerate_from entry_of 0 coordinates)
              (Z.of_nat (length coordinates))
  | Raises => Failure
  end.

End Cli.

(** ** Vocabulary of the further properties *)

(** A mask of the page: the page's shape, and no value but 0 and 255. *)
Definition mask_like (image t : ndarray) : Prop :=
  same_shape t image
  /\ forall y x, 0 <= y < nrows t -> 0 <= x < ncols t ->
       px t y x = 0 \/ px t y x = 255.

(** Every pixel set in [a] is set in [b]. *)
Definition covered_by (a b : ndarray) : Prop :=
  forall y x, 0 <= y < nrows a -> 0 <= x < ncols a ->
    px a y x = 255 -> px b y x = 255.

(** The value of a computation satisfies [Q] from every world, whatever
    the cache holds. *)
Definition always {A : Type} (m : state World A) (Q : A -> Prop) : Prop :=
  forall w, Q (evalState m w).

(** The records a call appended to the log. *)
Definition new_records (before after : World) : list LogRecord :=
  skipn (length (log_out before)) (log_out after).

(** The zone of a placement holds no forbidden pixel, and its whiteness
    ratio exceeds [q]. *)
Definition zone_clear (forbidden white_binary : ndarray) (q : Q)
    (p : Placement.t) : Prop :=
  forbidden_sum forbidden (Placement.y p) (Placement.x p) (Placement.size p)
  = 0
  /\ fgt (white_ratio_at white_binary (Placement.y p) (Placement.x p)
                         (Placement.size p)) (fconst q) = true.

(** The pixel values of the forbidden mask over the zone add up to at most
    a tenth of the zone's area, and its whiteness ratio exceeds 0.90. *)
Definition zone_nearly_clear (forbidden white_binary : ndarray)
    (p : Placement.t) : Prop :=
  10 * forbidden_sum forbidden (Placement.y p) (Placement.x p)
                     (Placement.size p)
  <= Placement.size p * Placement.size p
  /\ fgt (white_ratio_at white_binary (Placement.y p) (Placement.x p)
                         (Placement.size p)) (fconst (90 # 100)) = true.

(** The corner of the zone is on the page, and the stamp, of an allowed
    size, leaves [min_margin] on each side of the zone. *)
Definition well_placed (self : PDFProcessor) (p : Placement.t) : Prop :=
  0 <= Placement.x p /\ 0 <= Placement.y p
  /\ stamp_size_min self <= Placement.stamp_size p <= stamp_size_max self
  /\ Placement.stamp_size p + 2 * min_margin <= Placement.size p.

(** A zone a tier kept: inside the page, with the effective stamp of its
    size, which is at least [stamp_size_min]. *)
Definition kept_zone (self : PDFProcessor) (height width : Z)
    (test : Z -> Z -> Z -> Prop) (p : Placement.t) : Prop :=
  inside_page height width (Placement.x p) (Placement.y p) (Placement.size p)
  = true
  /\ Placement.stamp_size p = available_stamp_size self (Placement.size p)
  /\ stamp_size_min self <= Placement.stamp_size p
  /\ test (Placement.size p) (Placement.y p) (Placement.x p).

(** ** Vocabulary of the pipeline properties *)

(** The string holds no space (U+0020). *)
Definition spaceless (s : str) : Prop := ~ In 32%N s.

(** A Drive source the servicer can use: both strings are not empty. *)
Definition usable (source : option Gateway.DriveSource) : bool :=
  match source with
  | Some s =>
      nonempty (Gateway.file_id s) && nonempty (Gateway.access_token s)
  | None => false
  end.

(** The resolution [process_document] picks for a document of
    [num_pages] pages. *)
Definition dpi_for (num_pages : Z) : Z :=
  snd (fst (adaptive_settings 1 num_pages)).

(** The number of workers it picks. *)
Definition workers_for (cpu_count num_pages : Z) : Z :=
  fst (fst (adaptive_settings cpu_count num_pages)).

(** The placement [find_whitest_space] returns for a page taken alone,
    from an empty cache. *)
Definition placed_alone `{Cv2} (self : PDFProcessor) (image : ndarray)
    (c : Placement.t) : Prop :=
  exists m line,
    evalState (find_whitest_space self) (mk_world image [] [])
    = Py.Returns (mk_returned c m line).

(** The same for the engine of processor.py. *)
Definition client_placed_alone `{Cv2} (self : PDFProcessor) (image : ndarray)
    (c : Placement.t) : Prop :=
  evalState (Client.find_whitest_space self) (mk_world image [] [])
  = Py.Returns c.

(** The box of the stamp lies inside the zone of the placement, with
    [min_margin] pixels or more on each side, and is centred in it to the
    pixel. *)
Definition centred_in_zone (c : Placement.t) (st : Stamping) : Prop :=
  paste_size st = Placement.stamp_size c
  /\ Placement.x c + min_margin <= paste_x st
  /\ paste_x st + paste_size st + min_margin
     <= Placement.x c + Placement.size c
  /\ Placement.y c + min_margin <= paste_y st
  /\ paste_y st + paste_size st + min_margin
     <= Placement.y c + Placement.size c
  /\ 0 <= (Placement.x c + Placement.size c - (paste_x st + paste_size st))
          - (paste_x st - Placement.x c) <= 1
  /\ 0 <= (Placement.y c + Placement.size c - (paste_y st + paste_size st))
          - (paste_y st - Placement.y c) <= 1.

(** A session whose kernel cache is well formed. *)
Definition session_ok (s : Session) : Prop := cache_ok (kernel_cache s).

(** The servicer's zone sides. *)
Definition servicer_min_zone : Z := min_zone_size servicer_processor.

(** ** The embedding on concrete inputs *)

Example range_down_by_50 : Py.range 310 209 (-50) = [310; 260; 210].
Proof. reflexivity. Qed.

Example range_up_by_13 : Py.range 0 40 13 = [0; 13; 26; 39].
Proof. reflexivity. Qed.

Example slice_index_from_the_end : Py.slice_index 10 (-3) = 7.
Proof. reflexivity. Qed.

Example slice_index_clipped : Py.slice_index 10 15 = 10.
Proof. reflexivity. Qed.

Example search_sizes_of_the_servicer :
  search_sizes_to_try servicer_processor
  = Some [410; 405; 400; 395; 390; 385; 380; 375; 370; 365; 360; 355; 350;
          345; 340; 335; 330; 325; 320; 315; 310; 305; 300; 295; 290; 285;
          280; 275; 270; 265; 260; 255; 250; 245; 240; 235; 230; 225; 220;
          215; 210].
Proof. reflexivity. Qed.

Example search_sizes_end_on_min_zone :
  search_sizes_to_try (mk_processor 300 92)
  = Some (Py.range 410 101 (-5) ++ [102]).
Proof. reflexivity. Qed.

Example fallback_sizes_of_the_servicer :
  fallback_sizes servicer_processor = Some [310; 260; 210].
Proof. reflexivity. Qed.

Example fallback_sizes_by_default :
  fallback_sizes (mk_processor 300 90) = Some [310; 260; 210; 160; 110; 100].
Proof. reflexivity. Qed.

Example sizes_of_an_invalid_configuration :
  search_sizes_to_try (mk_processor 300 500) = None.
Proof. reflexivity. Qed.

Example scan_step_of_the_largest_zone : scan_step servicer_processor 410 = 13.
Proof. reflexivity. Qed.

Example scan_step_of_a_small_zone : scan_step servicer_processor 280 = 14.
Proof. reflexivity. Qed.

Example forced_position_on_a4 :
  forced_position servicer_processor 2970 2100 = Placement.mk 1870 20 210 200.
Proof. reflexivity. Qed.

Example dilate_spreads_a_pixel :
  map (px (Cv.dilate (mk_ndarray 1 5 (fun _ x => if x =? 2 then 255 else 0))
                     (Cv.getStructuringElement (3, 1))) 0)
      [0; 1; 2; 3; 4]
  = [0; 255; 255; 255; 0].
Proof. reflexivity. Qed.

Example erode_removes_a_pixel :
  map (px (Cv.erode (mk_ndarray 1 5 (fun _ x => if x =? 2 then 255 else 0))
                    (Cv.getStructuringElement (3, 1))) 0)
      [0; 1; 2; 3; 4]
  = [0; 0; 0; 0; 0].
Proof. reflexivity. Qed.

Example erode_keeps_a_full_row :
  map (px (Cv.erode (mk_ndarray 1 5 (fun _ _ => 255))
                    (Cv.getStructuringElement (3, 1))) 0)
      [0; 1; 2; 3; 4]
  = [255; 255; 255; 255; 255].
Proof. reflexivity. Qed.

Example kernel_cache_hit_moves_to_front :
  kernel_lru
    (execState (_get_text_detection_kernel (3, 3))
       (mk_world (Np.zeros 1 1)
                 [((30, 1), mk_kernel 30 1); ((3, 3), mk_kernel 3 3)] []))
  = [((3, 3), mk_kernel 3 3); ((30, 1), mk_kernel 30 1)].
Proof. reflexivity. Qed.

Example whiteness_of_the_grey_foot_page :
  white_ratio_at (white_mask grey_foot_page) 0 0 300
  = Some (21802500 # 22950000).
Proof. vm_compute. reflexivity. Qed.

(** ** Facts about the Python built-ins *)

Lemma range_up_In start stop step v :
  0 < step -> In v (Py.range start stop step) ->
  start <= v < stop /\ (step | v - start).
Proof.
  intros Hs Hin. unfold Py.range in Hin.
  apply in_map_iff in Hin. destruct Hin as (i & Hv & Hi).
  apply in_seq in Hi. unfold Py.range_len in Hi.
  destruct (Z.ltb_spec 0 step); [|lia].
  destruct (Z.ltb_spec start stop); [|simpl in Hi; lia].
  assert (Hq : 0 <= (stop - start - 1) / step) by (apply Z.div_pos; lia).
  assert (Hi' : Z.of_nat i <= (stop - start - 1) / step) by lia.
  pose proof (Z.mul_div_le (stop - start - 1) step Hs).
  subst v. split; [nia|]. exists (Z.of_nat i). lia.
Qed.

Lemma range_down_In start stop step v :
  step < 0 -> In v (Py.range start stop step) -> stop < v <= start.
Proof.
  intros Hs Hin. unfold Py.range in Hin.
  apply in_map_iff in Hin. destruct Hin as (i & Hv & Hi).
  apply in_seq in Hi. unfold Py.range_len in Hi.
  destruct (Z.ltb_spec 0 step); [lia|].
  destruct (Z.ltb_spec step 0); [|lia].
  destruct (Z.ltb_spec stop start); [|simpl in Hi; lia].
  assert (Hq : 0 <= (start - stop - 1) / (- step)) by (apply Z.div_pos; lia).
  assert (Hi' : Z.of_nat i <= (start - stop - 1) / (- step)) by lia.
  assert (Hp : 0 < - step) by lia.
  pose proof (Z.mul_div_le (start - stop - 1) (- step) Hp).
  subst v. nia.
Qed.

Lemma range_up_head start stop step :
  0 < step -> start < stop ->
  exists tl, Py.range start stop step = start :: tl.
Proof.
  intros Hs Hlt. unfold Py.range, Py.range_len.
  destruct (Z.ltb_spec 0 step); [|lia].
  destruct (Z.ltb_spec start stop); [|lia].
  assert (Hq : 0 <= (stop - start - 1) / step) by (apply Z.div_pos; lia).
  destruct (Z.to_nat ((stop - start - 1) / step + 1)) as [|n] eqn:E; [lia|].
  simpl. eexists. f_equal. lia.
Qed.

Lemma range_down_head start stop step :
  step < 0 -> stop < start ->
  exists tl, Py.range start stop step = start :: tl.
Proof.
  intros Hs Hlt. unfold Py.range, Py.range_len.
  destruct (Z.ltb_spec 0 step); [lia|].
  destruct (Z.ltb_spec step 0); [|lia].
  destruct (Z.ltb_spec stop start); [|lia].
  assert (Hq : 0 <= (start - stop - 1) / (- step)) by (apply Z.div_pos; lia).
  destruct (Z.to_nat ((start - stop - 1) / (- step) + 1)) as [|n] eqn:E; [lia|].
  simpl. eexists. f_equal. lia.
Qed.

Lemma last_item_In {A : Type} (l : list A) a :
  Py.last_item l = Some a -> In a l.
Proof.
  unfold Py.last_item. destruct (rev l) as [|b r] eqn:E; [discriminate|].
  intros [= ->]. apply in_rev. rewrite E. now left.
Qed.

Lemma last_item_cons {A : Type} (a : A) (l : list A) :
  exists b, Py.last_item (a :: l) = Some b.
Proof.
  unfold Py.last_item. destruct (rev (a :: l)) as [|b r] eqn:E.
  - apply (f_equal (@length A)) in E. rewrite length_rev in E. discriminate.
  - now exists b.
Qed.

Lemma for_break_inv {A S : Type} (P : S -> Prop) (xs : list A)
    (body : A -> S -> S * bool) :
  (forall a st, In a xs -> P st -> P (fst (body a st))) ->
  forall st, P st -> P (Py.for_break xs body st).
Proof.
  induction xs as [|a xs IH]; intros Hb st Hst; simpl; [exact Hst|].
  pose proof (Hb a st (or_introl eq_refl) Hst) as Ha.
  destruct (body a st) as [st' b]. simpl in Ha.
  destruct b; [exact Ha|].
  apply IH; [|exact Ha]. intros; apply Hb; [now right|assumption].
Qed.

Lemma for_each_inv {A S : Type} (P : S -> Prop) (xs : list A)
    (body : A -> S -> S) :
  (forall a st, In a xs -> P st -> P (body a st)) ->
  forall st, P st -> P (Py.for_each xs body st).
Proof.
  unfold Py.for_each.
  induction xs as [|a xs IH]; intros Hb st Hst; simpl; [exact Hst|].
  apply IH; [intros; apply Hb; [now right|assumption]|].
  apply Hb; [now left|assumption].
Qed.

Lemma for_break_skip {A S : Type} (I : S -> Prop) (pre rest : list A)
    (body : A -> S -> S * bool) :
  (forall a st, In a pre -> I st ->
     I (fst (body a st)) /\ snd (body a st) = false) ->
  forall st, I st ->
    exists st', I st' /\
      Py.for_break (pre ++ rest) body st = Py.for_break rest body st'.
Proof.
  induction pre as [|a pre IH]; intros Hb st Hst; simpl.
  - now exists st.
  - destruct (Hb a st (or_introl eq_refl) Hst) as [Ha Hf].
    destruct (body a st) as [st' b]. simpl in Ha, Hf. subst b.
    apply IH; [|exact Ha]. intros; apply Hb; [now right|assumption].
Qed.

Lemma flat_map_split {A B : Type} (f : A -> list B) (l : list A)
    (pre post : list B) (c : B) :
  flat_map f l = pre ++ c :: post ->
  exists l1 a l2 p1 p2,
    l = l1 ++ a :: l2 /\ f a = p1 ++ c :: p2
    /\ pre = flat_map f l1 ++ p1 /\ post = p2 ++ flat_map f l2.
Proof.
  revert pre. induction l as [|a l IH]; intros pre E; simpl in E.
  - destruct pre; discriminate.
  - apply app_eq_app in E. destruct E as [m [[E1 E2]|[E1 E2]]].
    + destruct m as [|c' r].
      * simpl in E2. rewrite app_nil_r in E1.
        destruct (IH [] (eq_sym E2))
          as (l1 & a' & l2 & p1 & p2 & -> & Hf & Hp & Hq).
        exists (a :: l1), a', l2, p1, p2. simpl.
        repeat split; auto.
        rewrite <- app_assoc, <- Hp, app_nil_r. exact (eq_sym E1).
      * simpl in E2. injection E2 as -> ->.
        exists [], a, l, pre, r. simpl. repeat split; auto.
    + destruct (IH _ E2) as (l1 & a' & l2 & p1 & p2 & -> & Hf & Hp & Hq).
      exists (a :: l1), a', l2, p1, p2. simpl.
      repeat split; auto.
      rewrite E1, Hp, app_assoc. reflexivity.
Qed.

Lemma range_unit_In n v : 0 <= v < n -> In v (Py.range 0 n 1).
Proof.
  intros Hv. unfold Py.range, Py.range_len. simpl.
  destruct (Z.ltb_spec 0 n); [|lia].
  apply in_map_iff. exists (Z.to_nat v). split; [lia|].
  apply in_seq. rewrite Z.div_1_r. lia.
Qed.

Lemma for_break_hit {A S : Type} (a : A) (rest : list A)
    (body : A -> S -> S * bool) st :
  snd (body a st) = true -> Py.for_break (a :: rest) body st = fst (body a st).
Proof. simpl. destruct (body a st) as [st' b]. simpl. now intros ->. Qed.

Lemma map_split {A B : Type} (f : A -> B) (l : list A) pre c post :
  map f l = pre ++ c :: post ->
  exists l1 a l2, l = l1 ++ a :: l2 /\ pre = map f l1 /\ c = f a.
Proof.
  intros E. apply map_eq_app in E. destruct E as (l1 & r & -> & <- & E).
  apply map_eq_cons in E. destruct E as (a & l2 & -> & <- & _).
  now exists l1, a, l2.
Qed.

Lemma flat_map_all_nil {A B : Type} (f : A -> list B) (l : list A) :
  (forall a, In a l -> f a = []) -> flat_map f l = [].
Proof.
  induction l as [|a l IH]; intros H; simpl; [reflexivity|].
  rewrite (H a) by now left. apply IH. intros; apply H; now right.
Qed.

Lemma first_fit {A : Type} (P : A -> bool) (l : list A) s :
  In s l -> P s = true ->
  exists l1 z l2, l = l1 ++ z :: l2
                  /\ (forall a, In a l1 -> P a = false) /\ P z = true
                  /\ In s (z :: l2).
Proof.
  induction l as [|a l IH]; intros Hin Hs; [destruct Hin|].
  destruct (P a) eqn:Ha.
  - exists [], a, l. repeat split; auto. intros ? [].
  - destruct Hin as [->|Hin]; [congruence|].
    destruct (IH Hin Hs) as (l1 & z & l2 & -> & Hl1 & Hz & Hin').
    exists (a :: l1), z, l2. repeat split; auto.
    intros a' [<-|Ha']; auto.
Qed.

Lemma range_down_sorted start stop step :
  step < 0 -> StronglySorted Z.ge (Py.range start stop step).
Proof.
  intros Hs. unfold Py.range.
  generalize (Z.to_nat (Py.range_len start stop step)) as n.
  generalize 0%nat as a. intros a n. revert a.
  induction n as [|n IH]; intros a; simpl; constructor; [apply IH|].
  apply Forall_forall. intros v Hv. apply in_map_iff in Hv.
  destruct Hv as (i & <- & Hi). apply in_seq in Hi. nia.
Qed.

Lemma sorted_snoc l m :
  StronglySorted Z.ge l -> (forall v, In v l -> m <= v) ->
  StronglySorted Z.ge (l ++ [m]).
Proof.
  induction 1 as [|a l Hl IH Ha]; intros Hm; simpl.
  - constructor; constructor.
  - constructor; [apply IH; intros; apply Hm; now right|].
    apply Forall_app. split; [exact Ha|].
    constructor; [|constructor]. apply Z.le_ge, Hm. now left.
Qed.

Lemma sorted_after l1 z l2 s :
  StronglySorted Z.ge (l1 ++ z :: l2) -> In s (z :: l2) -> s <= z.
Proof.
  induction l1 as [|a l1 IH]; simpl; intros Hs Hin.
  - apply StronglySorted_inv in Hs. destruct Hs as [_ Hall].
    destruct Hin as [<-|Hin]; [lia|].
    rewrite Forall_forall in Hall. apply Hall in Hin. lia.
  - apply StronglySorted_inv in Hs. destruct Hs as [Hs _]. auto.
Qed.

(** ** Facts about arrays, ratios and morphology *)

Lemma nrows_nonneg a : 0 <= nrows a.
Proof. unfold nrows. lia. Qed.

Lemma ncols_nonneg a : 0 <= ncols a.
Proof. unfold ncols. lia. Qed.

Lemma slice_index_range len i : 0 <= len -> 0 <= Py.slice_index len i <= len.
Proof. intros. unfold Py.slice_index. destruct (Z.ltb_spec i 0); lia. Qed.

Lemma slice_index_inside len i : 0 <= i <= len -> Py.slice_index len i = i.
Proof. intros. unfold Py.slice_index. destruct (Z.ltb_spec i 0); lia. Qed.

Lemma sum_from_const f c lo n :
  (forall i, lo <= i < lo + Z.of_nat n -> f i = c) ->
  Np.sum_from f lo n = c * Z.of_nat n.
Proof.
  revert lo. induction n as [|n IH]; intros lo Hf; simpl Np.sum_from; [lia|].
  rewrite Hf by lia. rewrite IH; [lia|]. intros; apply Hf; lia.
Qed.

Lemma sum_uniform a v : uniform a v -> Np.sum a = v * Np.size a.
Proof.
  intros U. unfold Np.sum, Np.size.
  rewrite (sum_from_const _ (v * ncols a)).
  - rewrite Z2Nat.id by apply nrows_nonneg. ring.
  - intros y Hy. rewrite (sum_from_const _ v).
    + rewrite Z2Nat.id by apply ncols_nonneg. ring.
    + intros x Hx. apply U; pose proof (nrows_nonneg a);
        pose proof (ncols_nonneg a); lia.
Qed.

Lemma sum_sq_uniform a v : uniform a v -> Np.sum_sq a = v * v * Np.size a.
Proof.
  intros U. unfold Np.sum_sq, Np.size.
  rewrite (sum_from_const _ (v * v * ncols a)).
  - rewrite Z2Nat.id by apply nrows_nonneg. ring.
  - intros y Hy. rewrite (sum_from_const _ (v * v)).
    + rewrite Z2Nat.id by apply ncols_nonneg. ring.
    + intros x Hx. rewrite U; [reflexivity| |]; pose proof (nrows_nonneg a);
        pose proof (ncols_nonneg a); lia.
Qed.

Lemma slice_uniform a v y0 y1 x0 x1 :
  uniform a v -> uniform (Np.slice a y0 y1 x0 x1) v.
Proof.
  intros U y x Hy Hx. unfold Np.slice, nrows, ncols in *. simpl in *.
  pose proof (slice_index_range (nrows a) y0 (nrows_nonneg a)).
  pose proof (slice_index_range (nrows a) y1 (nrows_nonneg a)).
  pose proof (slice_index_range (ncols a) x0 (ncols_nonneg a)).
  pose proof (slice_index_range (ncols a) x1 (ncols_nonneg a)).
  unfold nrows, ncols in *. apply U; unfold nrows, ncols; lia.
Qed.

Lemma slice_size_inside a y x s :
  0 <= y -> 0 <= x -> 0 <= s -> y + s <= nrows a -> x + s <= ncols a ->
  Np.size (Np.slice a y (y + s) x (x + s)) = s * s.
Proof.
  intros. unfold Np.size, Np.slice, nrows, ncols. simpl.
  rewrite !slice_index_inside by (unfold nrows, ncols in *; lia).
  rewrite !Z2N.id by lia. lia.
Qed.

Lemma std_gt_uniform a v t : uniform a v -> Np.std_gt a t = false.
Proof.
  intros U. unfold Np.std_gt.
  rewrite (sum_uniform a v U), (sum_sq_uniform a v U).
  destruct (Z.ltb_spec 0 (Np.size a)); simpl; [|reflexivity].
  apply Z.ltb_ge. nia.
Qed.

(** *** Ratios of uniform regions *)

Lemma fgt_zero_ratio (n : Z) (q : Q) :
  (0 < q)%Q -> fgt (fdiv_by (true_div 0 n) 255) (Some q) = false.
Proof.
  intros Hq. destruct n; simpl; [reflexivity| |];
    apply negb_false_iff, Qle_bool_iff; unfold Qle; simpl;
    unfold Qlt in Hq; simpl in Hq; lia.
Qed.

Lemma fgt_full_ratio (n : Z) (q : Q) :
  0 < n -> (q < 1)%Q ->
  fgt (fdiv_by (true_div (255 * n) n) 255) (Some q) = true.
Proof.
  intros Hn Hq. destruct n as [|p|p]; try lia. simpl.
  apply negb_true_iff. destruct (Qle_bool _ q) eqn:E; [|reflexivity].
  apply Qle_bool_iff in E. unfold Qle in E. simpl in E.
  unfold Qlt in Hq. simpl in Hq. nia.
Qed.

(** *** Morphology of an empty mask *)

Lemma fold_max_zero l :
  (forall v, In v l -> v = 0) -> fold_left Z.max l 0 = 0.
Proof.
  induction l as [|a l IH]; intros H; simpl; [reflexivity|].
  rewrite (H a) by now left. simpl. apply IH. intros; apply H; now right.
Qed.

Lemma fold_min_zero l :
  (forall v, In v l -> 0 <= v) -> In 0 l ->
  forall init, 0 <= init -> fold_left Z.min l init = 0.
Proof.
  assert (Hz : forall l, (forall v, In v l -> 0 <= v) ->
             fold_left Z.min l 0 = 0).
  { clear. induction l as [|a l IH]; intros H; simpl; [reflexivity|].
    rewrite Z.min_l by (apply H; now left). apply IH.
    intros; apply H; now right. }
  induction l as [|a l IH]; intros H Hin init Hi; simpl; [destruct Hin|].
  destruct Hin as [->|Hin].
  - rewrite Z.min_r by lia. apply Hz. intros; apply H; now right.
  - apply IH; [intros; apply H; now right|exact Hin|].
    pose proof (H a (or_introl eq_refl)). lia.
Qed.

Lemma window_center k y x :
  0 < kwidth k -> 0 < kheight k -> In (y, x) (Cv.window k y x).
Proof.
  intros Hw Hh. unfold Cv.window. apply in_flat_map.
  exists (kheight k / 2). split.
  - apply range_unit_In. split; [apply Z.div_pos; lia|].
    apply Z.div_lt_upper_bound; lia.
  - apply in_map_iff. exists (kwidth k / 2). split.
    + f_equal; lia.
    + apply range_unit_In. split; [apply Z.div_pos; lia|].
      apply Z.div_lt_upper_bound; lia.
Qed.

Lemma dilate_zero src k : uniform src 0 -> uniform (Cv.dilate src k) 0.
Proof.
  intros U y x _ _. simpl. apply fold_max_zero.
  intros v Hv. apply in_map_iff in Hv. destruct Hv as ([y' x'] & <- & _).
  unfold Cv.px_border, Cv.in_image. simpl.
  destruct (Z.leb_spec 0 y'), (Z.ltb_spec y' (nrows src)),
    (Z.leb_spec 0 x'), (Z.ltb_spec x' (ncols src)); simpl; try reflexivity.
  apply U; lia.
Qed.

Lemma erode_zero src k :
  0 < kwidth k -> 0 < kheight k -> uniform src 0 -> uniform (Cv.erode src k) 0.
Proof.
  intros Hw Hh U y x Hy Hx. simpl.
  change (nrows (Cv.erode src k)) with (nrows src) in Hy.
  change (ncols (Cv.erode src k)) with (ncols src) in Hx.
  assert (Hb : forall yx, 0 <= Cv.px_border src 255 yx).
  { intros [y' x']. unfold Cv.px_border, Cv.in_image. simpl.
    destruct (Z.leb_spec 0 y'), (Z.ltb_spec y' (nrows src)),
      (Z.leb_spec 0 x'), (Z.ltb_spec x' (ncols src)); simpl; try lia.
    rewrite U; lia. }
  apply fold_min_zero; [| |lia].
  - intros v Hv. apply in_map_iff in Hv. destruct Hv as (yx & <- & _). apply Hb.
  - apply in_map_iff. exists (y, x). split; [|now apply window_center].
    unfold Cv.px_border, Cv.in_image. simpl.
    destruct (Z.leb_spec 0 y), (Z.ltb_spec y (nrows src)),
      (Z.leb_spec 0 x), (Z.ltb_spec x (ncols src)); simpl; try lia.
    apply U; lia.
Qed.

Lemma bitwise_or_zero a b :
  same_shape a b -> uniform a 0 -> uniform b 0 -> uniform (Cv.bitwise_or a b) 0.
Proof.
  intros [Hr Hc] Ua Ub y x Hy Hx. simpl.
  change (nrows (Cv.bitwise_or a b)) with (nrows a) in Hy.
  change (ncols (Cv.bitwise_or a b)) with (ncols a) in Hx.
  rewrite Ua, Ub by lia. reflexivity.
Qed.

Lemma threshold_binary_uniform src v t m :
  uniform src v ->
  uniform (Cv.threshold_binary src t m) (if t <? v then m else 0).
Proof. intros U y x Hy Hx. simpl. rewrite U by assumption. reflexivity. Qed.

Lemma threshold_binary_inv_uniform src v t m :
  uniform src v ->
  uniform (Cv.threshold_binary_inv src t m) (if t <? v then 0 else m).
Proof. intros U y x Hy Hx. simpl. rewrite U by assumption. reflexivity. Qed.

Lemma rsub255_uniform a v :
  uniform a v -> uniform (Cv.rsub255 a) ((255 - v) mod 256).
Proof. intros U y x Hy Hx. simpl. rewrite U by assumption. reflexivity. Qed.

Lemma zeros_uniform h w : uniform (Np.zeros h w) 0.
Proof. intros y x _ _. reflexivity. Qed.

Lemma zeros_shape a : same_shape (Np.zeros (nrows a) (ncols a)) a.
Proof.
  unfold same_shape, Np.zeros, nrows, ncols. simpl. rewrite !N2Z.id. auto.
Qed.

(** ** Rules for the detection stage *)

Lemma run_bind {A B : Type} (m : state World A) (f : A -> state World B) w :
  runState (bind m f) w = runState (f (evalState m w)) (execState m w).
Proof.
  unfold evalState, execState. simpl. destruct (runState m w). reflexivity.
Qed.

Lemma eval_bind {A B : Type} (m : state World A) (f : A -> state World B) w :
  evalState (bind m f) w = evalState (f (evalState m w)) (execState m w).
Proof. unfold evalState at 1. rewrite run_bind. reflexivity. Qed.

Lemma exec_bind {A B : Type} (m : state World A) (f : A -> state World B) w :
  execState (bind m f) w = execState (f (evalState m w)) (execState m w).
Proof. unfold execState at 1. rewrite run_bind. reflexivity. Qed.

Lemma computes_ret {A : Type} (v : A) (Q : A -> Prop) :
  Q v -> computes (ret v) Q.
Proof. intros HQ w Hw. split; assumption. Qed.

Lemma computes_bind {A B : Type} (m : state World A) (f : A -> state World B)
    (P : A -> Prop) (Q : B -> Prop) :
  computes m P -> (forall a, P a -> computes (f a) Q) ->
  computes (bind m f) Q.
Proof.
  intros Hm Hf w Hw. rewrite eval_bind, exec_bind.
  destruct (Hm w Hw) as [Hp Hc]. exact (Hf _ Hp _ Hc).
Qed.

Lemma computes_weaken {A : Type} (m : state World A) (P Q : A -> Prop) :
  computes m P -> (forall a, P a -> Q a) -> computes m Q.
Proof. intros Hm HPQ w Hw. destruct (Hm w Hw). auto. Qed.

Lemma lru_lookup_ok key c k :
  cache_ok c -> lru_lookup key c = Some k -> k = Cv.getStructuringElement key.
Proof.
  intros Hc. induction c as [|[k0 v0] c IH]; simpl; [discriminate|].
  pose proof (Forall_inv Hc) as Hk. pose proof (Forall_inv_tail Hc) as Hc'.
  simpl in Hk.
  unfold key_eqb. destruct key as [a b], k0 as [a0 b0]. simpl.
  destruct (Z.eqb_spec a a0), (Z.eqb_spec b b0); simpl; auto.
  intros [= <-]. subst. reflexivity.
Qed.

Lemma cache_ok_filter f c : cache_ok c -> cache_ok (filter f c).
Proof.
  unfold cache_ok. rewrite !Forall_forall. intros H e He.
  apply filter_In in He. apply H, He.
Qed.

Lemma cache_ok_firstn n c : cache_ok c -> cache_ok (firstn n c).
Proof.
  unfold cache_ok. rewrite !Forall_forall. intros H e He.
  apply H. rewrite <- (firstn_skipn n c). apply in_or_app. now left.
Qed.

Lemma computes_kernel size :
  computes (_get_text_detection_kernel size)
           (fun k => k = Cv.getStructuringElement size).
Proof.
  intros w Hw. unfold _get_text_detection_kernel, evalState, execState. simpl.
  destruct (lru_lookup size (kernel_lru w)) as [k|] eqn:E; simpl.
  - pose proof (lru_lookup_ok _ _ _ Hw E) as ->. split; [reflexivity|].
    constructor; [reflexivity|]. now apply cache_ok_filter.
  - split; [reflexivity|].
    apply (cache_ok_firstn 32
             ((size, Cv.getStructuringElement size) :: kernel_lru w)).
    constructor; [reflexivity|assumption].
Qed.

Lemma computes_logging lvl line :
  computes (logging lvl line) (fun _ => True).
Proof. intros w Hw. split; [exact I|exact Hw]. Qed.

Lemma frames_ret {A : Type} (v : A) : frames (ret v) [].
Proof. intros w. simpl. rewrite app_nil_r. auto. Qed.

Lemma frames_bind {A B : Type} (m : state World A) (f : A -> state World B)
    l l' :
  frames m l -> (forall a, frames (f a) l') -> frames (bind m f) (l ++ l').
Proof.
  intros Hm Hf w. rewrite exec_bind.
  destruct (Hm w) as [Hr Hl].
  destruct (Hf (evalState m w) (execState m w)) as [Hr' Hl'].
  rewrite Hr', Hr, Hl', Hl, app_assoc. auto.
Qed.

Lemma frames_kernel size : frames (_get_text_detection_kernel size) [].
Proof.
  intros w. unfold _get_text_detection_kernel, execState. simpl.
  destruct (lru_lookup size (kernel_lru w)); simpl; rewrite app_nil_r; auto.
Qed.

Lemma frames_logging lvl line : frames (logging lvl line) [(lvl, line)].
Proof. intros w. simpl. auto. Qed.

Lemma frames_emit l : frames (emit l) l.
Proof. intros w. simpl. auto. Qed.

Ltac frame_step :=
  first
    [ apply (frames_bind _ _ [] []); [apply frames_kernel | intros ?]
    | apply frames_ret ].

Lemma frames_detect_text image : frames (detect_text image) [].
Proof. unfold detect_text. repeat frame_step. Qed.

Lemma frames_append_opening g size lb lm :
  frames (append_opening g size lb lm) [].
Proof. unfold append_opening. destruct g; repeat frame_step. Qed.

Lemma frames_detect_lines image forbidden :
  frames (detect_lines image forbidden) [(DEBUG, 282)].
Proof.
  unfold detect_lines.
  repeat first
    [ apply (frames_bind _ _ [] [(DEBUG, 282)]);
      [ first [apply frames_kernel | apply frames_append_opening] | intros ? ]
    | apply (frames_bind _ _ [(DEBUG, 282)] []);
      [ apply frames_logging | intros ? ]
    | apply frames_ret ].
Qed.

Lemma frames_mark_images h w contours acc :
  frames (mark_images h w contours acc) [].
Proof.
  revert acc. induction contours as [|c cs IH]; intros acc; cbn [mark_images].
  - apply frames_ret.
  - destruct (negb _); [|apply IH].
    apply (frames_bind _ _ [] []); [apply frames_kernel|intros ?; apply IH].
Qed.

Lemma frames_mark_qrcodes image contours acc :
  frames (mark_qrcodes image contours acc) [].
Proof.
  revert acc. induction contours as [|c cs IH]; intros acc; cbn [mark_qrcodes].
  - apply frames_ret.
  - destruct (looks_like_qrcode _ _); [|apply IH].
    apply (frames_bind _ _ [] []); [apply frames_kernel|intros ?; apply IH].
Qed.

Lemma frames_detect `{Cv2} image : frames (detect image) [(DEBUG, 282)].
Proof.
  unfold detect.
  apply (frames_bind _ _ [] [(DEBUG, 282)]);
    [apply frames_detect_text|intros ?].
  apply (frames_bind _ _ [(DEBUG, 282)] []);
    [apply frames_detect_lines|intros ?].
  apply (frames_bind _ _ [] []); [apply frames_mark_images|intros [? ?]].
  apply (frames_bind _ _ [] []); [apply frames_mark_qrcodes|intros [? ?]].
  apply frames_ret.
Qed.

Lemma determined_kernel_bind {B : Type} size (f : Kernel -> state World B) :
  determined (f (Cv.getStructuringElement size)) ->
  determined (bind (_get_text_detection_kernel size) f).
Proof.
  intros [v Hv]. exists v. eapply computes_bind; [apply computes_kernel|].
  intros a ->. exact Hv.
Qed.

Lemma determined_bind {A B : Type} (m : state World A)
    (f : A -> state World B) :
  determined m -> (forall a, determined (f a)) -> determined (bind m f).
Proof.
  intros [a Ha] Hf. destruct (Hf a) as [v Hv]. exists v.
  eapply computes_bind; [exact Ha|]. intros ? <-. exact Hv.
Qed.

Lemma determined_ret {A : Type} (v : A) : determined (ret v).
Proof. exists v. now apply computes_ret. Qed.

Lemma determined_kernel size : determined (_get_text_detection_kernel size).
Proof.
  exists (Cv.getStructuringElement size).
  eapply computes_weaken; [apply computes_kernel|]. intros a ->. reflexivity.
Qed.

Lemma determined_logging lvl line : determined (logging lvl line).
Proof.
  exists tt. intros w Hw. split; [|exact Hw].
  now destruct (evalState (logging lvl line) w).
Qed.

Ltac det_step :=
  first [ apply determined_ret
        | apply determined_bind;
          [ first [apply determined_kernel | apply determined_logging ]
          | intros ? ] ].

Lemma determined_detect_text image : determined (detect_text image).
Proof. unfold detect_text. repeat det_step. Qed.

Lemma determined_append_opening g size lb lm :
  determined (append_opening g size lb lm).
Proof. unfold append_opening. destruct g; repeat det_step. Qed.

Lemma determined_detect_lines image forbidden :
  determined (detect_lines image forbidden).
Proof.
  unfold detect_lines.
  repeat first [ det_step
               | apply determined_bind;
                 [apply determined_append_opening | intros ?] ].
Qed.

Lemma determined_mark_images h w contours acc :
  determined (mark_images h w contours acc).
Proof.
  revert acc. induction contours as [|c cs IH]; intros acc; cbn [mark_images].
  - apply determined_ret.
  - destruct (negb _); [|apply IH].
    apply determined_bind; [apply determined_kernel|intros ?; apply IH].
Qed.

Lemma determined_mark_qrcodes image contours acc :
  determined (mark_qrcodes image contours acc).
Proof.
  revert acc. induction contours as [|c cs IH]; intros acc; cbn [mark_qrcodes].
  - apply determined_ret.
  - destruct (looks_like_qrcode _ _); [|apply IH].
    apply determined_bind; [apply determined_kernel|intros ?; apply IH].
Qed.

Lemma determined_detect `{Cv2} image : determined (detect image).
Proof.
  unfold detect.
  apply determined_bind; [apply determined_detect_text|intros ?].
  apply determined_bind; [apply determined_detect_lines|intros ?].
  apply determined_bind; [apply determined_mark_images|intros [? ?]].
  apply determined_bind; [apply determined_mark_qrcodes|intros [? ?]].
  apply determined_ret.
Qed.

Lemma detect_page_masks `{Cv2} image :
  computes (detect image) (eq (page_masks image)).
Proof.
  destruct (determined_detect image) as [v Hv].
  assert (E : v = page_masks image).
  { destruct (Hv (mk_world image [] [])) as [E _]; [constructor|exact E]. }
  rewrite <- E. exact Hv.
Qed.

(** ** The search: totality and page bounds *)

Section SearchFacts.

Variable self : PDFProcessor.
Variables height width : Z.
Variables forbidden white_binary : ndarray.

Abbreviation min_zone := (min_zone_size self).
Abbreviation max_zone := (max_zone_size self).

Hypothesis valid : stamp_size_min self <= stamp_size_max self.

Lemma sizes_spec :
  exists tl, search_sizes_to_try self = Some (max_zone :: tl)
             /\ forall s, In s (max_zone :: tl) -> min_zone <= s <= max_zone.
Proof.
  unfold search_sizes_to_try.
  assert (Hlt : min_zone - 1 < max_zone)
    by (unfold min_zone_size, max_zone_size, min_margin; lia).
  destruct (range_down_head max_zone (min_zone - 1) (-5)) as [tl0 E];
    [lia|lia|].
  assert (Hin : forall s, In s (max_zone :: tl0) -> min_zone <= s <= max_zone).
  { intros s Hs. rewrite <- E in Hs. apply range_down_In in Hs; lia. }
  rewrite E. destruct (last_item_cons max_zone tl0) as [b ->].
  destruct (b =? min_zone).
  - exists tl0. split; [reflexivity|exact Hin].
  - exists (tl0 ++ [min_zone]). split; [reflexivity|].
    intros s Hs. change (In s ((max_zone :: tl0) ++ [min_zone])) in Hs.
    apply in_app_or in Hs. destruct Hs as [Hs|[<-|[]]]; [now apply Hin|lia].
Qed.

Lemma fallback_sizes_spec :
  exists fs, fallback_sizes self = Some fs
             /\ forall s, In s fs -> min_zone <= s.
Proof.
  unfold fallback_sizes.
  set (top := stamp_size_max self + 2 * min_margin).
  assert (Hlt : min_zone - 1 < top)
    by (unfold top, min_zone_size, min_margin; lia).
  destruct (range_down_head top (min_zone - 1) (-50)) as [tl0 E]; [lia|lia|].
  assert (Hin : forall s, In s (top :: tl0) -> min_zone <= s).
  { intros s Hs. rewrite <- E in Hs. apply range_down_In in Hs; lia. }
  rewrite E. destruct (last_item_cons top tl0) as [b ->].
  destruct (b =? min_zone).
  - eexists. split; [reflexivity|exact Hin].
  - eexists. split; [reflexivity|].
    intros s Hs. apply in_app_or in Hs.
    destruct Hs as [Hs|[<-|[]]]; [now apply Hin|lia].
Qed.

Lemma scan_step_pos s : 0 < scan_step self s.
Proof. unfold scan_step. destruct (near_max self s); lia. Qed.

Lemma available_le_max s : available_stamp_size self s <= stamp_size_max self.
Proof. unfold available_stamp_size. lia. Qed.

(** *** Primary scan: the position kept lies inside the page *)

Abbreviation ok := (scan_ok self height width).

Lemma scan_visit_ok s y x st :
  0 <= x -> x + s <= width -> 0 <= y -> y + s <= height ->
  ok st -> ok (fst (scan_visit self forbidden white_binary s y x st)).
Proof.
  intros Hx Hxs Hy Hys Hst. unfold scan_visit.
  destruct (candidate_is_clean _ _ _ _ _ _); [|exact Hst].
  destruct (Z.leb_spec (stamp_size_min self) (available_stamp_size self s));
    [|exact Hst].
  destruct (stamp_size_max self <=? available_stamp_size self s);
    [|destruct (best_stamp_size st <? available_stamp_size self s);
      [|exact Hst]];
    simpl; intros x' y' wr stp s' [= <- <- _ <- <-]; repeat split; lia.
Qed.

Lemma scan_row_ok s step y st :
  0 < step -> 0 <= y -> y + s <= height ->
  ok st ->
  ok (fst (scan_row self width forbidden white_binary s step y st)).
Proof.
  intros Hstep Hy Hys Hst. unfold scan_row. simpl.
  apply for_break_inv; [|exact Hst].
  intros x st' Hin Hst'. apply range_up_In in Hin; [|exact Hstep].
  unfold scan_x.
  pose proof (scan_visit_ok s y x st') as Hv.
  destruct (scan_visit self forbidden white_binary s y x st') as [st'' b].
  simpl in Hv. destruct b; simpl; apply Hv; auto; lia.
Qed.

Lemma scan_size_ok s st :
  ok st ->
  ok (fst (scan_size self height width forbidden white_binary s st)).
Proof.
  intros Hst. unfold scan_size.
  destruct (stamp_size_max self <=? best_stamp_size st); [exact Hst|].
  destruct ((width - s <=? 0) || (height - s <=? 0)); [exact Hst|]. simpl.
  apply for_break_inv; [|exact Hst].
  intros y st' Hin Hst'. apply range_up_In in Hin; [|apply scan_step_pos].
  apply scan_row_ok; auto using scan_step_pos; lia.
Qed.

Lemma primary_scan_ok sizes :
  ok (primary_scan self height width forbidden white_binary sizes).
Proof.
  unfold primary_scan. apply for_break_inv.
  - intros s st _ Hst. now apply scan_size_ok.
  - intros x y wr stp s [=].
Qed.

(** *** Local refinement never adopts a position *)

Lemma refine_visit_keeps s y x :
  refine_visit self forbidden white_binary s y x
               (None, available_stamp_size self s)
  = (None, available_stamp_size self s).
Proof.
  unfold refine_visit. simpl.
  rewrite Z.ltb_irrefl.
  destruct (forbidden_sum forbidden y x s =? 0); [|reflexivity].
  destruct (fgt _ _); [|reflexivity].
  destruct (stamp_size_min self <=? _); reflexivity.
Qed.

Lemma local_refinement_keeps x y wr s :
  local_refinement self height width forbidden white_binary
                   (x, y, wr, available_stamp_size self s, s)
  = ((x, y, wr, available_stamp_size self s, s), (INFO, 483)).
Proof.
  unfold local_refinement.
  match goal with
  | |- context [fst ?r] =>
      assert (E : r = (None, available_stamp_size self s)); [|rewrite E]
  end; [|reflexivity].
  destruct ((0 <? width - s) && (0 <? height - s)); [|reflexivity].
  apply (for_each_inv (fun st => st = (None, available_stamp_size self s)));
    [|reflexivity].
  intros y' st _ ->.
  apply (for_each_inv (fun st => st = (None, available_stamp_size self s)));
    [|reflexivity].
  intros x' st _ ->. apply refine_visit_keeps.
Qed.

(** *** Fallback tiers: whatever they keep lies inside the page *)

Abbreviation fit := (fits self height width).

Lemma inside_page_fits x y s :
  inside_page height width x y s = true ->
  stamp_size_min self <= available_stamp_size self s ->
  fit (Placement.mk x y s (available_stamp_size self s)).
Proof.
  unfold inside_page, fits. simpl. intros H Hs.
  apply andb_prop in H as [H H4]. apply andb_prop in H as [H H3].
  apply andb_prop in H as [H1 H2].
  pose proof (available_le_max s). lia.
Qed.

Lemma corner_search_fits sizes c :
  best_corner (corner_search self height width forbidden white_binary sizes)
  = Some c -> fit c.
Proof.
  revert c. unfold corner_search.
  apply (for_break_inv (fun st => forall c, best_corner st = Some c -> fit c));
    [|intros c [=]].
  intros s st _ Hst. unfold corner_size.
  destruct (is_some (best_corner st) && _); [exact Hst|]. cbn [fst].
  apply (for_break_inv (fun st => forall c, best_corner st = Some c -> fit c));
    [|exact Hst].
  intros base st' _ Hst'. unfold corner_visit.
  destruct (inside_page _ _ _ _ _) eqn:Hin; [|exact Hst'].
  destruct (feq _ _ && fgt _ _); [|exact Hst'].
  destruct (Z.leb_spec (stamp_size_min self) (available_stamp_size self s));
    [|exact Hst'].
  destruct (stamp_size_max self <=? _);
    [|destruct ((corner_stamp_size st' <? _) || _); [|exact Hst']];
    simpl; intros c [= <-]; now apply inside_page_fits.
Qed.

Lemma fallback_search_fits sizes c :
  best_fallback (fallback_search self height width forbidden white_binary sizes)
  = Some c -> fit c.
Proof.
  revert c. unfold fallback_search.
  apply (for_break_inv
           (fun st => forall c, best_fallback st = Some c -> fit c));
    [|intros c [=]].
  intros s st _ Hst. unfold fallback_size.
  destruct (is_some (best_fallback st) && _); [exact Hst|]. cbn [fst].
  apply (for_each_inv
           (fun st => forall c, best_fallback st = Some c -> fit c));
    [|exact Hst].
  intros base st' _ Hst'. unfold fallback_visit.
  destruct (inside_page _ _ _ _ _) eqn:Hin; [|exact Hst'].
  destruct (forbidden_sum _ _ _ _ =? 0); [|exact Hst'].
  destruct (fgt _ _); [|exact Hst'].
  destruct (Z.leb_spec (stamp_size_min self) (available_stamp_size self s));
    [|exact Hst'].
  destruct ((best_fallback_stamp_size st' <? _) || _); [|exact Hst'].
  simpl; intros c [= <-]; now apply inside_page_fits.
Qed.

Lemma emergency_strict_fits sizes c :
  best_emergency
    (emergency_strict self height width forbidden white_binary sizes)
  = Some c -> fit c.
Proof.
  revert c. unfold emergency_strict.
  apply (for_each_inv
           (fun st => forall c, best_emergency st = Some c -> fit c));
    [|intros c [=]].
  intros s st _ Hst.
  apply (for_each_inv
           (fun st => forall c, best_emergency st = Some c -> fit c));
    [|exact Hst].
  intros base st' _ Hst'. unfold emergency_strict_visit.
  destruct (inside_page _ _ _ _ _) eqn:Hin; [|exact Hst'].
  destruct (feq _ _); [|exact Hst'].
  destruct (fgt _ _); [|exact Hst'].
  destruct (Z.leb_spec (stamp_size_min self) (available_stamp_size self s));
    [|exact Hst'].
  destruct ((best_emergency_stamp_size st' <? _) || _); [|exact Hst'].
  simpl; intros c [= <-]; now apply inside_page_fits.
Qed.

Lemma emergency_overlap_fits sizes c :
  best_emergency
    (emergency_overlap self height width forbidden white_binary sizes)
  = Some c -> fit c.
Proof.
  revert c. unfold emergency_overlap.
  apply (for_each_inv
           (fun st => forall c, best_emergency st = Some c -> fit c));
    [|intros c [=]].
  intros s st _ Hst.
  apply (for_each_inv
           (fun st => forall c, best_emergency st = Some c -> fit c));
    [|exact Hst].
  intros base st' _ Hst'. unfold emergency_overlap_visit.
  destruct (inside_page _ _ _ _ _) eqn:Hin; [|exact Hst'].
  destruct (fle _ _); [|exact Hst'].
  destruct (fgt _ _); [|exact Hst'].
  destruct (Z.leb_spec (stamp_size_min self) (available_stamp_size self s));
    [|exact Hst'].
  match goal with |- context [if ?b then mk_emergency_best _ _ _ _ else _] =>
    destruct b end; [|exact Hst'].
  simpl; intros c [= <-]; now apply inside_page_fits.
Qed.

Lemma forced_position_fits :
  min_zone <= width -> min_zone <= height ->
  fit (forced_position self height width).
Proof.
  unfold fits, forced_position, min_zone_size, min_margin.
  intros Hw Hh. cbv zeta.
  repeat match goal with
         | |- context [if ?a <? ?b then _ else _] =>
             destruct (Z.ltb_spec a b)
         end;
    cbn [Placement.x Placement.y Placement.size Placement.stamp_size]; lia.
Qed.

Lemma fallback_tiers_returns sizes :
  exists p line,
    snd (fallback_tiers self height width forbidden white_binary sizes)
    = Py.Returns (p, line)
    /\ (min_zone <= width -> min_zone <= height -> fit p).
Proof.
  unfold fallback_tiers.
  destruct fallback_sizes_spec as (fs & -> & _).
  destruct (best_corner _) as [c|] eqn:Ec.
  { exists c, 575. split; [reflexivity|]. intros _ _.
    eapply corner_search_fits; eauto. }
  destruct (best_fallback _) as [f|] eqn:Ef.
  { exists f, 633. split; [reflexivity|]. intros _ _.
    eapply fallback_search_fits; eauto. }
  assert (Hlast : forall log,
    exists p line,
      snd (match best_emergency
                   (emergency_overlap self height width forbidden white_binary
                                      sizes) with
           | Some e' => (log ++ [(WARNING, 755)], Py.Returns (e', 756))
           | None => (log ++ [(ERROR, 760)]
                          ++ forced_log self height width forbidden,
                      Py.Returns (forced_position self height width, 788))
           end) = Py.Returns (p, line)
      /\ (min_zone <= width -> min_zone <= height -> fit p)).
  { intros log. destruct (best_emergency (emergency_overlap _ _ _ _ _ _))
      as [e'|] eqn:Eo.
    - exists e', 756. split; [reflexivity|]. intros _ _.
      eapply emergency_overlap_fits; eauto.
    - exists (forced_position self height width), 788.
      split; [reflexivity|]. apply forced_position_fits. }
  destruct (best_emergency (emergency_strict _ _ _ _ _ _)) as [e|] eqn:Ee.
  - destruct (feq _ _).
    + exists e, 692. split; [reflexivity|]. intros _ _.
      eapply emergency_strict_fits; eauto.
    + apply Hlast.
  - apply Hlast.
Qed.

Lemma search_returns :
  exists p line,
    snd (search self height width forbidden white_binary) = Py.Returns (p, line)
    /\ (min_zone <= width -> min_zone <= height -> fit p).
Proof.
  unfold search. destruct sizes_spec as (tl & -> & _).
  pose proof (primary_scan_ok (max_zone :: tl)) as Hok.
  destruct (best_position _) as [[[[[x y] wr] stp] s]|] eqn:Eb.
  - destruct (Hok _ _ _ _ _ Eb) as (Hx & Hxs & Hy & Hys & -> & Hmin).
    rewrite local_refinement_keeps. simpl.
    eexists _, _. split; [reflexivity|]. intros _ _.
    unfold fits. simpl. pose proof (available_le_max s). lia.
  - destruct (fallback_tiers_returns (max_zone :: tl)) as (p & line & E & Hf).
    destruct (fallback_tiers _ _ _ _ _ _) as [log' r]. simpl in E. subst r.
    exists p, line. split; [reflexivity|exact Hf].
Qed.

Lemma search_without_refinement_eq :
  search_without_refinement self height width forbidden white_binary
  = search self height width forbidden white_binary.
Proof.
  unfold search, search_without_refinement.
  destruct (search_sizes_to_try self) as [sizes|]; [|reflexivity].
  pose proof (primary_scan_ok sizes) as Hok.
  destruct (best_position _) as [[[[[x y] wr] stp] s]|] eqn:Eb; [|reflexivity].
  destruct (Hok _ _ _ _ _ Eb) as (_ & _ & _ & _ & -> & _).
  rewrite local_refinement_keeps. reflexivity.
Qed.

End SearchFacts.

Lemma sizes_sorted self sizes :
  search_sizes_to_try self = Some sizes -> StronglySorted Z.ge sizes.
Proof.
  unfold search_sizes_to_try.
  destruct (Py.last_item _) as [b|] eqn:E; [|discriminate].
  pose proof (range_down_sorted (max_zone_size self) (min_zone_size self - 1)
                (-5) eq_refl) as Hs.
  destruct (b =? min_zone_size self); intros [= <-]; [exact Hs|].
  apply sorted_snoc; [exact Hs|].
  intros v Hv. apply range_down_In in Hv; lia.
Qed.

(** ** The search: pages where every candidate is rejected *)

Section Rejecting.

Variable self : PDFProcessor.
Variables height width : Z.
Variables forbidden white_binary : ndarray.
Hypothesis valid : stamp_size_min self <= stamp_size_max self.
Hypothesis dead : rejecting self height width white_binary.

Lemma scan_visit_rejects s y x st :
  min_zone_size self <= s ->
  0 <= x < width - s -> 0 <= y < height - s ->
  scan_visit self forbidden white_binary s y x st = (st, false).
Proof.
  intros Hs Hx Hy. unfold scan_visit, candidate_is_clean.
  assert (Hq : exists q, white_threshold self s = Some q /\ (0 < q)%Q).
  { unfold white_threshold, fconst. destruct (near_max self s); eexists;
      (split; [reflexivity|reflexivity]). }
  destruct Hq as (q & -> & Hq).
  rewrite (dead s y x q); auto.
  - rewrite andb_false_r. reflexivity.
  - unfold inside_page.
    repeat (apply andb_true_intro; split); apply Z.leb_le; lia.
Qed.

Lemma primary_scan_none sizes :
  (forall s, In s sizes -> min_zone_size self <= s) ->
  best_position (primary_scan self height width forbidden white_binary sizes)
  = None.
Proof.
  intros Hsizes. unfold primary_scan.
  apply (for_break_inv (fun st => best_position st = None)); [|reflexivity].
  intros s st Hs Hst. unfold scan_size.
  destruct (stamp_size_max self <=? best_stamp_size st); [exact Hst|].
  destruct ((width - s <=? 0) || (height - s <=? 0)); [exact Hst|].
  cbn [fst].
  apply (for_break_inv (fun st => best_position st = None)); [|exact Hst].
  intros y st1 Hy Hst1. apply range_up_In in Hy; [|apply scan_step_pos].
  unfold scan_row. cbn [fst].
  apply (for_break_inv (fun st => best_position st = None)); [|exact Hst1].
  intros x st2 Hx Hst2. apply range_up_In in Hx; [|apply scan_step_pos].
  unfold scan_x. rewrite scan_visit_rejects by (auto; lia). exact Hst2.
Qed.

Lemma corner_search_none sizes :
  (forall s, In s sizes -> min_zone_size self <= s) ->
  best_corner (corner_search self height width forbidden white_binary sizes)
  = None.
Proof.
  intros Hsizes. unfold corner_search.
  apply (for_break_inv (fun st => best_corner st = None)); [|reflexivity].
  intros s st Hs Hst. unfold corner_size.
  destruct (is_some (best_corner st) && _); [exact Hst|]. cbn [fst].
  apply (for_break_inv (fun st => best_corner st = None)); [|exact Hst].
  intros base st1 _ Hst1. unfold corner_visit.
  destruct (inside_page _ _ _ _ _) eqn:Hin; [|exact Hst1].
  rewrite (dead s _ _ (95 # 100)); auto; [|reflexivity].
  rewrite andb_false_r. exact Hst1.
Qed.

Lemma fallback_search_none sizes :
  (forall s, In s sizes -> min_zone_size self <= s) ->
  best_fallback (fallback_search self height width forbidden white_binary sizes)
  = None.
Proof.
  intros Hsizes. unfold fallback_search.
  apply (for_break_inv (fun st => best_fallback st = None)); [|reflexivity].
  intros s st Hs Hst. unfold fallback_size.
  destruct (is_some (best_fallback st) && _); [exact Hst|]. cbn [fst].
  apply (for_each_inv (fun st => best_fallback st = None)); [|exact Hst].
  intros base st1 _ Hst1. unfold fallback_visit.
  destruct (inside_page _ _ _ _ _) eqn:Hin; [|exact Hst1].
  destruct (forbidden_sum _ _ _ _ =? 0); [|exact Hst1].
  rewrite (dead s _ _ (95 # 100)); auto; reflexivity.
Qed.

Lemma emergency_strict_none sizes :
  (forall s, In s sizes -> min_zone_size self <= s) ->
  best_emergency
    (emergency_strict self height width forbidden white_binary sizes)
  = None.
Proof.
  intros Hsizes. unfold emergency_strict.
  apply (for_each_inv (fun st => best_emergency st = None)); [|reflexivity].
  intros s st Hs Hst.
  apply (for_each_inv (fun st => best_emergency st = None)); [|exact Hst].
  intros base st1 _ Hst1. unfold emergency_strict_visit.
  destruct (inside_page _ _ _ _ _) eqn:Hin; [|exact Hst1].
  destruct (feq _ _); [|exact Hst1].
  rewrite (dead s _ _ (95 # 100)); auto; reflexivity.
Qed.

Lemma emergency_overlap_none sizes :
  (forall s, In s sizes -> min_zone_size self <= s) ->
  best_emergency
    (emergency_overlap self height width forbidden white_binary sizes)
  = None.
Proof.
  intros Hsizes. unfold emergency_overlap.
  apply (for_each_inv (fun st => best_emergency st = None)); [|reflexivity].
  intros s st Hs Hst.
  apply (for_each_inv (fun st => best_emergency st = None)); [|exact Hst].
  intros base st1 _ Hst1. unfold emergency_overlap_visit.
  destruct (inside_page _ _ _ _ _) eqn:Hin; [|exact Hst1].
  destruct (fle _ _); [|exact Hst1].
  rewrite (dead s _ _ (90 # 100)); auto; reflexivity.
Qed.

Lemma search_forced :
  snd (search self height width forbidden white_binary)
  = Py.Returns (forced_position self height width, 788).
Proof.
  unfold search.
  destruct (sizes_spec self valid) as (tl & -> & Hsizes).
  assert (Hs : forall s, In s (max_zone_size self :: tl) ->
                         min_zone_size self <= s)
    by (intros s Hs; apply Hsizes in Hs; lia).
  rewrite (primary_scan_none _ Hs).
  unfold fallback_tiers.
  destruct (fallback_sizes_spec self valid) as (fs & -> & Hfs).
  rewrite (corner_search_none _ Hfs), (fallback_search_none _ Hfs),
    (emergency_strict_none _ Hs), (emergency_overlap_none _ Hs).
  reflexivity.
Qed.

End Rejecting.

Lemma rejecting_small self height width white_binary :
  width < min_zone_size self \/ height < min_zone_size self ->
  rejecting self height width white_binary.
Proof.
  intros Hsmall s y x q Hs Hin _. exfalso.
  unfold inside_page in Hin.
  apply andb_prop in Hin as [Hin H4]. apply andb_prop in Hin as [Hin H3].
  apply andb_prop in Hin as [H1 H2]. lia.
Qed.

Lemma rejecting_black self height width white_binary :
  uniform white_binary 0 -> rejecting self height width white_binary.
Proof.
  intros U s y x q _ _ Hq. unfold white_ratio_at, Np.mean.
  rewrite (sum_uniform _ 0) by now apply slice_uniform.
  apply fgt_zero_ratio, Hq.
Qed.

(** ** The search: the first clean candidate at the largest stamp *)

Section FirstClean.

Variable self : PDFProcessor.
Variables height width : Z.
Variables forbidden white_binary : ndarray.
Hypothesis valid : stamp_size_min self <= stamp_size_max self.

Abbreviation at_max :=
  (clean_at_max self (candidate_is_clean self forbidden white_binary)).
Abbreviation below := (below_max self).

Lemma scan_x_not_max s y x st :
  at_max (s, y, x) = false -> below st ->
  below (fst (scan_x self forbidden white_binary s y x st))
  /\ snd (scan_x self forbidden white_binary s y x st) = false.
Proof.
  unfold clean_at_max, scan_x, scan_visit, below_max. intros Hc Hst.
  destruct (candidate_is_clean _ _ _ _ _ _); simpl in Hc.
  - rewrite Hc.
    destruct (stamp_size_min self <=? _);
      [destruct (Z.ltb_spec (best_stamp_size st)
                            (available_stamp_size self s))|];
      cbn [fst snd best_stamp_size]; (split; [|apply Z.leb_gt]);
      try apply Z.leb_gt in Hc; lia.
  - cbn [fst snd]. split; [|apply Z.leb_gt]; lia.
Qed.

Lemma scan_x_max s y x st :
  at_max (s, y, x) = true ->
  stopped_at self s y x (fst (scan_x self forbidden white_binary s y x st))
  /\ snd (scan_x self forbidden white_binary s y x st) = true.
Proof.
  unfold clean_at_max, scan_x, scan_visit. intros Hc.
  apply andb_prop in Hc as [-> Hmax]. rewrite Hmax.
  apply Z.leb_le in Hmax. pose proof (available_le_max self s).
  destruct (Z.leb_spec (stamp_size_min self) (available_stamp_size self s));
    [|lia].
  cbn [fst snd]. split; [|reflexivity].
  replace (available_stamp_size self s) with (stamp_size_max self) by lia.
  now eexists _, _.
Qed.

Lemma x_loop_first X1 x X2 s y st :
  (forall x', In x' X1 -> at_max (s, y, x') = false) ->
  at_max (s, y, x) = true -> below st ->
  stopped_at self s y x
    (Py.for_break (X1 ++ x :: X2) (scan_x self forbidden white_binary s y) st).
Proof.
  intros Hpre Hc Hst.
  destruct (for_break_skip below X1 (x :: X2)
              (scan_x self forbidden white_binary s y)) with (st := st)
    as (st1 & Hst1 & ->); [|exact Hst|].
  - intros x' st' Hin Hst'. now apply scan_x_not_max; [apply Hpre|].
  - rewrite for_break_hit; apply scan_x_max; assumption.
Qed.

Lemma scan_row_not_max s step y st :
  (forall x, In x (Py.range 0 (width - s) step) -> at_max (s, y, x) = false) ->
  below st ->
  below (fst (scan_row self width forbidden white_binary s step y st))
  /\ snd (scan_row self width forbidden white_binary s step y st) = false.
Proof.
  intros Hpre Hst. unfold scan_row. cbn [fst snd].
  assert (H : below
                (Py.for_break (Py.range 0 (width - s) step)
                   (scan_x self forbidden white_binary s y) st)).
  { apply (for_break_inv below); [|exact Hst].
    intros x st' Hin Hst'. now apply scan_x_not_max; [apply Hpre|]. }
  split; [exact H|]. apply Z.leb_gt. exact H.
Qed.

Lemma row_loop_first Y1 y Y2 X1 x X2 s step st :
  Py.range 0 (width - s) step = X1 ++ x :: X2 ->
  (forall y' x', In y' Y1 -> In x' (Py.range 0 (width - s) step) ->
                 at_max (s, y', x') = false) ->
  (forall x', In x' X1 -> at_max (s, y, x') = false) ->
  at_max (s, y, x) = true -> below st ->
  stopped_at self s y x
    (Py.for_break (Y1 ++ y :: Y2)
                  (scan_row self width forbidden white_binary s step) st).
Proof.
  intros Ex Hrows Hpre Hc Hst.
  destruct (for_break_skip below Y1 (y :: Y2)
              (scan_row self width forbidden white_binary s step))
    with (st := st) as (st1 & Hst1 & ->); [|exact Hst|].
  - intros y' st' Hin Hst'. apply scan_row_not_max; [|exact Hst'].
    intros x' Hx'. now apply Hrows.
  - assert (Hx : stopped_at self s y x
               (fst (scan_row self width forbidden white_binary s step y st1))).
    { unfold scan_row. cbn [fst]. rewrite Ex. now apply x_loop_first. }
    rewrite for_break_hit; [exact Hx|].
    destruct Hx as (wr & log & E). unfold scan_row in *. cbn [fst snd] in *.
    rewrite E. cbn [best_stamp_size]. apply Z.leb_refl.
Qed.

Lemma scan_size_not_max s st :
  (forall c, In c (scan_positions (scan_step self) height width s) ->
             at_max c = false) ->
  below st ->
  below (fst (scan_size self height width forbidden white_binary s st))
  /\ snd (scan_size self height width forbidden white_binary s st) = false.
Proof.
  intros Hpre Hst. unfold scan_size, scan_positions in *.
  destruct (Z.leb_spec (stamp_size_max self) (best_stamp_size st));
    [unfold below_max in Hst; lia|].
  destruct ((width - s <=? 0) || (height - s <=? 0)); [now split|].
  cbn [fst snd].
  match goal with
  | |- below ?r /\ _ => assert (H' : below r)
  end.
  { apply (for_break_inv below); [|exact Hst].
    intros y st' Hin Hst'. apply scan_row_not_max; [|exact Hst'].
    intros x Hx. apply Hpre. apply in_flat_map. exists y. split; [exact Hin|].
    apply in_map_iff. now exists x. }
  split; [exact H'|]. apply Z.leb_gt. exact H'.
Qed.

Lemma primary_scan_first sizes pre post s y x :
  0 < stamp_size_max self ->
  scan_order (scan_step self) height width sizes = pre ++ (s, y, x) :: post ->
  (forall c, In c pre -> at_max c = false) ->
  at_max (s, y, x) = true ->
  stopped_at self s y x
    (primary_scan self height width forbidden white_binary sizes).
Proof.
  intros Hpos Eo Hpre Hc. unfold scan_order in Eo.
  apply flat_map_split in Eo.
  destruct Eo as (S1 & a & S2 & p1 & p2 & -> & Ea & -> & _).
  unfold primary_scan.
  destruct (for_break_skip below S1 (a :: S2)
              (scan_size self height width forbidden white_binary))
    with (st := mk_scan None 0 []) as (st1 & Hst1 & ->);
    [|exact Hpos|].
  { intros s' st' Hin Hst'. apply scan_size_not_max; [|exact Hst'].
    intros c Hin'. apply Hpre. apply in_or_app. left.
    apply in_flat_map. now exists s'. }
  assert (Hsz : stopped_at self s y x
            (fst (scan_size self height width forbidden white_binary a st1))).
  { unfold scan_size. unfold scan_positions in Ea.
    destruct (Z.leb_spec (stamp_size_max self) (best_stamp_size st1));
      [unfold below_max in Hst1; lia|].
    destruct ((width - a <=? 0) || (height - a <=? 0));
      [destruct p1; discriminate|].
    cbn [fst]. apply flat_map_split in Ea.
    destruct Ea as (Y1 & y' & Y2 & q1 & q2 & Ey & Em & -> & _).
    apply map_split in Em.
    destruct Em as (X1 & x0 & X2 & Ex & -> & [= <- <- <-]).
    rewrite Ey. eapply row_loop_first; eauto.
    - intros y0 x' Hy0 Hx'. apply Hpre. apply in_or_app. right.
      apply in_or_app. left. apply in_flat_map. exists y0. split; [exact Hy0|].
      apply in_map_iff. now exists x'.
    - intros x' Hx'. apply Hpre. apply in_or_app. right.
      apply in_or_app. right. apply in_map_iff. now exists x'. }
  rewrite for_break_hit; [exact Hsz|].
  destruct Hsz as (wr & log & E). unfold scan_size in *.
  destruct (stamp_size_max self <=? best_stamp_size st1); [reflexivity|].
  destruct ((width - a <=? 0) || (height - a <=? 0)).
  - cbn [fst] in E. rewrite E in Hst1. unfold below_max in Hst1.
    cbn in Hst1. lia.
  - cbn [fst snd] in *. rewrite E. cbn [best_stamp_size]. apply Z.leb_refl.
Qed.

Lemma search_first sizes pre post s y x :
  0 < stamp_size_max self ->
  search_sizes_to_try self = Some sizes ->
  scan_order (scan_step self) height width sizes = pre ++ (s, y, x) :: post ->
  (forall c, In c pre -> at_max c = false) ->
  at_max (s, y, x) = true ->
  snd (search self height width forbidden white_binary)
  = Py.Returns (Placement.mk x y s (stamp_size_max self), 485).
Proof.
  intros Hpos Es Eo Hpre Hc. unfold search. rewrite Es.
  destruct (primary_scan_first sizes pre post s y x Hpos Eo Hpre Hc)
    as (wr & log & ->).
  cbn [best_position].
  assert (Ea : available_stamp_size self s = stamp_size_max self).
  { unfold clean_at_max in Hc. apply andb_prop in Hc as [_ Hmax].
    apply Z.leb_le in Hmax. pose proof (available_le_max self s). lia. }
  rewrite <- Ea at 1. rewrite local_refinement_keeps. cbn. now rewrite Ea.
Qed.

End FirstClean.

Lemma scan_order_head step_of height width s tl :
  0 < step_of s -> s < width -> s < height ->
  exists post,
    scan_order step_of height width (s :: tl) = [] ++ (s, 0, 0) :: post.
Proof.
  intros Hstep Hw Hh. unfold scan_order. cbn [flat_map].
  unfold scan_positions.
  destruct (Z.leb_spec (width - s) 0); [lia|].
  destruct (Z.leb_spec (height - s) 0); [lia|]. cbn [orb].
  destruct (range_up_head 0 (height - s) (step_of s)) as [ys ->]; [lia|lia|].
  destruct (range_up_head 0 (width - s) (step_of s)) as [xs ->]; [lia|lia|].
  cbn [flat_map map app]. eexists. reflexivity.
Qed.

Lemma scan_positions_unfit step_of height width s :
  (s <? width) && (s <? height) = false ->
  scan_positions step_of height width s = [].
Proof.
  intros H. unfold scan_positions.
  destruct (Z.leb_spec (width - s) 0), (Z.leb_spec (height - s) 0);
    try reflexivity.
  destruct (Z.ltb_spec s width), (Z.ltb_spec s height); simpl in H;
    try discriminate; lia.
Qed.

Lemma scan_order_first_fit step_of height width sizes s :
  (forall a, 0 < step_of a) ->
  StronglySorted Z.ge sizes -> In s sizes -> s < width -> s < height ->
  exists z post,
    In z sizes /\ s <= z /\ z < width /\ z < height
    /\ scan_order step_of height width sizes = [] ++ (z, 0, 0) :: post.
Proof.
  intros Hstep Hsorted Hin Hw Hh.
  destruct (first_fit (fun a => (a <? width) && (a <? height)) sizes s Hin)
    as (l1 & z & l2 & -> & Hl1 & Hz & Hin').
  { apply andb_true_intro. split; apply Z.ltb_lt; assumption. }
  apply andb_prop in Hz as [Hzw Hzh].
  apply Z.ltb_lt in Hzw. apply Z.ltb_lt in Hzh.
  destruct (scan_order_head step_of height width z l2 (Hstep z) Hzw Hzh)
    as [post Eo].
  exists z, post. repeat split; auto.
  - apply in_or_app. right. now left.
  - eapply sorted_after; eauto.
  - unfold scan_order in *. rewrite flat_map_app, Eo.
    rewrite flat_map_all_nil; [reflexivity|].
    intros a Ha. apply scan_positions_unfit. now apply Hl1.
Qed.

(** ** Running [find_whitest_space] *)

Lemma find_whitest_space_run `{Cv2} self w :
  runState (find_whitest_space self) w
  = (returned_of (evalState (detect (raster w)) w)
       (snd (search self (nrows (raster w)) (ncols (raster w))
               (forbidden_mask (evalState (detect (raster w)) w))
               (white_mask (raster w)))),
     mk_world (raster (execState (detect (raster w)) w))
              (kernel_lru (execState (detect (raster w)) w))
              (log_out (execState (detect (raster w)) w)
               ++ fst (search self (nrows (raster w)) (ncols (raster w))
                         (forbidden_mask (evalState (detect (raster w)) w))
                         (white_mask (raster w))))).
Proof.
  unfold find_whitest_space. rewrite run_bind.
  change (evalState read_image w) with (raster w).
  change (execState read_image w) with w.
  rewrite run_bind. unfold white_mask.
  destruct (search _ _ _ _ _) as [records r]. cbv beta iota.
  destruct r as [[c line]|]; reflexivity.
Qed.

Lemma find_whitest_space_without_refinement_run `{Cv2} self w :
  runState (find_whitest_space_without_refinement self) w
  = runState (find_whitest_space self) w.
Proof.
  unfold find_whitest_space_without_refinement, find_whitest_space.
  rewrite !run_bind.
  change (evalState read_image w) with (raster w).
  change (execState read_image w) with w.
  rewrite ?run_bind. rewrite search_without_refinement_eq. reflexivity.
Qed.

(** ** Uniformly white pages *)

Create HintDb zero discriminated.

Lemma zl_dilate image a k :
  zero_like image a -> zero_like image (Cv.dilate a k).
Proof. intros [S U]. split; [exact S|now apply dilate_zero]. Qed.

Lemma zl_erode image a k :
  0 < kwidth k -> 0 < kheight k ->
  zero_like image a -> zero_like image (Cv.erode a k).
Proof. intros Hw Hh [S U]. split; [exact S|now apply erode_zero]. Qed.

Lemma zl_open image a k :
  0 < kwidth k -> 0 < kheight k ->
  zero_like image a -> zero_like image (Cv.morph_open a k).
Proof. intros. unfold Cv.morph_open. now apply zl_dilate, zl_erode. Qed.

Lemma zl_close image a k :
  0 < kwidth k -> 0 < kheight k ->
  zero_like image a -> zero_like image (Cv.morph_close a k).
Proof. intros. unfold Cv.morph_close. now apply zl_erode, zl_dilate. Qed.

Lemma zl_or image a b :
  zero_like image a -> zero_like image b ->
  zero_like image (Cv.bitwise_or a b).
Proof.
  intros [Sa Ua] [Sb Ub]. split; [exact Sa|].
  apply bitwise_or_zero; auto. destruct Sa, Sb. split; congruence.
Qed.

Lemma zl_zeros image : zero_like image (Np.zeros (nrows image) (ncols image)).
Proof. split; [apply zeros_shape|apply zeros_uniform]. Qed.

#[local] Hint Resolve zl_dilate zl_erode zl_open zl_close zl_or zl_zeros : zero.

Lemma zl_union image masks :
  Forall (zero_like image) masks ->
  zero_like image (union_masks (nrows image) (ncols image) masks).
Proof.
  intros HF. unfold union_masks.
  apply (for_each_inv (zero_like image)); [|apply zl_zeros].
  intros m acc Hin Hacc. rewrite Forall_forall in HF. auto with zero.
Qed.

Section WhitePage.

Variable image : ndarray.
Hypothesis white : uniform image 255.

Lemma zl_inverted :
  zero_like image (Cv.rsub255 (Cv.threshold_binary image 220 255)).
Proof.
  split; [split; reflexivity|].
  exact (rsub255_uniform _ _ (threshold_binary_uniform _ _ 220 255 white)).
Qed.

Lemma zl_line_binary : zero_like image (Cv.threshold_binary_inv image 200 255).
Proof.
  split; [split; reflexivity|].
  exact (threshold_binary_inv_uniform _ _ 200 255 white).
Qed.

Lemma detect_text_white : computes (detect_text image) (zero_like image).
Proof.
  unfold detect_text. pose proof zl_inverted as Hi.
  repeat (eapply computes_bind; [apply computes_kernel|intros ? ->]).
  apply computes_ret.
  apply zl_dilate, zl_or; [apply zl_or|]; auto with zero;
    (apply zl_open || apply zl_close); simpl; auto; lia.
Qed.

Lemma append_opening_white g size lb lm :
  0 < fst size -> 0 < snd size -> zero_like image lb ->
  Forall (zero_like image) lm ->
  computes (append_opening g size lb lm) (Forall (zero_like image)).
Proof.
  intros Hw Hh Hlb Hlm. unfold append_opening. destruct g.
  - eapply computes_bind; [apply computes_kernel|intros ? ->].
    apply computes_ret. apply Forall_app. split; [exact Hlm|].
    constructor; [|constructor]. now apply zl_open.
  - now apply computes_ret.
Qed.

Lemma detect_lines_white forbidden :
  zero_like image forbidden ->
  computes (detect_lines image forbidden) (zero_like image).
Proof.
  intros Hf. unfold detect_lines. pose proof zl_line_binary as Hb.
  repeat first
    [ eapply computes_bind;
      [ apply append_opening_white; simpl; auto; lia | intros ? ? ]
    | eapply computes_bind; [apply computes_kernel|intros ? ->]
    | eapply computes_bind; [apply computes_logging|intros ? _] ].
  apply computes_ret.
  repeat first [apply zl_or | apply zl_dilate | apply zl_union]; assumption.
Qed.

Lemma looks_like_qrcode_flat v contour :
  uniform image v -> looks_like_qrcode image contour = false.
Proof.
  intros U. unfold looks_like_qrcode.
  destruct (negb _ && negb _); [|reflexivity].
  destruct (boundingRect contour) as [[[x y] w] h].
  destruct (flt _ _ && flt _ _); [|reflexivity].
  destruct (0 <? Np.size _); [|reflexivity].
  apply (std_gt_uniform _ v). now apply slice_uniform.
Qed.

Lemma mark_qrcodes_flat contours acc :
  computes (mark_qrcodes image contours acc) (eq acc).
Proof.
  induction contours as [|c cs IH]; cbn [mark_qrcodes].
  - now apply computes_ret.
  - rewrite (looks_like_qrcode_flat 255 c white). exact IH.
Qed.

Lemma detect_white `{cv : Cv2} :
  flat_pages_have_no_edges cv ->
  computes (detect image) (fun m => zero_like image (forbidden_mask m)).
Proof.
  intros [Hlap Hfc]. unfold detect.
  eapply computes_bind; [apply detect_text_white|intros text Ht].
  eapply computes_bind;
    [apply detect_lines_white; auto with zero|intros forbidden Hf].
  rewrite Hfc.
  2:{ exact (threshold_binary_uniform _ _ 30 255 (Hlap image 255 white)). }
  cbn [mark_images].
  eapply (computes_bind _ _ (eq _));
    [apply computes_ret; reflexivity|intros [images f1] [= <- <-]].
  eapply computes_bind; [apply mark_qrcodes_flat|intros [qr f2] [= <- <-]].
  apply computes_ret. exact Hf.
Qed.

End WhitePage.

Section WhiteSearch.

Variable self : PDFProcessor.
Variables forbidden white_binary image : ndarray.
Hypothesis valid : stamp_size_min self <= stamp_size_max self.
Hypothesis positive : 0 < stamp_size_max self.
Hypothesis Hf : zero_like image forbidden.
Hypothesis Hw : same_shape white_binary image /\ uniform white_binary 255.

Lemma white_candidate_clean z :
  stamp_size_max self + 2 * min_margin <= z ->
  z < ncols image -> z < nrows image ->
  clean_at_max self (candidate_is_clean self forbidden white_binary)
               (z, 0, 0) = true.
Proof.
  intros Hz wide tall.
  destruct Hf as [[Hfr Hfc] Uf], Hw as [[Hwr Hwc] Uw].
  assert (Hs : 0 < z) by (unfold min_margin in Hz; lia).
  unfold clean_at_max, candidate_is_clean.
  apply andb_true_intro. split; [apply andb_true_intro; split|].
  - unfold forbidden_sum. rewrite (sum_uniform _ 0) by now apply slice_uniform.
    reflexivity.
  - unfold white_ratio_at, Np.mean.
    rewrite (sum_uniform _ 255) by now apply slice_uniform.
    assert (Hq : exists q, white_threshold self z = Some q /\ (q < 1)%Q).
    { unfold white_threshold, fconst. destruct (near_max _ _); eexists;
        (split; [reflexivity|reflexivity]). }
    destruct Hq as (q & -> & Hq). apply fgt_full_ratio; [|exact Hq].
    rewrite (slice_size_inside white_binary 0 0 z) by lia. nia.
  - apply Z.leb_le. unfold available_stamp_size, min_margin in *. lia.
Qed.

Lemma search_white_any sizes s :
  search_sizes_to_try self = Some sizes -> In s sizes ->
  stamp_size_max self + 2 * min_margin <= s ->
  s < ncols image -> s < nrows image ->
  exists z,
    In z sizes /\ s <= z /\ z < ncols image /\ z < nrows image
    /\ snd (search self (nrows image) (ncols image) forbidden white_binary)
       = Py.Returns (Placement.mk 0 0 z (stamp_size_max self), 485).
Proof.
  intros Es Hin Hs wide tall.
  destruct (scan_order_first_fit (scan_step self) (nrows image) (ncols image)
              sizes s (scan_step_pos self) (sizes_sorted self sizes Es)
              Hin wide tall) as (z & post & Hz & Hsz & Hzw & Hzh & Eo).
  exists z. repeat split; auto.
  eapply search_first; eauto; [intros c []|].
  apply white_candidate_clean; auto. lia.
Qed.

Lemma search_white :
  max_zone_size self < ncols image -> max_zone_size self < nrows image ->
  snd (search self (nrows image) (ncols image) forbidden white_binary)
  = Py.Returns (Placement.mk 0 0 (max_zone_size self) (stamp_size_max self),
                485).
Proof.
  intros wide tall.
  destruct (sizes_spec self valid) as (tl & Es & Hb).
  destruct (search_white_any _ (max_zone_size self) Es)
    as (z & Hz & Hle & _ & _ & E);
    [now left|unfold max_zone_size, min_margin; lia|exact wide|exact tall|].
  apply Hb in Hz. assert (Ez : z = max_zone_size self) by lia.
  rewrite Ez in E. exact E.
Qed.

End WhiteSearch.

(** ** The client scan *)

Section ClientFirstClean.

Variable self : PDFProcessor.
Variables height width : Z.
Variables forbidden white_binary : ndarray.
Hypothesis valid : stamp_size_min self <= stamp_size_max self.

Abbreviation at_max :=
  (clean_at_max self (Client.candidate_is_clean forbidden white_binary)).
Abbreviation running := (client_running self).
Abbreviation stopped := (client_stopped_at self).
Abbreviation scan_x := (Client.scan_x self forbidden white_binary).
Abbreviation scan_row := (Client.scan_row self width forbidden white_binary).
Abbreviation scan_size :=
  (Client.scan_size self height width forbidden white_binary).

Lemma client_scan_x_not_max s y x st :
  at_max (s, y, x) = false -> running st ->
  running (fst (scan_x s y x st)) /\ snd (scan_x s y x st) = false.
Proof.
  unfold clean_at_max, Client.scan_x, Client.scan_visit, client_running.
  intros Hc [Hr Hst].
  destruct (Client.candidate_is_clean _ _ _ _ _); simpl in Hc.
  - rewrite Hc.
    destruct (stamp_size_min self <=? _);
      [destruct (Z.ltb_spec (Client.best_stamp_size st)
                            (available_stamp_size self s))|];
      cbn [fst snd Client.best_stamp_size Client.returned];
      (split; [split; [assumption|]|apply Z.leb_gt]);
      try apply Z.leb_gt in Hc; lia.
  - cbn [fst snd]. split; [split; [assumption|]|apply Z.leb_gt]; lia.
Qed.

Lemma client_scan_x_max s y x st :
  at_max (s, y, x) = true ->
  stopped s y x (fst (scan_x s y x st)) /\ snd (scan_x s y x st) = true.
Proof.
  unfold clean_at_max, Client.scan_x, Client.scan_visit, client_stopped_at.
  intros Hc.
  apply andb_prop in Hc as [-> Hmax]. rewrite Hmax.
  apply Z.leb_le in Hmax. pose proof (available_le_max self s).
  destruct (Z.leb_spec (stamp_size_min self) (available_stamp_size self s));
    [|lia].
  cbn [fst snd Client.returned]. split; [|reflexivity].
  replace (available_stamp_size self s) with (stamp_size_max self) by lia.
  reflexivity.
Qed.

Lemma client_x_loop_first X1 x X2 s y st :
  (forall x', In x' X1 -> at_max (s, y, x') = false) ->
  at_max (s, y, x) = true -> running st ->
  stopped s y x (Py.for_break (X1 ++ x :: X2) (scan_x s y) st).
Proof.
  intros Hpre Hc Hst.
  destruct (for_break_skip running X1 (x :: X2) (scan_x s y)) with (st := st)
    as (st1 & Hst1 & ->); [|exact Hst|].
  - intros x' st' Hin Hst'. now apply client_scan_x_not_max; [apply Hpre|].
  - rewrite for_break_hit; apply client_scan_x_max; assumption.
Qed.

Lemma client_scan_row_not_max s step y st :
  (forall x, In x (Py.range 0 (width - s) step) -> at_max (s, y, x) = false) ->
  running st ->
  running (fst (scan_row s step y st)) /\ snd (scan_row s step y st) = false.
Proof.
  intros Hpre Hst. unfold Client.scan_row. cbn [fst snd].
  assert (H : running (Py.for_break (Py.range 0 (width - s) step)
                                    (scan_x s y) st)).
  { apply (for_break_inv running); [|exact Hst].
    intros x st' Hin Hst'. now apply client_scan_x_not_max; [apply Hpre|]. }
  split; [exact H|]. destruct H as [-> H]. cbn [is_some orb].
  apply Z.leb_gt. exact H.
Qed.

Lemma client_row_loop_first Y1 y Y2 X1 x X2 s step st :
  Py.range 0 (width - s) step = X1 ++ x :: X2 ->
  (forall y' x', In y' Y1 -> In x' (Py.range 0 (width - s) step) ->
                 at_max (s, y', x') = false) ->
  (forall x', In x' X1 -> at_max (s, y, x') = false) ->
  at_max (s, y, x) = true -> running st ->
  stopped s y x (Py.for_break (Y1 ++ y :: Y2) (scan_row s step) st).
Proof.
  intros Ex Hrows Hpre Hc Hst.
  destruct (for_break_skip running Y1 (y :: Y2) (scan_row s step))
    with (st := st) as (st1 & Hst1 & ->); [|exact Hst|].
  - intros y' st' Hin Hst'. apply client_scan_row_not_max; [|exact Hst'].
    intros x' Hx'. now apply Hrows.
  - assert (Hx : stopped s y x (fst (scan_row s step y st1))).
    { unfold Client.scan_row. cbn [fst]. rewrite Ex.
      now apply client_x_loop_first. }
    rewrite for_break_hit; [exact Hx|].
    unfold client_stopped_at, Client.scan_row in *. cbn [fst snd] in *.
    rewrite Hx. reflexivity.
Qed.

Lemma client_scan_size_not_max s st :
  (forall c, In c (scan_positions (Client.scan_step self) height width s) ->
             at_max c = false) ->
  running st ->
  running (fst (scan_size s st)) /\ snd (scan_size s st) = false.
Proof.
  intros Hpre Hst. unfold Client.scan_size, scan_positions in *.
  destruct (Z.leb_spec (stamp_size_max self) (Client.best_stamp_size st));
    [destruct Hst; lia|].
  destruct ((width - s <=? 0) || (height - s <=? 0)); [now split|].
  cbn [fst snd].
  match goal with
  | |- client_running _ ?r /\ _ => assert (H' : running r)
  end.
  { apply (for_break_inv running); [|exact Hst].
    intros y st' Hin Hst'. apply client_scan_row_not_max; [|exact Hst'].
    intros x Hx. apply Hpre. apply in_flat_map. exists y. split; [exact Hin|].
    apply in_map_iff. now exists x. }
  split; [exact H'|]. destruct H' as [-> _]. reflexivity.
Qed.

Lemma client_scan_first sizes pre post s y x :
  0 < stamp_size_max self ->
  scan_order (Client.scan_step self) height width sizes
  = pre ++ (s, y, x) :: post ->
  (forall c, In c pre -> at_max c = false) ->
  at_max (s, y, x) = true ->
  stopped s y x (Py.for_break sizes scan_size (Client.mk_scan None None 0)).
Proof.
  intros Hpos Eo Hpre Hc. unfold scan_order in Eo.
  apply flat_map_split in Eo.
  destruct Eo as (S1 & a & S2 & p1 & p2 & -> & Ea & -> & _).
  destruct (for_break_skip running S1 (a :: S2) scan_size)
    with (st := Client.mk_scan None None 0) as (st1 & Hst1 & ->);
    [|split; [reflexivity|exact Hpos]|].
  { intros s' st' Hin Hst'. apply client_scan_size_not_max; [|exact Hst'].
    intros c Hin'. apply Hpre. apply in_or_app. left.
    apply in_flat_map. now exists s'. }
  assert (Hsz : stopped s y x (fst (scan_size a st1))).
  { unfold Client.scan_size. unfold scan_positions in Ea.
    destruct (Z.leb_spec (stamp_size_max self) (Client.best_stamp_size st1));
      [destruct Hst1; lia|].
    destruct ((width - a <=? 0) || (height - a <=? 0));
      [destruct p1; discriminate|].
    cbn [fst]. apply flat_map_split in Ea.
    destruct Ea as (Y1 & y' & Y2 & q1 & q2 & Ey & Em & -> & _).
    apply map_split in Em.
    destruct Em as (X1 & x0 & X2 & Ex & -> & [= <- <- <-]).
    rewrite Ey. eapply client_row_loop_first; eauto.
    - intros y0 x' Hy0 Hx'. apply Hpre. apply in_or_app. right.
      apply in_or_app. left. apply in_flat_map. exists y0. split; [exact Hy0|].
      apply in_map_iff. now exists x'.
    - intros x' Hx'. apply Hpre. apply in_or_app. right.
      apply in_or_app. right. apply in_map_iff. now exists x'. }
  rewrite for_break_hit; [exact Hsz|].
  unfold client_stopped_at, Client.scan_size in *.
  destruct (Z.leb_spec (stamp_size_max self) (Client.best_stamp_size st1));
    [reflexivity|].
  destruct ((width - a <=? 0) || (height - a <=? 0)).
  - cbn [fst] in Hsz. destruct Hst1 as [Hr _]. congruence.
  - cbn [fst snd] in *. rewrite Hsz. reflexivity.
Qed.

Lemma client_search_first pre post s y x :
  0 < stamp_size_max self ->
  scan_order (Client.scan_step self) height width
    (Py.range (max_zone_size self) (min_zone_size self - 1) (-5))
  = pre ++ (s, y, x) :: post ->
  (forall c, In c pre -> at_max c = false) ->
  at_max (s, y, x) = true ->
  Client.search self height width forbidden white_binary
  = Py.Returns (Placement.mk x y s (stamp_size_max self)).
Proof.
  intros Hpos Eo Hpre Hc. unfold Client.search.
  pose proof (client_scan_first _ pre post s y x Hpos Eo Hpre Hc) as E.
  unfold client_stopped_at in E. unfold max_zone_size, min_zone_size in E.
  rewrite E. reflexivity.
Qed.

Lemma client_search_returns :
  exists p, Client.search self height width forbidden white_binary
            = Py.Returns p.
Proof.
  unfold Client.search.
  destruct (Client.returned _); [eexists; reflexivity|].
  destruct (Client.best_position _) as [[[[x y] sq] stp]|];
    [eexists; reflexivity|].
  destruct (Client.first_corner _ _ _ _); eexists; reflexivity.
Qed.

End ClientFirstClean.

Lemma client_run `{Cv2} self w :
  evalState (Client.find_whitest_space self) w
  = Client.search self (nrows (raster w)) (ncols (raster w))
      (evalState (Client.detect (raster w)) w) (white_mask (raster w)).
Proof.
  unfold Client.find_whitest_space. rewrite eval_bind.
  change (evalState read_image w) with (raster w).
  change (execState read_image w) with w.
  rewrite eval_bind. reflexivity.
Qed.

Lemma determined_client_detect_lines image forbidden :
  determined (Client.detect_lines image forbidden).
Proof.
  unfold Client.detect_lines. destruct (100 <? ncols image); repeat det_step.
Qed.

Lemma determined_client_mark_images h w contours acc :
  determined (Client.mark_images h w contours acc).
Proof.
  revert acc.
  induction contours as [|c cs IH]; intros acc; cbn [Client.mark_images].
  - apply determined_ret.
  - destruct (negb _); [|apply IH].
    apply determined_bind; [apply determined_kernel|intros ?; apply IH].
Qed.

Lemma client_detect_forbidden `{Cv2} image :
  computes (Client.detect image) (eq (client_forbidden image)).
Proof.
  assert (Hd : determined (Client.detect image)).
  { unfold Client.detect.
    apply determined_bind; [apply determined_detect_text|intros ?].
    apply determined_bind; [apply determined_client_detect_lines|intros ?].
    apply determined_client_mark_images. }
  destruct Hd as [v Hv].
  assert (E : v = client_forbidden image).
  { destruct (Hv (mk_world image [] [])) as [E _]; [constructor|exact E]. }
  rewrite <- E. exact Hv.
Qed.

Lemma client_scan_step_pos self s : 0 < Client.scan_step self s.
Proof. unfold Client.scan_step. destruct (_ <=? _); lia. Qed.

Lemma client_detect_white `{cv : Cv2} image :
  uniform image 255 -> flat_pages_have_no_edges cv ->
  computes (Client.detect image) (zero_like image).
Proof.
  intros U [Hlap Hfc]. unfold Client.detect.
  eapply computes_bind; [now apply detect_text_white|intros text Ht].
  eapply (computes_bind _ _ (zero_like image)).
  - unfold Client.detect_lines. destruct (100 <? ncols image).
    + repeat (eapply computes_bind; [apply computes_kernel|intros ? ->]).
      apply computes_ret.
      apply zl_or; [apply zl_or; [apply zl_zeros|exact Ht]|].
      apply zl_dilate, zl_open; [simpl; lia|simpl; lia|].
      now apply zl_line_binary.
    + apply computes_ret. apply zl_or; [apply zl_zeros|exact Ht].
  - intros forbidden Hf. rewrite Hfc.
    2:{ exact (threshold_binary_uniform _ _ 30 255 (Hlap image 255 U)). }
    now apply computes_ret.
Qed.

Lemma client_first_candidate_clean self forbidden white_binary image :
  zero_like image forbidden ->
  same_shape white_binary image /\ uniform white_binary 255 ->
  max_zone_size self < ncols image -> max_zone_size self < nrows image ->
  clean_at_max self (Client.candidate_is_clean forbidden white_binary)
               (max_zone_size self, 0, 0) = true.
Proof.
  intros [[Hfr Hfc] Uf] [[Hwr Hwc] Uw] wide tall.
  assert (Hs : 410 <= max_zone_size self) by (unfold max_zone_size; lia).
  unfold clean_at_max, Client.candidate_is_clean.
  apply andb_true_intro. split; [apply andb_true_intro; split|].
  - unfold forbidden_sum. rewrite (sum_uniform _ 0) by now apply slice_uniform.
    reflexivity.
  - unfold white_ratio_at, Np.mean.
    rewrite (sum_uniform _ 255) by now apply slice_uniform.
    apply fgt_full_ratio; [|reflexivity].
    rewrite (slice_size_inside white_binary 0 0 (max_zone_size self)) by lia.
    nia.
  - apply Z.leb_le. unfold available_stamp_size, max_zone_size, min_margin. lia.
Qed.

(** ** Properties of [find_whitest_space] *)

Lemma eval_find_whitest_space `{Cv2} self w :
  evalState (find_whitest_space self) w
  = returned_of (evalState (detect (raster w)) w)
      (snd (search self (nrows (raster w)) (ncols (raster w))
              (forbidden_mask (evalState (detect (raster w)) w))
              (white_mask (raster w)))).
Proof. unfold evalState at 1. rewrite find_whitest_space_run. reflexivity. Qed.

Lemma exec_find_whitest_space `{Cv2} self w :
  raster (execState (find_whitest_space self) w) = raster w
  /\ kernel_lru (execState (find_whitest_space self) w)
     = kernel_lru (execState (detect (raster w)) w)
  /\ log_out (execState (find_whitest_space self) w)
     = log_out w ++ (DEBUG, 282)
         :: fst (search self (nrows (raster w)) (ncols (raster w))
                   (forbidden_mask (evalState (detect (raster w)) w))
                   (white_mask (raster w))).
Proof.
  assert (E : execState (find_whitest_space self) w
              = snd (runState (find_whitest_space self) w)) by reflexivity.
  rewrite E, find_whitest_space_run. cbn [snd raster kernel_lru log_out].
  destruct (frames_detect (raster w) w) as [Hr Hl].
  rewrite Hr, Hl, <- app_assoc. repeat split.
Qed.

Lemma eval_detect_ok `{Cv2} w :
  cache_ok (kernel_lru w) ->
  evalState (detect (raster w)) w = page_masks (raster w).
Proof.
  intros Hw. destruct (detect_page_masks (raster w) w Hw) as [E _].
  now rewrite <- E.
Qed.

Lemma forced_position_inside self height width :
  min_zone_size self <= width -> min_zone_size self <= height ->
  forced_position self height width
  = Placement.mk (Z.max 0 (width - min_zone_size self - 20))
                 (if height <? 20 + min_zone_size self
                  then height - min_zone_size self else 20)
                 (min_zone_size self) (stamp_size_min self).
Proof.
  unfold forced_position, min_zone_size, min_margin. intros Hw Hh. cbv zeta.
  repeat match goal with
         | |- context [if ?a <? ?b then _ else _] =>
             destruct (Z.ltb_spec a b)
         end; f_equal; lia.
Qed.

Lemma find_whitest_space_forced `{Cv2} self w :
  stamp_size_min self <= stamp_size_max self ->
  rejecting self (nrows (raster w)) (ncols (raster w))
            (white_mask (raster w)) ->
  evalState (find_whitest_space self) w
  = Py.Returns
      (mk_returned (forced_position self (nrows (raster w)) (ncols (raster w)))
                   (evalState (detect (raster w)) w) 788).
Proof.
  intros Hv Hrej. rewrite eval_find_whitest_space.
  rewrite search_forced by assumption. reflexivity.
Qed.

Lemma white_mask_black image : uniform image 0 -> uniform (white_mask image) 0.
Proof. intros U. exact (threshold_binary_uniform _ _ 245 255 U). Qed.

Lemma white_mask_white image :
  uniform image 255 ->
  same_shape (white_mask image) image /\ uniform (white_mask image) 255.
Proof.
  intros U. split; [split; reflexivity|].
  exact (threshold_binary_uniform _ _ 245 255 U).
Qed.

Lemma blank_page_uniform h w v : uniform (raster (blank_page h w v)) v.
Proof. intros y x _ _. reflexivity. Qed.

Lemma no_contours_flat : flat_pages_have_no_edges no_contours.
Proof. split; [intros image v _; apply zeros_uniform|reflexivity]. Qed.

Lemma frame_contours_flat : flat_pages_have_no_edges frame_contours.
Proof.
  split.
  - intros image v U y x Hy Hx.
    assert (Hy' : 0 <= y < nrows image) by exact Hy.
    assert (Hx' : 0 <= x < ncols image) by exact Hx.
    cbn [laplacian_abs_u8 frame_contours px].
    rewrite !U by lia.
    replace (v + v + v + v - 4 * v) with 0 by ring. reflexivity.
  - intros a U. cbn [findContours frame_contours].
    rewrite (sum_uniform a 0 U). reflexivity.
Qed.

(** C1. For every raster whose width and height are at least
    [smin_zone = stamp_min + 2 * min_margin] and every configuration with
    [stamp_min <= stamp_max], [find_whitest_space] returns a placement: it
    neither raises nor returns nothing. This holds of the server engine
    and of the client engine alike. *)
Theorem find_whitest_space_total `{Cv2} (self : PDFProcessor) (w : World) :
  min_zone_size self <= ncols (raster w) ->
  min_zone_size self <= nrows (raster w) ->
  stamp_size_min self <= stamp_size_max self ->
  (exists r, evalState (find_whitest_space self) w = Py.Returns r)
  /\ (exists p, evalState (Client.find_whitest_space self) w = Py.Returns p).
Proof.
  intros _ _ Hv. split.
  - rewrite eval_find_whitest_space.
    destruct (search_returns self (nrows (raster w)) (ncols (raster w))
                (forbidden_mask (evalState (detect (raster w)) w))
                (white_mask (raster w)) Hv) as (p & line & -> & _).
    eexists. reflexivity.
  - rewrite client_run. apply client_search_returns.
Qed.

Lemma find_whitest_space_total_witness :
  (exists r, evalState (@find_whitest_space no_contours servicer_processor)
                       (blank_page 2970 2100 255) = Py.Returns r)
  /\ (exists p, evalState (@Client.find_whitest_space no_contours
                             servicer_processor)
                          (blank_page 2970 2100 255) = Py.Returns p).
Proof.
  apply (@find_whitest_space_total no_contours servicer_processor
           (blank_page 2970 2100 255)); vm_compute; discriminate.
Defined.

(** C2. Under the same preconditions the placement the server engine
    returns satisfies [0 <= x], [0 <= y], [x + zone <= W], [y + zone <= H]
    and [stamp_min <= stamp <= stamp_max]. *)
Theorem placement_fits_page `{Cv2} (self : PDFProcessor) (w : World) :
  min_zone_size self <= ncols (raster w) ->
  min_zone_size self <= nrows (raster w) ->
  stamp_size_min self <= stamp_size_max self ->
  exists r, evalState (find_whitest_space self) w = Py.Returns r
            /\ fits self (nrows (raster w)) (ncols (raster w)) (coords r).
Proof.
  intros Hw Hh Hv. rewrite eval_find_whitest_space.
  destruct (search_returns self (nrows (raster w)) (ncols (raster w))
              (forbidden_mask (evalState (detect (raster w)) w))
              (white_mask (raster w)) Hv) as (p & line & -> & Hf).
  eexists. split; [reflexivity|]. now apply Hf.
Qed.

Lemma placement_fits_page_witness :
  exists r, evalState (@find_whitest_space no_contours servicer_processor)
                      (blank_page 2970 2100 0) = Py.Returns r
            /\ fits servicer_processor 2970 2100 (coords r).
Proof.
  apply (@placement_fits_page no_contours servicer_processor
           (blank_page 2970 2100 0)); vm_compute; discriminate.
Defined.

(** C3, as stated, fails: on a 209 x 209 page with [stamp_min = 200] the
    engine signals nothing and returns the forced placement
    [{x: 0, y: 0, zone: 210, stamp: 200}], which is wider than the page. *)
Lemma tiny_page_gets_placement :
  exists m,
    evalState (@find_whitest_space no_contours servicer_processor)
              (blank_page 209 209 0)
    = Py.Returns (mk_returned (Placement.mk 0 0 210 200) m 788).
Proof.
  eexists. rewrite find_whitest_space_forced.
  - reflexivity.
  - vm_compute; discriminate.
  - apply rejecting_small. left. vm_compute. reflexivity.
Qed.

(** C3, amended. For every raster whose width or height is smaller than
    [smin_zone], the engine raises no error: every tier skips all its
    candidates and the call returns the forced placement of line 788, with
    [zone = smin_zone] and [stamp = stamp_min], at coordinate 0 on each
    axis that is too short, where the zone runs past the page. *)
Theorem small_page_still_placed `{Cv2} (self : PDFProcessor) (w : World) :
  ncols (raster w) < min_zone_size self
  \/ nrows (raster w) < min_zone_size self ->
  stamp_size_min self <= stamp_size_max self ->
  exists r, evalState (find_whitest_space self) w = Py.Returns r
            /\ return_line r = 788
            /\ coords r = forced_position self (nrows (raster w))
                                          (ncols (raster w))
            /\ Placement.size (coords r) = min_zone_size self
            /\ Placement.stamp_size (coords r) = stamp_size_min self
            /\ (ncols (raster w) < min_zone_size self ->
                Placement.x (coords r) = 0
                /\ ncols (raster w) < Placement.x (coords r)
                                      + Placement.size (coords r))
            /\ (nrows (raster w) < min_zone_size self ->
                Placement.y (coords r) = 0
                /\ nrows (raster w) < Placement.y (coords r)
                                      + Placement.size (coords r)).
Proof.
  intros Hsmall Hv. rewrite find_whitest_space_forced;
    [|assumption|now apply rejecting_small].
  eexists. split; [reflexivity|]. cbn [return_line coords].
  split; [reflexivity|]. split; [reflexivity|].
  unfold forced_position, min_zone_size, min_margin. cbv zeta.
  cbn [Placement.x Placement.y Placement.size Placement.stamp_size].
  split; [reflexivity|]. split; [reflexivity|].
  split; intros Hlt;
    repeat match goal with
           | |- context [if ?a <? ?b then _ else _] =>
               destruct (Z.ltb_spec a b)
           end; lia.
Qed.

Lemma small_page_still_placed_witness :
  exists r, evalState (@find_whitest_space no_contours servicer_processor)
                      (blank_page 209 209 255) = Py.Returns r
            /\ return_line r = 788
            /\ coords r = forced_position servicer_processor 209 209
            /\ Placement.size (coords r) = 210
            /\ Placement.stamp_size (coords r) = 200
            /\ Placement.x (coords r) = 0 /\ Placement.y (coords r) = 0.
Proof.
  destruct (@small_page_still_placed no_contours servicer_processor
              (blank_page 209 209 255))
    as (r & E & Hl & Hc & Hs & Hst & Hx & Hy).
  - left. vm_compute. reflexivity.
  - vm_compute. discriminate.
  - exists r. repeat split; try assumption.
    + apply Hx. vm_compute. reflexivity.
    + apply Hy. vm_compute. reflexivity.
Defined.

(** C4, as stated, fails: a square with no forbidden pixel whose whiteness
    ratio is exactly 0.95 satisfies the rule with "at least theta", yet the
    scan rejects it and leaves its state unchanged. *)
Lemma exact_threshold_is_rejected :
  clean_when Qle servicer_processor (Np.zeros 400 400)
             (white_mask grey_foot_page) 300 0 0
  /\ candidate_is_clean servicer_processor (Np.zeros 400 400)
                        (white_mask grey_foot_page) 300 0 0 = false
  /\ forall st,
       scan_visit servicer_processor (Np.zeros 400 400)
                  (white_mask grey_foot_page) 300 0 0 st = (st, false).
Proof.
  assert (E : candidate_is_clean servicer_processor (Np.zeros 400 400)
                (white_mask grey_foot_page) 300 0 0 = false)
    by (vm_compute; reflexivity).
  split; [|split; [exact E|]].
  - split; [vm_compute; reflexivity|].
    eexists. split; [vm_compute; reflexivity|].
    apply Qle_bool_imp_le. vm_compute. reflexivity.
  - intros st. unfold scan_visit. rewrite E. reflexivity.
Qed.

(** C4, amended. A candidate [(x, y, s)] of the primary scan is accepted as
    clean exactly when the forbidden mask sums to 0 over the square and
    the mean of the whiteness mask over it divided by 255 is strictly
    greater than theta, where theta is 0.95 when
    [s >= stamp_max + 2 * min_margin - 20] and 0.98 otherwise. *)
Theorem clean_candidate_iff (self : PDFProcessor)
    (forbidden white_binary : ndarray) (s y x : Z) :
  candidate_is_clean self forbidden white_binary s y x = true
  <-> clean_when Qlt self forbidden white_binary s y x.
Proof.
  unfold candidate_is_clean, clean_when, white_threshold, near_max, fconst.
  rewrite andb_true_iff, Z.eqb_eq.
  assert (Hgt : forall (a : pyfloat) (q : Q),
             fgt a (Some q) = true <-> exists r, a = Some r /\ (q < r)%Q).
  { intros [r|] q; simpl.
    - rewrite negb_true_iff. split.
      + intros Hb. exists r. split; [reflexivity|].
        apply Qnot_le_lt. intros Hle. apply Qle_bool_iff in Hle. congruence.
      + intros (r' & [= <-] & Hlt).
        destruct (Qle_bool r q) eqn:Hb; [|reflexivity].
        apply Qle_bool_iff in Hb. exfalso. exact (Qlt_not_le _ _ Hlt Hb).
    - split; [discriminate|]. intros (r & [=] & _). }
  destruct (stamp_size_max self + 2 * min_margin - 20 <=? s);
    rewrite Hgt; reflexivity.
Qed.

Lemma clean_candidate_iff_witness :
  candidate_is_clean servicer_processor (Np.zeros 400 400)
                     (white_mask (raster (blank_page 400 400 255))) 300 0 0
  = true.
Proof.
  apply (clean_candidate_iff servicer_processor (Np.zeros 400 400)
           (white_mask (raster (blank_page 400 400 255))) 300 0 0).
  split; [vm_compute; reflexivity|].
  eexists. split; [vm_compute; reflexivity|]. vm_compute. reflexivity.
Defined.



Lemma find_whitest_space_black `{Cv2} self w :
  uniform (raster w) 0 ->
  stamp_size_min self <= stamp_size_max self ->
  evalState (find_whitest_space self) w
  = Py.Returns
      (mk_returned (forced_position self (nrows (raster w)) (ncols (raster w)))
                   (evalState (detect (raster w)) w) 788).
Proof.
  intros U Hv. apply find_whitest_space_forced; [exact Hv|].
  apply rejecting_black, white_mask_black, U.
Qed.

(** C6, as stated, fails: on the black 1000 x 1000 page with
    [stamp_min = 200] the forced placement is at [x = 770 = W - 230], not
    at [x = W - 210]. *)
Lemma black_page_not_at_W_minus_210 :
  exists r,
    evalState (@find_whitest_space no_contours servicer_processor)
              (blank_page 1000 1000 0) = Py.Returns r
    /\ return_line r = 788
    /\ coords r = Placement.mk 770 20 210 200
    /\ coords r <> Placement.mk (1000 - 210) 20 210 200.
Proof.
  eexists. split.
  - apply find_whitest_space_black;
      [apply blank_page_uniform|vm_compute; discriminate].
  - cbn [return_line coords]. split; [reflexivity|].
    split; [reflexivity|]. vm_compute. discriminate.
Qed.

(** C6, amended. For every uniformly black raster whose width and height
    are at least [smin_zone], the engine returns the forced placement of
    tier T4 (line 788): [x = max(0, W - smin_zone - 20)], [y = 20] (or
    [H - smin_zone] when [H < smin_zone + 20]), [zone = smin_zone] and
    [stamp = stamp_min]. *)
Theorem black_page_forced_corner `{Cv2} (self : PDFProcessor) (w : World) :
  uniform (raster w) 0 ->
  stamp_size_min self <= stamp_size_max self ->
  min_zone_size self <= ncols (raster w) ->
  min_zone_size self <= nrows (raster w) ->
  exists m,
    evalState (find_whitest_space self) w
    = Py.Returns
        (mk_returned
           (Placement.mk
              (Z.max 0 (ncols (raster w) - min_zone_size self - 20))
              (if nrows (raster w) <? 20 + min_zone_size self
               then nrows (raster w) - min_zone_size self else 20)
              (min_zone_size self) (stamp_size_min self))
           m 788).
Proof.
  intros U Hv Hw Hh. rewrite find_whitest_space_black by assumption.
  rewrite forced_position_inside by assumption. eexists. reflexivity.
Qed.

Lemma black_page_forced_corner_witness :
  exists m,
    evalState (@find_whitest_space no_contours servicer_processor)
              (blank_page 2970 2100 0)
    = Py.Returns (mk_returned (Placement.mk 1870 20 210 200) m 788).
Proof.
  apply (@black_page_forced_corner no_contours servicer_processor
           (blank_page 2970 2100 0)).
  - apply blank_page_uniform.
  - vm_compute. discriminate.
  - vm_compute. discriminate.
  - vm_compute. discriminate.
Defined.

(** C7. In the primary scan, sizes taken as listed and positions by
    ascending [y] then ascending [x] with the adaptive step, the first
    clean candidate whose effective stamp is [stamp_max] is the one
    returned, whatever comes after it in the scan order. This holds of the
    server engine and of the client engine, each with its own step and
    whiteness rule. *)
Theorem first_clean_candidate_wins `{Cv2} (self : PDFProcessor) (w : World) :
  cache_ok (kernel_lru w) ->
  stamp_size_min self <= stamp_size_max self ->
  0 < stamp_size_max self ->
  (forall sizes pre post s y x,
     search_sizes_to_try self = Some sizes ->
     scan_order (scan_step self) (nrows (raster w)) (ncols (raster w)) sizes
     = pre ++ (s, y, x) :: post ->
     (forall c, In c pre ->
        clean_at_max self
          (candidate_is_clean self (forbidden_mask (page_masks (raster w)))
                              (white_mask (raster w))) c = false) ->
     clean_at_max self
       (candidate_is_clean self (forbidden_mask (page_masks (raster w)))
                           (white_mask (raster w))) (s, y, x) = true ->
     exists m,
       evalState (find_whitest_space self) w
       = Py.Returns
           (mk_returned (Placement.mk x y s (stamp_size_max self)) m 485))
  /\ (forall pre post s y x,
        scan_order (Client.scan_step self) (nrows (raster w))
                   (ncols (raster w))
                   (Py.range (max_zone_size self) (min_zone_size self - 1)
                             (-5))
        = pre ++ (s, y, x) :: post ->
        (forall c, In c pre ->
           clean_at_max self
             (Client.candidate_is_clean (client_forbidden (raster w))
                                        (white_mask (raster w))) c = false) ->
        clean_at_max self
          (Client.candidate_is_clean (client_forbidden (raster w))
                                     (white_mask (raster w))) (s, y, x)
        = true ->
        evalState (Client.find_whitest_space self) w
        = Py.Returns (Placement.mk x y s (stamp_size_max self))).
Proof.
  intros Hc Hv Hp. split.
  - intros sizes pre post s y x Es Eo Hpre Hclean.
    rewrite eval_find_whitest_space, (eval_detect_ok w Hc).
    rewrite (search_first self _ _ _ _ Hv sizes pre post s y x Hp Es Eo
               Hpre Hclean).
    eexists. reflexivity.
  - intros pre post s y x Eo Hpre Hclean. rewrite client_run.
    destruct (client_detect_forbidden (raster w) w Hc) as [<- _].
    exact (client_search_first self _ _ _ _ Hv pre post s y x Hp Eo
             Hpre Hclean).
Qed.

Lemma first_clean_candidate_wins_witness :
  (exists m,
     evalState (@find_whitest_space no_contours servicer_processor)
               (blank_page 2970 2100 255)
     = Py.Returns (mk_returned (Placement.mk 0 0 410 300) m 485))
  /\ evalState (@Client.find_whitest_space no_contours servicer_processor)
               (blank_page 2970 2100 255)
     = Py.Returns (Placement.mk 0 0 410 300).
Proof.
  assert (Hv : stamp_size_min servicer_processor
               <= stamp_size_max servicer_processor)
    by (vm_compute; discriminate).
  assert (U : uniform (raster (blank_page 2970 2100 255)) 255)
    by apply blank_page_uniform.
  destruct (@first_clean_candidate_wins no_contours servicer_processor
              (blank_page 2970 2100 255)) as [Hserver Hclient];
    [constructor|exact Hv|reflexivity|].
  split.
  - destruct (sizes_spec servicer_processor Hv) as (tl & Es & _).
    destruct (scan_order_head (scan_step servicer_processor) 2970 2100
                (max_zone_size servicer_processor) tl) as [post Eo];
      [apply scan_step_pos|reflexivity|reflexivity|].
    apply (Hserver _ [] post 410 0 0 Es Eo); [intros c []|].
    apply (white_candidate_clean servicer_processor _ _
             (raster (blank_page 2970 2100 255)) eq_refl);
      [|now apply white_mask_white|vm_compute; discriminate
       |reflexivity|reflexivity].
    destruct (@detect_white _ U no_contours no_contours_flat
                (blank_page 2970 2100 255)) as [Hz _]; [constructor|exact Hz].
  - destruct (range_down_head (max_zone_size servicer_processor)
                (min_zone_size servicer_processor - 1) (-5)) as [tl Er];
      [reflexivity|reflexivity|].
    destruct (scan_order_head (Client.scan_step servicer_processor) 2970 2100
                (max_zone_size servicer_processor) tl) as [post Eo];
      [apply client_scan_step_pos|reflexivity|reflexivity|].
    rewrite <- Er in Eo.
    apply (Hclient [] post 410 0 0 Eo); [intros c []|].
    apply (client_first_candidate_clean servicer_processor _ _
             (raster (blank_page 2970 2100 255)));
      [|now apply white_mask_white|reflexivity|reflexivity].
    destruct (@client_detect_white no_contours _ U no_contours_flat
                (blank_page 2970 2100 255)) as [Hz _]; [constructor|exact Hz].
Defined.

(** C8. The value returned depends on the raster and the configuration
    alone: two calls on the same raster return the same value whatever the
    states of the kernel cache and of the log they start from, and a
    second call made right after a first one returns what the first did. *)
Theorem placement_is_deterministic `{Cv2} (self : PDFProcessor)
    (w1 w2 : World) :
  cache_ok (kernel_lru w1) -> cache_ok (kernel_lru w2) ->
  raster w1 = raster w2 ->
  evalState (find_whitest_space self) w1
  = evalState (find_whitest_space self) w2
  /\ evalState (find_whitest_space self)
               (execState (find_whitest_space self) w1)
     = evalState (find_whitest_space self) w1.
Proof.
  intros H1 H2 E.
  destruct (exec_find_whitest_space self w1) as (Hr & Hk & _).
  assert (H1' : cache_ok (kernel_lru (execState (find_whitest_space self) w1))).
  { rewrite Hk. apply (detect_page_masks (raster w1) w1 H1). }
  rewrite !eval_find_whitest_space.
  rewrite (eval_detect_ok w1 H1), (eval_detect_ok w2 H2),
    (eval_detect_ok _ H1').
  rewrite Hr, E. split; reflexivity.
Qed.

Lemma placement_is_deterministic_witness :
  evalState (@find_whitest_space no_contours servicer_processor)
            (blank_page 2970 2100 255)
  = evalState (@find_whitest_space no_contours servicer_processor)
      (mk_world (raster (blank_page 2970 2100 255))
                [((3, 3), mk_kernel 3 3); ((30, 1), mk_kernel 30 1)]
                [(INFO, 374)])
  /\ evalState (@find_whitest_space no_contours servicer_processor)
       (execState (@find_whitest_space no_contours servicer_processor)
                  (blank_page 2970 2100 255))
     = evalState (@find_whitest_space no_contours servicer_processor)
                 (blank_page 2970 2100 255).
Proof.
  apply (@placement_is_deterministic no_contours servicer_processor).
  - constructor.
  - repeat constructor.
  - reflexivity.
Defined.

(** C9, as stated, fails: a query hands records to [logging], here seven
    of them on a 209 x 209 page. *)
Lemma query_writes_log :
  log_out (execState (@find_whitest_space no_contours servicer_processor)
                     (blank_page 209 209 255))
  = [(DEBUG, 282); (INFO, 374); (WARNING, 493); (WARNING, 641);
     (WARNING, 696); (ERROR, 760); (WARNING, 786)]
  /\ log_out (execState (@find_whitest_space no_contours servicer_processor)
                        (blank_page 209 209 255))
     <> log_out (blank_page 209 209 255).
Proof.
  assert (E : log_out
                (execState (@find_whitest_space no_contours servicer_processor)
                           (blank_page 209 209 255))
              = [(DEBUG, 282); (INFO, 374); (WARNING, 493); (WARNING, 641);
                 (WARNING, 696); (ERROR, 760); (WARNING, 786)])
    by (vm_compute; reflexivity).
  split; [exact E|]. rewrite E. discriminate.
Qed.

(** C9, amended. A query leaves the raster as it was; what it does to the
    log is to append records, among them the INFO record of line 374
    whenever [stamp_min <= stamp_max]. *)
Theorem raster_untouched_log_appended `{Cv2} (self : PDFProcessor)
    (w : World) :
  raster (execState (find_whitest_space self) w) = raster w
  /\ exists records,
       log_out (execState (find_whitest_space self) w)
       = log_out w ++ records
       /\ (stamp_size_min self <= stamp_size_max self ->
           In (INFO, 374) records).
Proof.
  destruct (exec_find_whitest_space self w) as (Hr & _ & Hl).
  split; [exact Hr|]. eexists. split; [exact Hl|].
  intros Hv. right. unfold search.
  destruct (sizes_spec self Hv) as (tl & -> & _).
  destruct (best_position _).
  - destruct (local_refinement _ _ _ _ _ _). now left.
  - destruct (fallback_tiers _ _ _ _ _ _). now left.
Qed.

Lemma raster_untouched_log_appended_witness :
  raster (execState (@find_whitest_space no_contours servicer_processor)
                    (blank_page 2970 2100 255))
  = raster (blank_page 2970 2100 255)
  /\ exists records,
       log_out (execState (@find_whitest_space no_contours servicer_processor)
                          (blank_page 2970 2100 255))
       = log_out (blank_page 2970 2100 255) ++ records
       /\ In (INFO, 374) records.
Proof.
  destruct (@raster_untouched_log_appended no_contours servicer_processor
              (blank_page 2970 2100 255)) as (Hr & records & Hl & Hin).
  split; [exact Hr|]. exists records. split; [exact Hl|].
  apply Hin. vm_compute. discriminate.
Defined.

(** C10. The local refinement returns the position it was given whenever
    that position carries the effective stamp of its zone size, as every
    position of the primary scan does; so the engine without lines 452-483
    returns the same value, and leaves the same world, as the engine with
    them. *)
Theorem refinement_never_changes_result `{Cv2} (self : PDFProcessor)
    (w : World) :
  (forall height width forbidden white_binary x y wr s,
     local_refinement self height width forbidden white_binary
                      (x, y, wr, available_stamp_size self s, s)
     = ((x, y, wr, available_stamp_size self s, s), (INFO, 483)))
  /\ runState (find_whitest_space_without_refinement self) w
     = runState (find_whitest_space self) w.
Proof.
  split.
  - intros. apply local_refinement_keeps.
  - apply find_whitest_space_without_refinement_run.
Qed.

(** * Further properties

    Properties read off the code besides those of the specification. *)

(** ** The masks of the detection stage *)

(** *** Rules for [always] *)

Lemma always_ret {A : Type} (v : A) (Q : A -> Prop) : Q v -> always (ret v) Q.
Proof. intros HQ w. exact HQ. Qed.

Lemma always_bind {A B : Type} (m : state World A) (f : A -> state World B)
    (P : A -> Prop) (Q : B -> Prop) :
  always m P -> (forall a, P a -> always (f a) Q) -> always (bind m f) Q.
Proof. intros Hm Hf w. rewrite eval_bind. exact (Hf _ (Hm w) _). Qed.

Lemma always_true {A : Type} (m : state World A) : always m (fun _ => True).
Proof. intros w. exact I. Qed.

(** *** Masks stay binary *)

Lemma fold_max_binary l :
  (forall v, In v l -> v = 0 \/ v = 255) ->
  forall init, init = 0 \/ init = 255 ->
  fold_left Z.max l init = 0 \/ fold_left Z.max l init = 255.
Proof.
  induction l as [|a l IH]; intros H init Hi; simpl; [exact Hi|].
  apply IH; [intros; apply H; now right|].
  destruct (H a (or_introl eq_refl)), Hi; subst; simpl; auto.
Qed.

Lemma fold_min_binary l :
  (forall v, In v l -> v = 0 \/ v = 255) ->
  forall init, init = 0 \/ init = 255 ->
  fold_left Z.min l init = 0 \/ fold_left Z.min l init = 255.
Proof.
  induction l as [|a l IH]; intros H init Hi; simpl; [exact Hi|].
  apply IH; [intros; apply H; now right|].
  destruct (H a (or_introl eq_refl)), Hi; subst; simpl; auto.
Qed.

Lemma px_border_binary image a b yx :
  mask_like image a -> b = 0 \/ b = 255 ->
  Cv.px_border a b yx = 0 \/ Cv.px_border a b yx = 255.
Proof.
  intros [_ Ha] Hb. unfold Cv.px_border, Cv.in_image.
  destruct yx as [y x]. simpl.
  destruct (Z.leb_spec 0 y), (Z.ltb_spec y (nrows a)),
    (Z.leb_spec 0 x), (Z.ltb_spec x (ncols a)); simpl; try exact Hb.
  apply Ha; lia.
Qed.

Lemma ml_dilate image a k :
  mask_like image a -> mask_like image (Cv.dilate a k).
Proof.
  intros Ha. split; [exact (proj1 Ha)|]. intros y x _ _. simpl.
  apply fold_max_binary; [|now left].
  intros v Hv. apply in_map_iff in Hv. destruct Hv as (yx & <- & _).
  apply (px_border_binary image); auto.
Qed.

Lemma ml_erode image a k :
  mask_like image a -> mask_like image (Cv.erode a k).
Proof.
  intros Ha. split; [exact (proj1 Ha)|]. intros y x _ _. simpl.
  apply fold_min_binary; [|now right].
  intros v Hv. apply in_map_iff in Hv. destruct Hv as (yx & <- & _).
  apply (px_border_binary image); auto.
Qed.

Lemma ml_open image a k :
  mask_like image a -> mask_like image (Cv.morph_open a k).
Proof. intros. unfold Cv.morph_open. now apply ml_dilate, ml_erode. Qed.

Lemma ml_close image a k :
  mask_like image a -> mask_like image (Cv.morph_close a k).
Proof. intros. unfold Cv.morph_close. now apply ml_erode, ml_dilate. Qed.

Lemma ml_or image a b :
  mask_like image a -> mask_like image b ->
  mask_like image (Cv.bitwise_or a b).
Proof.
  intros [Sa Ha] [Sb Hb]. split; [exact Sa|]. intros y x Hy Hx. simpl.
  change (nrows (Cv.bitwise_or a b)) with (nrows a) in Hy.
  change (ncols (Cv.bitwise_or a b)) with (ncols a) in Hx.
  destruct Sa as [Sa1 Sa2], Sb as [Sb1 Sb2].
  destruct (Ha y x Hy Hx) as [-> | ->],
    (Hb y x ltac:(lia) ltac:(lia)) as [-> | ->]; simpl; auto.
Qed.

Lemma ml_zeros image : mask_like image (Np.zeros (nrows image) (ncols image)).
Proof. split; [apply zeros_shape|]. intros y x _ _. now left. Qed.

Lemma ml_threshold image t :
  mask_like image (Cv.threshold_binary image t 255).
Proof.
  split; [split; reflexivity|]. intros y x _ _. simpl.
  destruct (t <? px image y x); auto.
Qed.

Lemma ml_threshold_inv image t :
  mask_like image (Cv.threshold_binary_inv image t 255).
Proof.
  split; [split; reflexivity|]. intros y x _ _. simpl.
  destruct (t <? px image y x); auto.
Qed.

Lemma ml_rsub255 image a : mask_like image a -> mask_like image (Cv.rsub255 a).
Proof.
  intros [Sa Ha]. split; [exact Sa|]. intros y x Hy Hx. simpl.
  destruct (Ha y x Hy Hx) as [-> | ->]; simpl; auto.
Qed.

Lemma ml_fillPoly image c :
  mask_like image (fillPoly_zeros (nrows image) (ncols image) c).
Proof.
  split.
  - unfold same_shape, fillPoly_zeros, nrows, ncols. simpl.
    rewrite !N2Z.id. auto.
  - intros y x _ _. simpl. destruct (inside c y x); auto.
Qed.

Create HintDb masks discriminated.
#[local] Hint Resolve ml_dilate ml_erode ml_open ml_close ml_or ml_zeros
  ml_threshold ml_threshold_inv ml_rsub255 ml_fillPoly : masks.

Lemma ml_union image masks :
  Forall (mask_like image) masks ->
  mask_like image (union_masks (nrows image) (ncols image) masks).
Proof.
  intros HF. unfold union_masks.
  apply (for_each_inv (mask_like image)); [|apply ml_zeros].
  intros m acc Hin Hacc. rewrite Forall_forall in HF. auto with masks.
Qed.

Lemma detect_text_mask image : always (detect_text image) (mask_like image).
Proof.
  unfold detect_text.
  repeat (eapply always_bind; [apply always_true|intros ? _]).
  apply always_ret. auto 10 with masks.
Qed.

Lemma append_opening_mask image g size lm :
  Forall (mask_like image) lm ->
  always (append_opening g size (Cv.threshold_binary_inv image 200 255) lm)
         (Forall (mask_like image)).
Proof.
  intros Hlm. unfold append_opening. destruct g.
  - eapply always_bind; [apply always_true|intros ? _].
    apply always_ret. apply Forall_app. split; [exact Hlm|].
    constructor; [|constructor]. auto with masks.
  - now apply always_ret.
Qed.

(** *** The forbidden mask only grows *)

Lemma covered_refl a : covered_by a a.
Proof. intros y x _ _ E. exact E. Qed.

Lemma covered_or_l image a f m :
  mask_like image a -> mask_like image f -> mask_like image m ->
  covered_by a f -> covered_by a (Cv.bitwise_or f m).
Proof.
  intros [[Sa1 Sa2] _] [[Sf1 Sf2] Hf] [[Sm1 Sm2] Hm] Hc y x Hy Hx E. simpl.
  rewrite (Hc y x Hy Hx E).
  destruct (Hm y x ltac:(lia) ltac:(lia)) as [-> | ->]; reflexivity.
Qed.

Lemma covered_or_r image f m :
  mask_like image f -> mask_like image m ->
  covered_by m (Cv.bitwise_or f m).
Proof.
  intros [[Sf1 Sf2] Hf] [[Sm1 Sm2] Hm] y x Hy Hx E. simpl. rewrite E.
  destruct (Hf y x ltac:(lia) ltac:(lia)) as [-> | ->]; reflexivity.
Qed.

Lemma covered_or_both image a f m :
  mask_like image a -> mask_like image f -> mask_like image m ->
  covered_by a f -> covered_by (Cv.bitwise_or a m) (Cv.bitwise_or f m).
Proof.
  intros [[Sa1 Sa2] Ha] [[Sf1 Sf2] Hf] [[Sm1 Sm2] Hm] Hc y x Hy Hx. simpl.
  change (nrows (Cv.bitwise_or a m)) with (nrows a) in Hy.
  change (ncols (Cv.bitwise_or a m)) with (ncols a) in Hx.
  destruct (Hm y x ltac:(lia) ltac:(lia)) as [Em | Em]; rewrite Em.
  - rewrite !Z.lor_0_r. apply Hc; assumption.
  - intros _. destruct (Hf y x ltac:(lia) ltac:(lia)) as [-> | ->];
      reflexivity.
Qed.

Lemma detect_lines_mask image text forbidden :
  mask_like image text -> mask_like image forbidden ->
  covered_by text forbidden ->
  always (detect_lines image forbidden)
         (fun f => mask_like image f /\ covered_by text f).
Proof.
  intros Ht Hf Hc. unfold detect_lines.
  eapply always_bind; [apply (append_opening_mask image); auto|intros l1 L1].
  eapply always_bind; [apply (append_opening_mask image); auto|intros l2 L2].
  eapply always_bind; [apply (append_opening_mask image); auto|intros l3 L3].
  eapply always_bind; [apply always_true|intros k1 _].
  eapply always_bind; [apply (append_opening_mask image); auto|intros l4 L4].
  eapply always_bind; [apply (append_opening_mask image); auto|intros l5 L5].
  eapply always_bind; [apply always_true|intros k2 _].
  eapply always_bind; [apply always_true|intros ? _].
  apply always_ret.
  assert (M1 : mask_like image
                 (Cv.dilate (union_masks (nrows image) (ncols image) l3) k1))
    by (apply ml_dilate, ml_union; assumption).
  assert (M2 : mask_like image
                 (Cv.dilate (union_masks (nrows image) (ncols image) l5) k2))
    by (apply ml_dilate, ml_union; assumption).
  split; [auto with masks|].
  apply (covered_or_l image); auto with masks.
  apply (covered_or_l image); auto with masks.
Qed.

(** The state of the two contour loops: a mask of its own, the forbidden
    mask, and the text mask the forbidden mask already covers. *)
Lemma mark_images_mask image text contours acc :
  mask_like image text ->
  mask_like image (fst acc) -> mask_like image (snd acc) ->
  covered_by (fst acc) (snd acc) -> covered_by text (snd acc) ->
  always (mark_images (nrows image) (ncols image) contours acc)
         (fun r => mask_like image (fst r) /\ mask_like image (snd r)
                   /\ covered_by (fst r) (snd r) /\ covered_by text (snd r)).
Proof.
  intros Ht. revert acc.
  induction contours as [|c cs IH]; intros acc H1 H2 H3 H4;
    cbn [mark_images].
  - apply always_ret. auto.
  - destruct (negb _); [|now apply IH].
    eapply always_bind; [apply always_true|intros k _].
    assert (Hm : mask_like image
                   (Cv.dilate (fillPoly_zeros (nrows image) (ncols image) c) k))
      by auto with masks.
    apply IH; cbn [fst snd]; auto with masks.
    + now apply (covered_or_both image).
    + now apply (covered_or_l image).
Qed.

Lemma mark_qrcodes_mask image text images contours acc :
  mask_like image text -> mask_like image images ->
  mask_like image (fst acc) -> mask_like image (snd acc) ->
  covered_by (fst acc) (snd acc) -> covered_by text (snd acc) ->
  covered_by images (snd acc) ->
  always (mark_qrcodes image contours acc)
         (fun r => mask_like image (fst r) /\ mask_like image (snd r)
                   /\ covered_by (fst r) (snd r) /\ covered_by text (snd r)
                   /\ covered_by images (snd r)).
Proof.
  intros Ht Hi. revert acc.
  induction contours as [|c cs IH]; intros acc H1 H2 H3 H4 H5;
    cbn [mark_qrcodes].
  - apply always_ret. auto.
  - destruct (looks_like_qrcode _ _); [|now apply IH].
    eapply always_bind; [apply always_true|intros k _].
    assert (Hm : mask_like image
                   (Cv.dilate (fillPoly_zeros (nrows image) (ncols image) c) k))
      by auto with masks.
    apply IH; cbn [fst snd]; auto with masks.
    + now apply (covered_or_both image).
    + now apply (covered_or_l image).
    + now apply (covered_or_l image).
Qed.

Lemma detect_masks `{Cv2} image :
  always (detect image)
    (fun m => (mask_like image (forbidden_mask m)
               /\ mask_like image (text_mask m)
               /\ mask_like image (image_mask m)
               /\ mask_like image (qrcode_mask m))
              /\ covered_by (text_mask m) (forbidden_mask m)
              /\ covered_by (image_mask m) (forbidden_mask m)
              /\ covered_by (qrcode_mask m) (forbidden_mask m)).
Proof.
  unfold detect.
  eapply always_bind; [apply detect_text_mask|intros text Ht].
  assert (H0 : mask_like image
                 (Cv.bitwise_or (Np.zeros (nrows image) (ncols image)) text))
    by auto with masks.
  eapply always_bind.
  { apply (detect_lines_mask image text); auto.
    apply (covered_or_r image); auto with masks. }
  intros forbidden [Hf Hc].
  eapply always_bind.
  { apply (mark_images_mask image text); cbn [fst snd]; auto with masks.
    intros y x _ _. simpl. discriminate. }
  intros [images f1] (Hi & Hf1 & Hci & Hct). cbn [fst snd] in *.
  eapply always_bind.
  { apply (mark_qrcodes_mask image text images); cbn [fst snd];
      auto with masks.
    intros y x _ _. simpl. discriminate. }
  intros [qr f2] (Hq & Hf2 & Hcq & Hct2 & Hci2). cbn [fst snd] in *.
  apply always_ret. cbn [forbidden_mask text_mask image_mask qrcode_mask].
  auto 10.
Qed.

(** ** The tiers of the search *)

(** *** What the comparisons of a tier say of the sums *)

Lemma feq_ratio_zero n s : feq (true_div n (s * s)) (fconst 0) = true -> n = 0.
Proof.
  unfold feq, true_div, fconst.
  destruct (s * s) as [|p|p]; [discriminate| |]; intros E;
    apply Qeq_bool_iff in E; unfold Qeq in E; simpl in E; lia.
Qed.

Lemma fle_ratio_tenth n s :
  fle (true_div n (s * s)) (fconst (10 # 100)) = true -> 10 * n <= s * s.
Proof.
  unfold fle, true_div, fconst. pose proof (Z.square_nonneg s) as Hs.
  destruct (s * s) as [|p|p] eqn:E; [discriminate| |lia].
  intros H. apply Qle_bool_iff in H. unfold Qle in H. simpl in H. lia.
Qed.

Lemma fgt_weaken a (q q' : Q) :
  (q' <= q)%Q -> fgt a (fconst q) = true -> fgt a (fconst q') = true.
Proof.
  unfold fgt, fconst. destruct a as [p|]; [|discriminate]. intros Hq H.
  apply negb_true_iff in H. apply negb_true_iff.
  destruct (Qle_bool p q') eqn:E; [|reflexivity].
  apply Qle_bool_iff in E.
  assert (Hpq : Qle_bool p q = true)
    by (apply Qle_bool_iff; eapply Qle_trans; eauto).
  congruence.
Qed.

Section TierFacts.

Variable self : PDFProcessor.
Variables height width : Z.
Variables forbidden white_binary : ndarray.

Abbreviation clear95 :=
  (fun s y x =>
     forbidden_sum forbidden y x s = 0
     /\ fgt (white_ratio_at white_binary y x s) (fconst (95 # 100)) = true).

Abbreviation near90 :=
  (fun s y x =>
     10 * forbidden_sum forbidden y x s <= s * s
     /\ fgt (white_ratio_at white_binary y x s) (fconst (90 # 100)) = true).

Abbreviation kept := (kept_zone self height width).

Lemma candidate_clean_clear s y x :
  candidate_is_clean self forbidden white_binary s y x = true ->
  clear95 s y x.
Proof.
  unfold candidate_is_clean, white_threshold. intros H.
  apply andb_prop in H as [H1 H2]. split; [lia|].
  destruct (near_max self s); [exact H2|].
  apply (fgt_weaken _ (98 # 100)); [discriminate|exact H2].
Qed.

(** *** Primary scan: the position kept passed the two tests *)

Abbreviation scan_clean :=
  (fun st : Scan =>
     forall x y wr stp s, best_position st = Some (x, y, wr, stp, s) ->
       candidate_is_clean self forbidden white_binary s y x = true).

Lemma scan_visit_clean s y x st :
  scan_clean st ->
  scan_clean (fst (scan_visit self forbidden white_binary s y x st)).
Proof.
  intros Hst. unfold scan_visit.
  destruct (candidate_is_clean _ _ _ _ _ _) eqn:Ec; [|exact Hst].
  destruct (stamp_size_min self <=? available_stamp_size self s); [|exact Hst].
  destruct (stamp_size_max self <=? available_stamp_size self s);
    [|destruct (best_stamp_size st <? available_stamp_size self s);
      [|exact Hst]];
    simpl; intros x' y' wr stp s' [= <- <- _ _ <-]; exact Ec.
Qed.

Lemma primary_scan_clean sizes :
  scan_clean (primary_scan self height width forbidden white_binary sizes).
Proof.
  unfold primary_scan.
  apply (for_break_inv scan_clean); [|intros x y wr stp s [=]].
  intros s st _ Hst. unfold scan_size.
  destruct (stamp_size_max self <=? best_stamp_size st); [exact Hst|].
  destruct ((width - s <=? 0) || (height - s <=? 0)); [exact Hst|].
  cbn [fst]. apply (for_break_inv scan_clean); [|exact Hst].
  intros y st' _ Hst'. unfold scan_row. cbn [fst].
  apply (for_break_inv scan_clean); [|exact Hst'].
  intros x st'' _ Hst''. unfold scan_x.
  pose proof (scan_visit_clean s y x st'' Hst'') as Hv.
  destruct (scan_visit self forbidden white_binary s y x st'') as [st3 b].
  destruct b; exact Hv.
Qed.

(** *** Primary scan: nothing is kept when no stamp size is allowed *)

Lemma primary_scan_invalid sizes :
  stamp_size_max self < stamp_size_min self ->
  best_position (primary_scan self height width forbidden white_binary sizes)
  = None.
Proof.
  intros Hinv. unfold primary_scan.
  apply (for_break_inv (fun st => best_position st = None)); [|reflexivity].
  intros s st _ Hst. unfold scan_size.
  destruct (stamp_size_max self <=? best_stamp_size st); [exact Hst|].
  destruct ((width - s <=? 0) || (height - s <=? 0)); [exact Hst|].
  cbn [fst]. apply (for_break_inv (fun st => best_position st = None));
    [|exact Hst].
  intros y st' _ Hst'. unfold scan_row. cbn [fst].
  apply (for_break_inv (fun st => best_position st = None)); [|exact Hst'].
  intros x st'' _ Hst''. unfold scan_x.
  assert (Hv : best_position
                 (fst (scan_visit self forbidden white_binary s y x st''))
               = None).
  { unfold scan_visit. destruct (candidate_is_clean _ _ _ _ _ _);
      [|exact Hst''].
    pose proof (available_le_max self s).
    destruct (Z.leb_spec (stamp_size_min self) (available_stamp_size self s));
      [lia|exact Hst'']. }
  destruct (scan_visit self forbidden white_binary s y x st'') as [st3 b].
  destruct b; exact Hv.
Qed.

Lemma fallback_sizes_invalid :
  stamp_size_max self < stamp_size_min self -> fallback_sizes self = None.
Proof.
  intros Hinv. unfold fallback_sizes, Py.range, Py.range_len, min_zone_size.
  change (0 <? -50) with false. change (-50 <? 0) with true. cbv iota.
  destruct (Z.ltb_spec (stamp_size_min self + 2 * min_margin - 1)
                       (stamp_size_max self + 2 * min_margin)); [lia|].
  reflexivity.
Qed.

(** *** Fallback tiers: what was read of the zone kept *)

Lemma corner_search_kept sizes c :
  best_corner (corner_search self height width forbidden white_binary sizes)
  = Some c -> kept clear95 c.
Proof.
  revert c. unfold corner_search.
  apply (for_break_inv
           (fun st => forall c, best_corner st = Some c -> kept clear95 c));
    [|intros c [=]].
  intros s st _ Hst. unfold corner_size.
  destruct (is_some (best_corner st) && _); [exact Hst|]. cbn [fst].
  apply (for_break_inv
           (fun st => forall c, best_corner st = Some c -> kept clear95 c));
    [|exact Hst].
  intros base st' _ Hst'. unfold corner_visit.
  destruct (inside_page _ _ _ _ _) eqn:Hin; [|exact Hst'].
  destruct (feq _ _ && fgt _ _) eqn:Et; [|exact Hst'].
  apply andb_prop in Et as [Ef Ew]. apply feq_ratio_zero in Ef.
  destruct (Z.leb_spec (stamp_size_min self) (available_stamp_size self s));
    [|exact Hst'].
  destruct (stamp_size_max self <=? _);
    [|destruct ((corner_stamp_size st' <? _) || _); [|exact Hst']];
    simpl; intros c [= <-]; repeat split; assumption.
Qed.

Lemma fallback_search_kept sizes c :
  best_fallback (fallback_search self height width forbidden white_binary sizes)
  = Some c -> kept clear95 c.
Proof.
  revert c. unfold fallback_search.
  apply (for_break_inv
           (fun st => forall c, best_fallback st = Some c -> kept clear95 c));
    [|intros c [=]].
  intros s st _ Hst. unfold fallback_size.
  destruct (is_some (best_fallback st) && _); [exact Hst|]. cbn [fst].
  apply (for_each_inv
           (fun st => forall c, best_fallback st = Some c -> kept clear95 c));
    [|exact Hst].
  intros base st' _ Hst'. unfold fallback_visit.
  destruct (inside_page _ _ _ _ _) eqn:Hin; [|exact Hst'].
  destruct (Z.eqb_spec (forbidden_sum forbidden (snd base) (fst base - s) s) 0)
    as [Ef|]; [|exact Hst'].
  destruct (fgt _ _) eqn:Ew; [|exact Hst'].
  destruct (Z.leb_spec (stamp_size_min self) (available_stamp_size self s));
    [|exact Hst'].
  destruct ((best_fallback_stamp_size st' <? _) || _); [|exact Hst'].
  simpl; intros c [= <-]; repeat split; assumption.
Qed.

Lemma emergency_strict_kept sizes c :
  best_emergency
    (emergency_strict self height width forbidden white_binary sizes)
  = Some c -> kept clear95 c.
Proof.
  revert c. unfold emergency_strict.
  apply (for_each_inv
           (fun st => forall c, best_emergency st = Some c -> kept clear95 c));
    [|intros c [=]].
  intros s st _ Hst.
  apply (for_each_inv
           (fun st => forall c, best_emergency st = Some c -> kept clear95 c));
    [|exact Hst].
  intros base st' _ Hst'. unfold emergency_strict_visit.
  destruct (inside_page _ _ _ _ _) eqn:Hin; [|exact Hst'].
  destruct (feq _ _) eqn:Ef; [|exact Hst']. apply feq_ratio_zero in Ef.
  destruct (fgt _ _) eqn:Ew; [|exact Hst'].
  destruct (Z.leb_spec (stamp_size_min self) (available_stamp_size self s));
    [|exact Hst'].
  destruct ((best_emergency_stamp_size st' <? _) || _); [|exact Hst'].
  simpl; intros c [= <-]; repeat split; assumption.
Qed.

Lemma emergency_overlap_kept sizes c :
  best_emergency
    (emergency_overlap self height width forbidden white_binary sizes)
  = Some c -> kept near90 c.
Proof.
  revert c. unfold emergency_overlap.
  apply (for_each_inv
           (fun st => forall c, best_emergency st = Some c -> kept near90 c));
    [|intros c [=]].
  intros s st _ Hst.
  apply (for_each_inv
           (fun st => forall c, best_emergency st = Some c -> kept near90 c));
    [|exact Hst].
  intros base st' _ Hst'. unfold emergency_overlap_visit.
  destruct (inside_page _ _ _ _ _) eqn:Hin; [|exact Hst'].
  destruct (fle _ _) eqn:Ef; [|exact Hst']. apply fle_ratio_tenth in Ef.
  destruct (fgt _ _) eqn:Ew; [|exact Hst'].
  destruct (Z.leb_spec (stamp_size_min self) (available_stamp_size self s));
    [|exact Hst'].
  match goal with |- context [if ?b then mk_emergency_best _ _ _ _ else _] =>
    destruct b end; [|exact Hst'].
  simpl; intros c [= <-]; repeat split; assumption.
Qed.

(** *** The search, tier by tier *)

(** What a returned placement is, by the line of its [return]. *)
Abbreviation by_line :=
  (fun (p : Placement.t) (line : Z) =>
     (In line [485; 575; 633; 692] /\ kept clear95 p)
     \/ (line = 756 /\ kept near90 p)
     \/ (line = 788 /\ p = forced_position self height width)).

Lemma fallback_tiers_by_line sizes p line :
  snd (fallback_tiers self height width forbidden white_binary sizes)
  = Py.Returns (p, line) -> by_line p line.
Proof.
  unfold fallback_tiers.
  destruct (fallback_sizes self) as [fs|]; [|discriminate].
  destruct (best_corner _) as [c|] eqn:Ec.
  { intros [= <- <-]. left. split; [simpl; auto|].
    eapply corner_search_kept; eauto. }
  destruct (best_fallback _) as [f|] eqn:Ef.
  { intros [= <- <-]. left. split; [simpl; auto|].
    eapply fallback_search_kept; eauto. }
  assert (Hlast : forall log,
    snd (match best_emergency
                 (emergency_overlap self height width forbidden white_binary
                                    sizes) with
         | Some e' => (log ++ [(WARNING, 755)], Py.Returns (e', 756))
         | None => (log ++ [(ERROR, 760)]
                        ++ forced_log self height width forbidden,
                    Py.Returns (forced_position self height width, 788))
         end) = Py.Returns (p, line) -> by_line p line).
  { intros log. destruct (best_emergency (emergency_overlap _ _ _ _ _ _))
      as [e'|] eqn:Eo.
    - intros [= <- <-]. right. left. split; [reflexivity|].
      eapply emergency_overlap_kept; eauto.
    - intros [= <- <-]. right. right. split; reflexivity. }
  destruct (best_emergency (emergency_strict _ _ _ _ _ _)) as [e|] eqn:Ee.
  - destruct (feq _ _).
    + intros [= <- <-]. left. split; [simpl; auto|].
      eapply emergency_strict_kept; eauto.
    + apply Hlast.
  - apply Hlast.
Qed.

Lemma search_by_line p line :
  snd (search self height width forbidden white_binary) = Py.Returns (p, line)
  -> by_line p line.
Proof.
  unfold search. destruct (search_sizes_to_try self) as [sizes|];
    [|discriminate].
  pose proof (primary_scan_ok self height width forbidden white_binary sizes)
    as Hok.
  pose proof (primary_scan_clean sizes) as Hcl.
  destruct (best_position _) as [[[[[x y] wr] stp] s]|] eqn:Eb.
  - destruct (Hok _ _ _ _ _ Eb) as (Hx & Hxs & Hy & Hys & Hstp & Hmin).
    specialize (Hcl _ _ _ _ _ Eb). subst stp.
    rewrite local_refinement_keeps. simpl. intros [= <- <-].
    left. split; [auto|]. unfold kept_zone, inside_page.
    cbn [Placement.x Placement.y Placement.size Placement.stamp_size].
    repeat split; try assumption; try (now apply candidate_clean_clear).
    destruct (Z.leb_spec 0 x), (Z.leb_spec 0 y),
      (Z.leb_spec (x + s) width), (Z.leb_spec (y + s) height);
      simpl; try reflexivity; lia.
  - pose proof (fallback_tiers_by_line sizes p line) as Hf.
    destruct (fallback_tiers _ _ _ _ _ _) as [log' r]. exact Hf.
Qed.

Lemma search_invalid :
  stamp_size_max self < stamp_size_min self ->
  snd (search self height width forbidden white_binary) = Py.RaisesIndexError.
Proof.
  intros Hinv. unfold search.
  destruct (search_sizes_to_try self) as [sizes|]; [|reflexivity].
  rewrite (primary_scan_invalid sizes Hinv).
  unfold fallback_tiers. rewrite (fallback_sizes_invalid Hinv). reflexivity.
Qed.

Lemma kept_well_placed test p : kept test p -> well_placed self p.
Proof.
  unfold kept_zone, well_placed, inside_page.
  intros (Hin & Hs & Hmin & _).
  apply andb_prop in Hin as [Hin _]. apply andb_prop in Hin as [Hin _].
  apply andb_prop in Hin as [H1 H2].
  rewrite Hs in *. unfold available_stamp_size in *. lia.
Qed.

Lemma forced_well_placed :
  stamp_size_min self <= stamp_size_max self ->
  well_placed self (forced_position self height width).
Proof.
  unfold well_placed, forced_position, min_margin. intros Hv. cbv zeta.
  repeat match goal with
         | |- context [if ?a <? ?b then _ else _] =>
             destruct (Z.ltb_spec a b)
         end;
    cbn [Placement.x Placement.y Placement.size Placement.stamp_size]; lia.
Qed.

(** *** The records of the search *)

Abbreviation quiet := (Forall (fun r : LogRecord => fst r <> ERROR)).

Lemma scan_log_quiet sizes :
  quiet (scan_log (primary_scan self height width forbidden white_binary
                                sizes)).
Proof.
  unfold primary_scan.
  apply (for_break_inv (fun st => quiet (scan_log st))); [|constructor].
  intros s st _ Hst. unfold scan_size.
  destruct (stamp_size_max self <=? best_stamp_size st); [exact Hst|].
  destruct ((width - s <=? 0) || (height - s <=? 0)); [exact Hst|].
  cbn [fst]. apply (for_break_inv (fun st => quiet (scan_log st))).
  2:{ cbn [scan_log]. apply Forall_app. split; [exact Hst|].
      constructor; [discriminate|constructor]. }
  intros y st' _ Hst'. unfold scan_row. cbn [fst].
  apply (for_break_inv (fun st => quiet (scan_log st))); [|exact Hst'].
  intros x st'' _ Hst''. unfold scan_x.
  assert (Hv : quiet (scan_log
                 (fst (scan_visit self forbidden white_binary s y x st'')))).
  { unfold scan_visit. destruct (candidate_is_clean _ _ _ _ _ _);
      [|exact Hst''].
    destruct (stamp_size_min self <=? available_stamp_size self s);
      [|exact Hst''].
    destruct (stamp_size_max self <=? available_stamp_size self s);
      [|destruct (best_stamp_size st'' <? available_stamp_size self s);
        [|exact Hst'']];
      cbn [fst scan_log]; apply Forall_app; (split; [exact Hst''|]);
      (constructor; [discriminate|constructor]). }
  destruct (scan_visit self forbidden white_binary s y x st'') as [st3 b].
  destruct b; exact Hv.
Qed.

Lemma quiet_no_error l line : quiet l -> ~ In (ERROR, line) l.
Proof.
  intros Hq Hin. rewrite Forall_forall in Hq. now apply (Hq _ Hin).
Qed.

Lemma fallback_tiers_error sizes :
  (exists line,
     In (ERROR, line)
        (fst (fallback_tiers self height width forbidden white_binary sizes)))
  <-> (exists p,
         snd (fallback_tiers self height width forbidden white_binary sizes)
         = Py.Returns (p, 788)).
Proof.
  assert (Hq : forall l, quiet l -> (exists line, In (ERROR, line) l) -> False).
  { intros l Hl [line Hin]. exact (quiet_no_error l line Hl Hin). }
  assert (Hyes : forall log,
            exists line,
              In (ERROR, line)
                 (log ++ [(ERROR, 760)]
                      ++ forced_log self height width forbidden)).
  { intros log. exists 760. apply in_or_app. right. now left. }
  unfold fallback_tiers.
  destruct (fallback_sizes self) as [fs|].
  2:{ cbn [fst snd]. split; [intros H; exfalso; revert H; apply Hq|].
      - repeat constructor; discriminate.
      - intros [p [=]]. }
  destruct (best_corner _) as [c|].
  { cbn [fst snd]. split; [intros H; exfalso; revert H; apply Hq|].
    - repeat constructor; discriminate.
    - intros [p [=]]. }
  destruct (best_fallback _) as [f|].
  { cbn [fst snd]. split; [intros H; exfalso; revert H; apply Hq|].
    - repeat constructor; discriminate.
    - intros [p [=]]. }
  assert (Hlast :
    let r := match best_emergency
                   (emergency_overlap self height width forbidden white_binary
                                      sizes) with
         | Some e' =>
             ((([(WARNING, 493)] ++ [(WARNING, 641)]) ++ [(WARNING, 696)])
                ++ [(WARNING, 755)], Py.Returns (e', 756))
         | None =>
             ((([(WARNING, 493)] ++ [(WARNING, 641)]) ++ [(WARNING, 696)])
                ++ [(ERROR, 760)] ++ forced_log self height width forbidden,
              Py.Returns (forced_position self height width, 788))
         end in
    (exists line, In (ERROR, line) (fst r))
    <-> (exists p, snd r = Py.Returns (p, 788))).
  { destruct (best_emergency (emergency_overlap _ _ _ _ _ _)) as [e'|].
    - cbn [fst snd]. split; [intros H; exfalso; revert H; apply Hq|].
      + repeat constructor; discriminate.
      + intros [p [=]].
    - cbn [fst snd]. split; [intros _; eexists; reflexivity|].
      intros _. apply Hyes. }
  destruct (best_emergency (emergency_strict _ _ _ _ _ _)) as [e|].
  - destruct (feq _ _).
    + cbn [fst snd]. split; [intros H; exfalso; revert H; apply Hq|].
      * repeat constructor; discriminate.
      * intros [p [=]].
    + exact Hlast.
  - exact Hlast.
Qed.

Lemma search_error :
  (exists line,
     In (ERROR, line) (fst (search self height width forbidden white_binary)))
  <-> (exists p,
         snd (search self height width forbidden white_binary)
         = Py.Returns (p, 788)).
Proof.
  unfold search. destruct (search_sizes_to_try self) as [sizes|].
  2:{ cbn [fst snd]. split; [intros [line []]|intros [p [=]]]. }
  pose proof (scan_log_quiet sizes) as Hq.
  destruct (best_position _) as [found|].
  - destruct (local_refinement _ _ _ _ _ found) as [best record] eqn:El.
    cbn [fst snd].
    assert (Hr : fst record <> ERROR).
    { revert El. unfold local_refinement.
      destruct found as [[[[bx by_] bw] fs] fq].
      match goal with
      | |- context [fst ?r] => destruct (fst r) as [b|]
      end; [destruct (fs <? _)|]; intros [= _ <-]; discriminate. }
    split; [|intros [p [=]]].
    intros [line Hin]. exfalso.
    apply in_app_or in Hin as [Hin|[E|[]]].
    + apply in_app_or in Hin as [[E|[]]|Hin]; [discriminate|].
      exact (quiet_no_error _ _ Hq Hin).
    + apply Hr. rewrite E. reflexivity.
  - pose proof (fallback_tiers_error sizes) as Hf.
    destruct (fallback_tiers _ _ _ _ _ _) as [log' r]. cbn [fst snd] in *.
    rewrite <- Hf. split; intros [line Hin]; exists line.
    + apply in_app_or in Hin as [Hin|Hin]; [|exact Hin].
      apply in_app_or in Hin as [[E|[]]|Hin]; [discriminate|].
      exfalso. exact (quiet_no_error _ _ Hq Hin).
    + apply in_or_app. now right.
Qed.

End TierFacts.

(** ** Where a fallback zone lies *)

(** *** Fallback tiers: where the zone kept is anchored *)

Section Anchors.

Variable self : PDFProcessor.
Variables height width : Z.
Variables forbidden white_binary : ndarray.

(** The zone was built from an entry of [bases]: its right edge and its
    top are the two coordinates of the entry. *)
Abbreviation anchored :=
  (fun (bases : list (Z * Z)) (p : Placement.t) =>
     In (Placement.x p + Placement.size p, Placement.y p) bases).

Lemma anchored_intro bases base s stamp :
  In base bases ->
  anchored bases (Placement.mk (fst base - s) (snd base) s stamp).
Proof.
  intros Hin. cbn [Placement.x Placement.y Placement.size].
  replace (fst base - s + s) with (fst base) by ring.
  destruct base. exact Hin.
Qed.

Lemma corner_search_anchored sizes c :
  best_corner (corner_search self height width forbidden white_binary sizes)
  = Some c -> anchored (corner_positions_base height width) c.
Proof.
  revert c. unfold corner_search.
  apply (for_break_inv
           (fun st => forall c, best_corner st = Some c ->
                        anchored (corner_positions_base height width) c));
    [|intros c [=]].
  intros s st _ Hst. unfold corner_size.
  destruct (is_some (best_corner st) && _); [exact Hst|]. cbn [fst].
  apply (for_break_inv
           (fun st => forall c, best_corner st = Some c ->
                        anchored (corner_positions_base height width) c));
    [|exact Hst].
  intros base st' Hb Hst'. unfold corner_visit.
  destruct (inside_page _ _ _ _ _); [|exact Hst'].
  destruct (feq _ _ && fgt _ _); [|exact Hst'].
  destruct (stamp_size_min self <=? available_stamp_size self s);
    [|exact Hst'].
  destruct (stamp_size_max self <=? _);
    [|destruct ((corner_stamp_size st' <? _) || _); [|exact Hst']];
    cbn [fst best_corner]; intros c [= <-]; now apply anchored_intro.
Qed.

Lemma fallback_search_anchored sizes c :
  best_fallback (fallback_search self height width forbidden white_binary sizes)
  = Some c -> anchored (fallback_positions_base height width) c.
Proof.
  revert c. unfold fallback_search.
  apply (for_break_inv
           (fun st => forall c, best_fallback st = Some c ->
                        anchored (fallback_positions_base height width) c));
    [|intros c [=]].
  intros s st _ Hst. unfold fallback_size.
  destruct (is_some (best_fallback st) && _); [exact Hst|]. cbn [fst].
  apply (for_each_inv
           (fun st => forall c, best_fallback st = Some c ->
                        anchored (fallback_positions_base height width) c));
    [|exact Hst].
  intros base st' Hb Hst'. unfold fallback_visit.
  destruct (inside_page _ _ _ _ _); [|exact Hst'].
  destruct (forbidden_sum _ _ _ _ =? 0); [|exact Hst'].
  destruct (fgt _ _); [|exact Hst'].
  destruct (stamp_size_min self <=? available_stamp_size self s);
    [|exact Hst'].
  destruct ((best_fallback_stamp_size st' <? _) || _); [|exact Hst'].
  cbn [best_fallback]; intros c [= <-]; now apply anchored_intro.
Qed.

Lemma emergency_strict_anchored sizes c :
  best_emergency
    (emergency_strict self height width forbidden white_binary sizes)
  = Some c -> anchored (emergency_positions_base height width) c.
Proof.
  revert c. unfold emergency_strict.
  apply (for_each_inv
           (fun st => forall c, best_emergency st = Some c ->
                        anchored (emergency_positions_base height width) c));
    [|intros c [=]].
  intros s st _ Hst.
  apply (for_each_inv
           (fun st => forall c, best_emergency st = Some c ->
                        anchored (emergency_positions_base height width) c));
    [|exact Hst].
  intros base st' Hb Hst'. unfold emergency_strict_visit.
  destruct (inside_page _ _ _ _ _); [|exact Hst'].
  destruct (feq _ _); [|exact Hst'].
  destruct (fgt _ _); [|exact Hst'].
  destruct (stamp_size_min self <=? available_stamp_size self s);
    [|exact Hst'].
  destruct ((best_emergency_stamp_size st' <? _) || _); [|exact Hst'].
  cbn [best_emergency]; intros c [= <-]; now apply anchored_intro.
Qed.

Lemma emergency_overlap_anchored sizes c :
  best_emergency
    (emergency_overlap self height width forbidden white_binary sizes)
  = Some c -> anchored (emergency_positions_base height width) c.
Proof.
  revert c. unfold emergency_overlap.
  apply (for_each_inv
           (fun st => forall c, best_emergency st = Some c ->
                        anchored (emergency_positions_base height width) c));
    [|intros c [=]].
  intros s st _ Hst.
  apply (for_each_inv
           (fun st => forall c, best_emergency st = Some c ->
                        anchored (emergency_positions_base height width) c));
    [|exact Hst].
  intros base st' Hb Hst'. unfold emergency_overlap_visit.
  destruct (inside_page _ _ _ _ _); [|exact Hst'].
  destruct (fle _ _); [|exact Hst'].
  destruct (fgt _ _); [|exact Hst'].
  destruct (stamp_size_min self <=? available_stamp_size self s);
    [|exact Hst'].
  match goal with |- context [if ?b then mk_emergency_best _ _ _ _ else _] =>
    destruct b end; [|exact Hst'].
  cbn [best_emergency]; intros c [= <-]; now apply anchored_intro.
Qed.

Lemma fallback_tiers_anchored sizes p line :
  snd (fallback_tiers self height width forbidden white_binary sizes)
  = Py.Returns (p, line) ->
  line = 788
  \/ anchored (corner_positions_base height width
               ++ fallback_positions_base height width
               ++ emergency_positions_base height width) p.
Proof.
  unfold fallback_tiers.
  destruct (fallback_sizes self) as [fs|]; [|discriminate].
  destruct (best_corner _) as [c|] eqn:Ec.
  { intros [= <- <-]. right. apply in_or_app. left.
    eapply corner_search_anchored; eauto. }
  destruct (best_fallback _) as [f|] eqn:Ef.
  { intros [= <- <-]. right. apply in_or_app. right. apply in_or_app. left.
    eapply fallback_search_anchored; eauto. }
  assert (Hlast : forall log,
    snd (match best_emergency
                 (emergency_overlap self height width forbidden white_binary
                                    sizes) with
         | Some e' => (log ++ [(WARNING, 755)], Py.Returns (e', 756))
         | None => (log ++ [(ERROR, 760)]
                        ++ forced_log self height width forbidden,
                    Py.Returns (forced_position self height width, 788))
         end) = Py.Returns (p, line) ->
    line = 788
    \/ anchored (corner_positions_base height width
                 ++ fallback_positions_base height width
                 ++ emergency_positions_base height width) p).
  { intros log. destruct (best_emergency (emergency_overlap _ _ _ _ _ _))
      as [e'|] eqn:Eo.
    - intros [= <- <-]. right. apply in_or_app. right. apply in_or_app.
      right. eapply emergency_overlap_anchored; eauto.
    - intros [= <- <-]. now left. }
  destruct (best_emergency (emergency_strict _ _ _ _ _ _)) as [e|] eqn:Ee.
  - destruct (feq _ _).
    + intros [= <- <-]. right. apply in_or_app. right. apply in_or_app.
      right. eapply emergency_strict_anchored; eauto.
    + apply Hlast.
  - apply Hlast.
Qed.

Lemma search_anchored p line :
  snd (search self height width forbidden white_binary) = Py.Returns (p, line)
  -> line = 485 \/ line = 788
     \/ anchored (corner_positions_base height width
                  ++ fallback_positions_base height width
                  ++ emergency_positions_base height width) p.
Proof.
  unfold search. destruct (search_sizes_to_try self) as [sizes|];
    [|discriminate].
  destruct (best_position _) as [found|].
  - destruct (local_refinement _ _ _ _ _ found) as [best record].
    intros [= _ <-]. now left.
  - pose proof (fallback_tiers_anchored sizes p line) as Hf.
    destruct (fallback_tiers _ _ _ _ _ _) as [log' r]. intros E.
    right. apply Hf, E.
Qed.

End Anchors.

(** *** The call as a whole *)

Lemma find_whitest_space_returned `{Cv2} self w r :
  evalState (find_whitest_space self) w = Py.Returns r ->
  masks r = evalState (detect (raster w)) w
  /\ snd (search self (nrows (raster w)) (ncols (raster w))
            (forbidden_mask (masks r)) (white_mask (raster w)))
     = Py.Returns (coords r, return_line r).
Proof.
  rewrite eval_find_whitest_space. unfold returned_of.
  destruct (snd (search _ _ _ _ _)) as [[c line]|] eqn:E; [|discriminate].
  intros [= <-]. cbn [masks coords return_line]. split; [reflexivity|exact E].
Qed.

Lemma find_whitest_space_raises `{Cv2} self w :
  stamp_size_max self < stamp_size_min self ->
  evalState (find_whitest_space self) w = Py.RaisesIndexError.
Proof.
  intros Hinv. rewrite eval_find_whitest_space, search_invalid by exact Hinv.
  reflexivity.
Qed.

Lemma find_whitest_space_valid `{Cv2} self w r :
  evalState (find_whitest_space self) w = Py.Returns r ->
  stamp_size_min self <= stamp_size_max self.
Proof.
  intros E.
  destruct (Z.le_gt_cases (stamp_size_min self) (stamp_size_max self))
    as [Hv|Hinv]; [exact Hv|].
  rewrite (find_whitest_space_raises self w) in E by lia. discriminate.
Qed.

Lemma find_whitest_space_white (cv : Cv2) self w :
  flat_pages_have_no_edges cv -> cache_ok (kernel_lru w) ->
  uniform (raster w) 255 ->
  stamp_size_min self <= stamp_size_max self -> 0 < stamp_size_max self ->
  max_zone_size self < ncols (raster w) ->
  max_zone_size self < nrows (raster w) ->
  evalState (find_whitest_space self) w
  = Py.Returns
      (mk_returned
         (Placement.mk 0 0 (max_zone_size self) (stamp_size_max self))
         (evalState (detect (raster w)) w) 485).
Proof.
  intros Hcv Hc U Hv Hp Hw Hh.
  destruct (detect_white (raster w) U Hcv w Hc) as [Hz _].
  pose proof (white_mask_white _ U) as Hwm.
  rewrite eval_find_whitest_space.
  rewrite (search_white self _ _ (raster w) Hv Hp Hz Hwm) by assumption.
  reflexivity.
Qed.

Lemma new_records_app w w' l :
  log_out w' = log_out w ++ l -> new_records w w' = l.
Proof.
  intros E. unfold new_records. rewrite E.
  rewrite skipn_app, skipn_all, Nat.sub_diag. reflexivity.
Qed.

(** ** Caching, and two example pages *)

(** *** The kernel cache *)

Lemma key_eqb_refl k : key_eqb k k = true.
Proof. unfold key_eqb. now rewrite !Z.eqb_refl. Qed.

Lemma key_eqb_sym a b : key_eqb a b = key_eqb b a.
Proof. unfold key_eqb. now rewrite (Z.eqb_sym (fst a)), (Z.eqb_sym (snd a)). Qed.

Lemma key_eqb_eq a b : key_eqb a b = true -> a = b.
Proof.
  unfold key_eqb. destruct a, b. simpl. intros H.
  apply andb_prop in H as [H1 H2]. f_equal; lia.
Qed.

Lemma lru_lookup_remove_other key size c :
  key_eqb key size = false ->
  lru_lookup key (lru_remove size c) = lru_lookup key c.
Proof.
  intros Hne. unfold lru_remove.
  induction c as [|[k v] c IH]; simpl; [reflexivity|].
  destruct (key_eqb size k) eqn:Es; simpl.
  - apply key_eqb_eq in Es. subst k. rewrite Hne. exact IH.
  - destruct (key_eqb key k); [reflexivity|exact IH].
Qed.

Lemma lru_remove_length size c :
  (length (lru_remove size c) <= length c)%nat.
Proof. unfold lru_remove. apply filter_length_le. Qed.

Lemma lru_remove_hit size c k :
  lru_lookup size c = Some k ->
  (length (lru_remove size c) < length c)%nat.
Proof.
  unfold lru_remove. induction c as [|[k0 v0] c IH]; simpl; [discriminate|].
  destruct (key_eqb size k0) eqn:E; simpl.
  - intros _. pose proof (filter_length_le
                            (fun e => negb (key_eqb size (fst e))) c). lia.
  - intros H. specialize (IH H). lia.
Qed.

Lemma lru_lookup_firstn key c n v :
  lru_lookup key (firstn n c) = Some v -> lru_lookup key c = Some v.
Proof.
  revert n. induction c as [|[k0 v0] c IH]; intros [|n]; simpl;
    try discriminate.
  destruct (key_eqb key k0); [auto|apply IH].
Qed.

Lemma lru_lookup_firstn_all key c n :
  (length c <= n)%nat -> lru_lookup key (firstn n c) = lru_lookup key c.
Proof. intros H. now rewrite firstn_all2. Qed.

Lemma kernel_run size w :
  runState (_get_text_detection_kernel size) w
  = match lru_lookup size (kernel_lru w) with
    | Some k =>
        (k, mk_world (raster w) ((size, k) :: lru_remove size (kernel_lru w))
                     (log_out w))
    | None =>
        (Cv.getStructuringElement size,
         mk_world (raster w)
           (firstn 32 ((size, Cv.getStructuringElement size) :: kernel_lru w))
           (log_out w))
    end.
Proof.
  unfold _get_text_detection_kernel. simpl.
  destruct (lru_lookup size (kernel_lru w)); reflexivity.
Qed.

(** A computation keeps the cache within its 32 entries. *)
Abbreviation bounded :=
  (fun (A : Type) (m : state World A) =>
     forall w, (length (kernel_lru w) <= 32)%nat ->
               (length (kernel_lru (execState m w)) <= 32)%nat).

Lemma bounded_ret {A : Type} (v : A) : bounded A (ret v).
Proof. intros w Hw. exact Hw. Qed.

Lemma bounded_bind {A B : Type} (m : state World A) (f : A -> state World B) :
  bounded A m -> (forall a, bounded B (f a)) -> bounded B (bind m f).
Proof. intros Hm Hf w Hw. rewrite exec_bind. apply Hf, Hm, Hw. Qed.

Lemma bounded_kernel size : bounded Kernel (_get_text_detection_kernel size).
Proof.
  intros w Hw. unfold execState. rewrite kernel_run.
  destruct (lru_lookup size (kernel_lru w)) as [k|] eqn:E;
    cbn [snd kernel_lru].
  - pose proof (lru_remove_hit _ _ _ E). simpl. lia.
  - apply firstn_le_length.
Qed.

Lemma bounded_logging lvl line : bounded unit (logging lvl line).
Proof. intros w Hw. exact Hw. Qed.

Lemma bounded_emit l : bounded unit (emit l).
Proof. intros w Hw. exact Hw. Qed.

Ltac bound_step :=
  first [ apply bounded_ret
        | apply bounded_bind;
          [ first [apply bounded_kernel | apply bounded_logging ]
          | intros ? ] ].

Lemma bounded_detect_text image : bounded _ (detect_text image).
Proof. unfold detect_text. repeat bound_step. Qed.

Lemma bounded_append_opening g size lb lm :
  bounded _ (append_opening g size lb lm).
Proof. unfold append_opening. destruct g; repeat bound_step. Qed.

Lemma bounded_detect_lines image forbidden :
  bounded _ (detect_lines image forbidden).
Proof.
  unfold detect_lines.
  repeat first [ bound_step
               | apply bounded_bind;
                 [apply bounded_append_opening | intros ?] ].
Qed.

Lemma bounded_mark_images h w contours acc :
  bounded _ (mark_images h w contours acc).
Proof.
  revert acc. induction contours as [|c cs IH]; intros acc; cbn [mark_images].
  - apply bounded_ret.
  - destruct (negb _); [|apply IH].
    apply bounded_bind; [apply bounded_kernel|intros ?; apply IH].
Qed.

Lemma bounded_mark_qrcodes image contours acc :
  bounded _ (mark_qrcodes image contours acc).
Proof.
  revert acc. induction contours as [|c cs IH]; intros acc; cbn [mark_qrcodes].
  - apply bounded_ret.
  - destruct (looks_like_qrcode _ _); [|apply IH].
    apply bounded_bind; [apply bounded_kernel|intros ?; apply IH].
Qed.

Lemma bounded_detect `{Cv2} image : bounded _ (detect image).
Proof.
  unfold detect.
  apply bounded_bind; [apply bounded_detect_text|intros ?].
  apply bounded_bind; [apply bounded_detect_lines|intros ?].
  apply bounded_bind; [apply bounded_mark_images|intros [? ?]].
  apply bounded_bind; [apply bounded_mark_qrcodes|intros [? ?]].
  apply bounded_ret.
Qed.

(** *** Two pages the examples run on *)

(** The servicer's processor on a 209 x 209 page, too small for any
    zone. *)
Lemma tiny_page_forced v :
  evalState (@find_whitest_space no_contours servicer_processor)
            (blank_page 209 209 v)
  = Py.Returns
      (mk_returned (forced_position servicer_processor 209 209)
         (evalState (@detect no_contours (raster (blank_page 209 209 v)))
                    (blank_page 209 209 v)) 788).
Proof.
  apply (@find_whitest_space_forced no_contours servicer_processor
           (blank_page 209 209 v)).
  - vm_compute. discriminate.
  - apply rejecting_small. left. vm_compute. reflexivity.
Qed.

(** The white A4 page at 254 dpi, on which the primary scan succeeds. *)
Lemma white_a4_primary :
  evalState (@find_whitest_space no_contours servicer_processor)
            (blank_page 2970 2100 255)
  = Py.Returns
      (mk_returned (Placement.mk 0 0 410 300)
         (evalState (@detect no_contours (raster (blank_page 2970 2100 255)))
                    (blank_page 2970 2100 255)) 485).
Proof.
  apply (find_whitest_space_white no_contours servicer_processor
           (blank_page 2970 2100 255) no_contours_flat (Forall_nil _)
           (blank_page_uniform 2970 2100 255));
    try reflexivity. vm_compute. discriminate.
Qed.

(** ** Further properties of [find_whitest_space] *)

(** X1. The four masks [find_whitest_space] returns with a placement
    (forbidden, text, image and QR code) have the shape of the page and
    hold no value but 0 and 255, whatever the page, the contours OpenCV
    reports and the state of the kernel cache. *)
Theorem returned_masks_are_binary `{Cv2} (self : PDFProcessor) (w : World)
    (r : Returned) :
  evalState (find_whitest_space self) w = Py.Returns r ->
  mask_like (raster w) (forbidden_mask (masks r))
  /\ mask_like (raster w) (text_mask (masks r))
  /\ mask_like (raster w) (image_mask (masks r))
  /\ mask_like (raster w) (qrcode_mask (masks r)).
Proof.
  intros E. destruct (find_whitest_space_returned self w r E) as [-> _].
  exact (proj1 (detect_masks (raster w) w)).
Qed.

Lemma returned_masks_are_binary_witness :
  exists r,
    evalState (@find_whitest_space no_contours servicer_processor)
              (blank_page 209 209 0) = Py.Returns r
    /\ mask_like (raster (blank_page 209 209 0)) (forbidden_mask (masks r))
    /\ mask_like (raster (blank_page 209 209 0)) (text_mask (masks r))
    /\ mask_like (raster (blank_page 209 209 0)) (image_mask (masks r))
    /\ mask_like (raster (blank_page 209 209 0)) (qrcode_mask (masks r)).
Proof.
  eexists. split; [apply tiny_page_forced|].
  apply (@returned_masks_are_binary no_contours servicer_processor
           (blank_page 209 209 0)).
  apply tiny_page_forced.
Defined.

(** X2. The forbidden mask covers the three masks returned beside it:
    every pixel set in the text mask, in the image mask or in the QR code
    mask is set in the forbidden mask. *)
Theorem forbidden_mask_covers_masks `{Cv2} (self : PDFProcessor) (w : World)
    (r : Returned) :
  evalState (find_whitest_space self) w = Py.Returns r ->
  covered_by (text_mask (masks r)) (forbidden_mask (masks r))
  /\ covered_by (image_mask (masks r)) (forbidden_mask (masks r))
  /\ covered_by (qrcode_mask (masks r)) (forbidden_mask (masks r)).
Proof.
  intros E. destruct (find_whitest_space_returned self w r E) as [-> _].
  exact (proj2 (detect_masks (raster w) w)).
Qed.

Lemma forbidden_mask_covers_masks_witness :
  exists r,
    evalState (@find_whitest_space no_contours servicer_processor)
              (blank_page 209 209 0) = Py.Returns r
    /\ covered_by (text_mask (masks r)) (forbidden_mask (masks r))
    /\ covered_by (image_mask (masks r)) (forbidden_mask (masks r))
    /\ covered_by (qrcode_mask (masks r)) (forbidden_mask (masks r)).
Proof.
  eexists. split; [apply tiny_page_forced|].
  apply (@forbidden_mask_covers_masks no_contours servicer_processor
           (blank_page 209 209 0)).
  apply tiny_page_forced.
Defined.

(** X3. What a returned placement guarantees, by the [return] statement it
    comes from. From the primary scan, the corners, the rescue positions
    and the strict emergency corners (lines 485, 575, 633, 692) the zone
    holds no forbidden pixel and its whiteness ratio exceeds 0.95. From
    the emergency corners with overlap (line 756) the pixel values of the
    forbidden mask over the zone add up to at most a tenth of the zone's
    area (the mask holds 255 per forbidden pixel, so fewer than one pixel
    in 2550) and the whiteness ratio exceeds 0.90. Otherwise the placement
    is the forced one of line 788, which is tested against nothing. *)
Theorem returned_zone_by_tier `{Cv2} (self : PDFProcessor) (w : World)
    (r : Returned) :
  evalState (find_whitest_space self) w = Py.Returns r ->
  (In (return_line r) [485; 575; 633; 692]
   /\ zone_clear (forbidden_mask (masks r)) (white_mask (raster w))
                 (95 # 100) (coords r))
  \/ (return_line r = 756
      /\ zone_nearly_clear (forbidden_mask (masks r)) (white_mask (raster w))
                           (coords r))
  \/ (return_line r = 788
      /\ coords r = forced_position self (nrows (raster w))
                                    (ncols (raster w))).
Proof.
  intros E. destruct (find_whitest_space_returned self w r E) as [_ Es].
  destruct (search_by_line _ _ _ _ _ _ _ Es)
    as [[Hl (_ & _ & _ & Hc)]|[[Hl (_ & _ & _ & Hc)]|[Hl Hc]]].
  - left. split; [exact Hl|exact Hc].
  - right. left. split; [exact Hl|exact Hc].
  - right. right. split; [exact Hl|exact Hc].
Qed.

Lemma returned_zone_by_tier_witness :
  exists r,
    evalState (@find_whitest_space no_contours servicer_processor)
              (blank_page 2970 2100 255) = Py.Returns r
    /\ ((In (return_line r) [485; 575; 633; 692]
         /\ zone_clear (forbidden_mask (masks r))
                       (white_mask (raster (blank_page 2970 2100 255)))
                       (95 # 100) (coords r))
        \/ (return_line r = 756
            /\ zone_nearly_clear
                 (forbidden_mask (masks r))
                 (white_mask (raster (blank_page 2970 2100 255))) (coords r))
        \/ (return_line r = 788
            /\ coords r = forced_position servicer_processor 2970 2100)).
Proof.
  eexists. split; [apply white_a4_primary|].
  apply (@returned_zone_by_tier no_contours servicer_processor
           (blank_page 2970 2100 255)).
  apply white_a4_primary.
Defined.

(** X4. [find_whitest_space] returns a placement exactly when
    [stamp_size_min <= stamp_size_max], whatever the page; with
    [stamp_size_min > stamp_size_max] it raises [IndexError] on every
    page, at the [[-1]] of line 516 if not already at that of line 371. *)
Theorem returns_iff_sizes_valid `{Cv2} (self : PDFProcessor) (w : World) :
  ((exists r, evalState (find_whitest_space self) w = Py.Returns r)
   <-> stamp_size_min self <= stamp_size_max self)
  /\ (evalState (find_whitest_space self) w = Py.RaisesIndexError
      <-> stamp_size_max self < stamp_size_min self).
Proof.
  assert (Hyes : stamp_size_min self <= stamp_size_max self ->
                 exists r, evalState (find_whitest_space self) w
                           = Py.Returns r).
  { intros Hv. rewrite eval_find_whitest_space.
    destruct (search_returns self (nrows (raster w)) (ncols (raster w))
                (forbidden_mask (evalState (detect (raster w)) w))
                (white_mask (raster w)) Hv) as (p & line & -> & _).
    eexists. reflexivity. }
  split; split.
  - intros [r E]. exact (find_whitest_space_valid self w r E).
  - exact Hyes.
  - intros E.
    destruct (Z.le_gt_cases (stamp_size_min self) (stamp_size_max self))
      as [Hv|Hinv]; [|lia].
    destruct (Hyes Hv) as [r Er]. congruence.
  - apply find_whitest_space_raises.
Qed.

(** X5. Whatever the size of the page, a returned placement has its corner
    at non-negative coordinates, a stamp between [stamp_size_min] and
    [stamp_size_max], and a zone that leaves [min_margin] = 5 pixels or
    more around the stamp on each side ([stamp + 10 <= zone]). *)
Theorem returned_stamp_is_well_placed `{Cv2} (self : PDFProcessor) (w : World)
    (r : Returned) :
  evalState (find_whitest_space self) w = Py.Returns r ->
  well_placed self (coords r).
Proof.
  intros E. pose proof (find_whitest_space_valid self w r E) as Hv.
  destruct (find_whitest_space_returned self w r E) as [_ Es].
  destruct (search_by_line _ _ _ _ _ _ _ Es)
    as [[_ Hk]|[[_ Hk]|[_ ->]]].
  - exact (kept_well_placed _ _ _ _ _ Hk).
  - exact (kept_well_placed _ _ _ _ _ Hk).
  - now apply forced_well_placed.
Qed.

Lemma returned_stamp_is_well_placed_witness :
  exists r,
    evalState (@find_whitest_space no_contours servicer_processor)
              (blank_page 209 209 0) = Py.Returns r
    /\ well_placed servicer_processor (coords r).
Proof.
  eexists. split; [apply tiny_page_forced|].
  apply (@returned_stamp_is_well_placed no_contours servicer_processor
           (blank_page 209 209 0)).
  apply tiny_page_forced.
Defined.

(** X6. A call hands a record of level ERROR to [logging] exactly when it
    returns the forced placement of line 788: every other outcome, the
    [IndexError] included, logs at most warnings. *)
Theorem error_logged_iff_forced `{Cv2} (self : PDFProcessor) (w : World) :
  (exists line,
     In (ERROR, line)
        (new_records w (execState (find_whitest_space self) w)))
  <-> (exists r, evalState (find_whitest_space self) w = Py.Returns r
                 /\ return_line r = 788).
Proof.
  destruct (exec_find_whitest_space self w) as (_ & _ & Hl).
  rewrite (new_records_app _ _ _ Hl). rewrite eval_find_whitest_space.
  pose proof (search_error self (nrows (raster w)) (ncols (raster w))
                (forbidden_mask (evalState (detect (raster w)) w))
                (white_mask (raster w))) as Hs.
  split.
  - intros [line [E|Hin]]; [discriminate|].
    destruct (proj1 Hs (ex_intro _ line Hin)) as [p ->].
    eexists. split; reflexivity.
  - intros (r & E & Hline).
    destruct (snd (search _ _ _ _ _)) as [[c l]|] eqn:Er; [|discriminate].
    cbn [returned_of] in E. injection E as <-. cbn [return_line] in Hline.
    subst l. destruct (proj2 Hs (ex_intro _ c eq_refl)) as [line Hin].
    exists line. now right.
Qed.



(** X8. [_get_text_detection_kernel] behind its [lru_cache]: after a call
    the element returned is the one the cache holds for the requested
    size, as its most recent entry, so that the same request made again
    returns the same element and leaves the cache as it is; and a cache of
    at most 32 entries stays so. *)
Theorem kernel_cache_keeps_latest (size : Z * Z) (w : World) :
  let k := evalState (_get_text_detection_kernel size) w in
  let w' := execState (_get_text_detection_kernel size) w in
  hd_error (kernel_lru w') = Some (size, k)
  /\ lru_lookup size (kernel_lru w') = Some k
  /\ runState (_get_text_detection_kernel size) w' = (k, w')
  /\ ((length (kernel_lru w) <= 32)%nat -> (length (kernel_lru w') <= 32)%nat).
Proof.
  cbv zeta. unfold evalState, execState. rewrite kernel_run.
  assert (Hhit : forall k c,
            runState (_get_text_detection_kernel size)
                     (mk_world (raster w) ((size, k) :: c) (log_out w))
            = (k, mk_world (raster w) ((size, k) :: lru_remove size c)
                           (log_out w))).
  { intros k c. rewrite kernel_run. cbn [kernel_lru raster log_out lru_lookup].
    rewrite key_eqb_refl. unfold lru_remove at 1. cbn [filter fst].
    rewrite key_eqb_refl. reflexivity. }
  assert (Hrm : forall c, lru_remove size (lru_remove size c)
                          = lru_remove size c).
  { intros c. unfold lru_remove. induction c as [|e c IH]; [reflexivity|].
    simpl. destruct (negb (key_eqb size (fst e))) eqn:En; simpl;
      [rewrite En, IH|]; auto. }
  assert (Hnone : forall c, lru_lookup size c = None -> lru_remove size c = c).
  { intros c. unfold lru_remove. induction c as [|[k0 v0] c IH]; simpl;
      [reflexivity|].
    destruct (key_eqb size k0); [discriminate|]. simpl. intros Hn.
    now rewrite IH. }
  destruct (lru_lookup size (kernel_lru w)) as [k|] eqn:E;
    cbn [fst snd kernel_lru].
  - split; [reflexivity|]. split.
    { cbn [lru_lookup]. now rewrite key_eqb_refl. }
    split; [rewrite Hhit, Hrm; reflexivity|].
    intros Hw. pose proof (lru_remove_hit _ _ _ E). simpl. lia.
  - assert (Ec : firstn 32 ((size, Cv.getStructuringElement size)
                            :: kernel_lru w)
                = (size, Cv.getStructuringElement size)
                    :: firstn 31 (kernel_lru w)) by reflexivity.
    rewrite Ec. clear Ec.
    assert (Ef : lru_lookup size (firstn 31 (kernel_lru w)) = None).
    { destruct (lru_lookup size (firstn 31 (kernel_lru w))) as [v|] eqn:Ef;
        [|reflexivity].
      apply lru_lookup_firstn in Ef. congruence. }
    set (c := firstn 31 (kernel_lru w)) in *.
    split; [reflexivity|]. split.
    { cbn [lru_lookup]. now rewrite key_eqb_refl. }
    split; [rewrite Hhit, (Hnone c Ef); reflexivity|].
    intros _. subst c. cbn [length].
    pose proof (firstn_le_length 31 (kernel_lru w)). lia.
Qed.

Lemma kernel_cache_keeps_latest_witness :
  let w := mk_world (Np.zeros 1 1) [((3, 3), mk_kernel 3 3)] [] in
  let k := evalState (_get_text_detection_kernel (30, 1)) w in
  let w' := execState (_get_text_detection_kernel (30, 1)) w in
  hd_error (kernel_lru w') = Some ((30, 1), k)
  /\ lru_lookup (30, 1) (kernel_lru w') = Some k
  /\ runState (_get_text_detection_kernel (30, 1)) w' = (k, w')
  /\ (length (kernel_lru w') <= 32)%nat.
Proof.
  cbv zeta.
  destruct (kernel_cache_keeps_latest (30, 1)
              (mk_world (Np.zeros 1 1) [((3, 3), mk_kernel 3 3)] []))
    as (H1 & H2 & H3 & H4).
  repeat split; try assumption. apply H4. simpl. lia.
Defined.

(** X9. A request leaves the other sizes of the kernel cache alone as long
    as it is a hit or the cache has room: what the cache holds for any
    other size is unchanged. Only a miss on a full cache of 32 entries
    evicts, and then the entry least recently used and nothing else. *)
Theorem kernel_cache_other_sizes (size key : Z * Z) (w : World) :
  let w' := execState (_get_text_detection_kernel size) w in
  key_eqb key size = false ->
  ((lru_lookup size (kernel_lru w) <> None
    \/ (length (kernel_lru w) < 32)%nat) ->
   lru_lookup key (kernel_lru w') = lru_lookup key (kernel_lru w))
  /\ (lru_lookup size (kernel_lru w) = None ->
      length (kernel_lru w) = 32%nat ->
      kernel_lru w'
      = (size, Cv.getStructuringElement size) :: removelast (kernel_lru w)).
Proof.
  cbv zeta. intros Hne. unfold execState. rewrite kernel_run.
  destruct (lru_lookup size (kernel_lru w)) as [k|] eqn:E;
    cbn [snd kernel_lru].
  - split; [|discriminate]. intros _. cbn [lru_lookup]. rewrite Hne.
    now apply lru_lookup_remove_other.
  - split.
    + intros [Hc|Hlen]; [congruence|].
      rewrite firstn_all2 by (simpl; lia).
      cbn [lru_lookup]. now rewrite Hne.
    + intros _ Hlen.
      change (firstn 32 ((size, Cv.getStructuringElement size)
                           :: kernel_lru w))
        with ((size, Cv.getStructuringElement size)
                :: firstn 31 (kernel_lru w)).
      f_equal. rewrite removelast_firstn_len, Hlen. reflexivity.
Qed.

Lemma kernel_cache_other_sizes_witness :
  let w := mk_world (Np.zeros 1 1) [((3, 3), mk_kernel 3 3)] [] in
  lru_lookup (3, 3)
             (kernel_lru (execState (_get_text_detection_kernel (30, 1)) w))
  = lru_lookup (3, 3) (kernel_lru w).
Proof.
  cbv zeta.
  apply (kernel_cache_other_sizes (30, 1) (3, 3)
           (mk_world (Np.zeros 1 1) [((3, 3), mk_kernel 3 3)] [])).
  - reflexivity.
  - right. simpl. lia.
Defined.

(** X10. A call of [find_whitest_space] keeps the kernel cache within the
    32 entries of its [lru_cache], and well formed: every element it holds
    is still the structuring element its key builds. *)
Theorem kernel_cache_stays_bounded `{Cv2} (self : PDFProcessor) (w : World) :
  (length (kernel_lru w) <= 32)%nat -> cache_ok (kernel_lru w) ->
  (length (kernel_lru (execState (find_whitest_space self) w)) <= 32)%nat
  /\ cache_ok (kernel_lru (execState (find_whitest_space self) w)).
Proof.
  intros Hlen Hok. destruct (exec_find_whitest_space self w) as (_ & -> & _).
  split; [now apply bounded_detect|].
  apply (detect_page_masks (raster w) w Hok).
Qed.

Lemma kernel_cache_stays_bounded_witness :
  (length (kernel_lru
             (execState (@find_whitest_space no_contours servicer_processor)
                        (blank_page 209 209 0))) <= 32)%nat
  /\ cache_ok (kernel_lru
                 (execState (@find_whitest_space no_contours
                               servicer_processor)
                            (blank_page 209 209 0))).
Proof.
  apply (@kernel_cache_stays_bounded no_contours servicer_processor
           (blank_page 209 209 0)).
  - simpl. lia.
  - constructor.
Defined.

(** ** Strings, merging and pasting *)

(** *** Facts about strings *)

Lemma str_eqb_refl s : str_eqb s s = true.
Proof. induction s as [|c s IH]; simpl; [reflexivity|]. now rewrite N.eqb_refl. Qed.

Lemma str_eqb_eq a b : str_eqb a b = true <-> a = b.
Proof.
  split; [|intros ->; apply str_eqb_refl].
  revert b. induction a as [|c a IH]; intros [|d b]; simpl; try discriminate;
    [reflexivity|].
  intros H. apply andb_prop in H as [H1 H2]. apply N.eqb_eq in H1.
  f_equal; auto.
Qed.

Lemma str_eqb_neq a b : str_eqb a b = false <-> a <> b.
Proof.
  split.
  - intros H E. apply str_eqb_eq in E. congruence.
  - intros H. destruct (str_eqb a b) eqn:E; [|reflexivity].
    apply str_eqb_eq in E. contradiction.
Qed.

Lemma split_nonempty sep s : split sep s <> [].
Proof.
  destruct s as [|c s]; simpl; [discriminate|].
  destruct (N.eqb c sep); [discriminate|].
  destruct (split sep s); discriminate.
Qed.

Lemma split_spaceless s : spaceless s -> split 32 s = [s].
Proof.
  unfold spaceless. induction s as [|c s IH]; intros Hs; simpl; [reflexivity|].
  destruct (N.eqb_spec c 32) as [->|Hc]; [exfalso; apply Hs; now left|].
  rewrite IH; [reflexivity|]. intros Hin. apply Hs. now right.
Qed.

Lemma split_at_first_space a b :
  spaceless a -> split 32 (a ++ 32%N :: b) = a :: split 32 b.
Proof.
  unfold spaceless. induction a as [|c a IH]; intros Ha; simpl; [reflexivity|].
  destruct (N.eqb_spec c 32) as [->|Hc]; [exfalso; apply Ha; now left|].
  rewrite IH; [reflexivity|]. intros Hin. apply Ha. now right.
Qed.

Lemma split_single s piece :
  split 32 s = [piece] -> spaceless s.
Proof.
  unfold spaceless. revert piece.
  induction s as [|c s IH]; intros piece; simpl; [intros _ []|].
  destruct (N.eqb_spec c 32) as [->|Hc].
  - intros [= _ E]. exfalso. exact (split_nonempty 32 s E).
  - destruct (split 32 s) as [|p ps] eqn:Es; [intros _|].
    + exfalso. exact (split_nonempty 32 s Es).
    + intros [= _ ->]. intros [E|Hin]; [congruence|].
      exact (IH p eq_refl Hin).
Qed.

(** *** The metadata dict *)

Lemma dict_get_last pre key value post :
  Forall (fun kv => fst kv <> key) post ->
  Jwt.dict_get (pre ++ (key, value) :: post) key = Some value.
Proof.
  intros Hpost.
  assert (Hn : Jwt.dict_get post key = None).
  { induction post as [|[k v] post IH]; simpl; [reflexivity|].
    rewrite IH by exact (Forall_inv_tail Hpost).
    pose proof (Forall_inv Hpost) as Hk. simpl in Hk.
    apply str_eqb_neq in Hk. now rewrite Hk. }
  induction pre as [|[k v] pre IH]; simpl.
  - now rewrite Hn, str_eqb_refl.
  - now rewrite IH.
Qed.

Lemma dict_get_none pairs key :
  Jwt.dict_get pairs key = None <-> Forall (fun kv => fst kv <> key) pairs.
Proof.
  induction pairs as [|[k v] pairs IH]; simpl.
  - split; [constructor|reflexivity].
  - destruct (Jwt.dict_get pairs key) as [v'|].
    + split; [discriminate|]. intros HF.
      apply Forall_inv_tail in HF. apply IH in HF. discriminate.
    + destruct (str_eqb k key) eqn:E.
      * split; [discriminate|]. intros HF. apply Forall_inv in HF.
        simpl in HF. apply str_eqb_eq in E. contradiction.
      * split; [|reflexivity]. intros _. constructor.
        -- simpl. now apply str_eqb_neq.
        -- now apply IH.
Qed.

(** *** Merging *)

Lemma insert_pdf_first output src :
  insert_pdf output src 0 0 = output ++ firstn 1 src.
Proof. reflexivity. Qed.

Lemma range_succ_length start n :
  0 <= n -> length (Py.range start (start + n) 1) = Z.to_nat n.
Proof.
  intros Hn. unfold Py.range. rewrite length_map, length_seq.
  unfold Py.range_len. change (0 <? 1) with true. cbv iota.
  destruct (Z.ltb_spec start (start + n)).
  - f_equal. rewrite Z.div_1_r. lia.
  - assert (n = 0) by lia. subst. reflexivity.
Qed.

Lemma range_succ_nth start n k :
  (k < Z.to_nat n)%nat ->
  nth_error (Py.range start (start + n) 1) k = Some (start + Z.of_nat k).
Proof.
  intros Hk. unfold Py.range.
  assert (Hl : Py.range_len start (start + n) 1 = n).
  { unfold Py.range_len. change (0 <? 1) with true. cbv iota.
    destruct (Z.ltb_spec start (start + n)); [|lia].
    rewrite Z.div_1_r. lia. }
  rewrite Hl, nth_error_map.
  rewrite nth_error_nth' with (d := 0%nat) by now rewrite length_seq.
  rewrite seq_nth by exact Hk. simpl. f_equal. lia.
Qed.

Lemma range_shift start n :
  0 <= n ->
  Py.range (start + 1) (start + 1 + n) 1
  = skipn 1 (Py.range start (start + 1 + n) 1).
Proof.
  intros Hn. apply nth_error_ext. intros k.
  rewrite nth_error_skipn.
  destruct (Nat.lt_ge_cases k (Z.to_nat n)) as [Hk|Hk].
  - rewrite range_succ_nth by exact Hk.
    replace (start + 1 + n) with (start + (1 + n)) by ring.
    rewrite range_succ_nth by lia. f_equal. lia.
  - rewrite (proj2 (nth_error_None _ _)).
    2:{ rewrite range_succ_length; lia. }
    rewrite (proj2 (nth_error_None _ _)); [reflexivity|].
    replace (start + 1 + n) with (start + (1 + n)) by ring.
    rewrite range_succ_length; lia.
Qed.

Lemma merge_run stamped original num_pages s :
  runState (_merge_first_page_with_rest stamped original num_pages) s
  = (firstn 1 stamped
       ++ (if 1 <? num_pages
           then firstn (Z.to_nat (num_pages - 1)) (skipn 1 original)
           else []),
     mk_session (low_dpi s) (kernel_cache s) (log s ++ [(INFO, 990)])).
Proof.
  unfold _merge_first_page_with_rest, insert_pdf. cbn.
  destruct (1 <? num_pages); cbn.
  - replace (num_pages - 1 - 1 + 1) with (num_pages - 1) by ring.
    reflexivity.
  - now rewrite app_nil_r.
Qed.

(** *** The box of the stamp *)

Lemma stamping_centred self c :
  well_placed self c ->
  exists st, stamping_of c = Some st /\ centred_in_zone c st.
Proof.
  unfold well_placed, stamping_of, centred_in_zone, min_margin.
  intros (Hx & Hy & Hs & Hm).
  destruct (Z.leb_spec 0 (Placement.x c)); [|lia].
  destruct (Z.leb_spec 0 (Placement.y c)); [|lia].
  cbn [andb]. eexists. split; [reflexivity|].
  cbn [paste_x paste_y paste_size].
  pose proof (Z.div_mod (Placement.size c - Placement.stamp_size c) 2
                ltac:(lia)) as Hd.
  pose proof (Z.mod_pos_bound (Placement.size c - Placement.stamp_size c) 2
                ltac:(lia)) as Hb.
  repeat split; lia.
Qed.

(** The box of the stamp for a placement [find_whitest_space]
    returned. *)
Lemma stamping_inside_page `{Cv2} (self : PDFProcessor)
    (w : World) (r : Returned) :
  evalState (find_whitest_space self) w = Py.Returns r ->
  exists st,
    stamping_of (coords r) = Some st
    /\ centred_in_zone (coords r) st
    /\ (min_zone_size self <= ncols (raster w) ->
        min_zone_size self <= nrows (raster w) ->
        0 <= paste_x st /\ paste_x st + paste_size st <= ncols (raster w)
        /\ 0 <= paste_y st /\ paste_y st + paste_size st <= nrows (raster w)).
Proof.
  intros E. pose proof (find_whitest_space_valid self w r E) as Hv.
  destruct (find_whitest_space_returned self w r E) as [_ Es].
  assert (Hw : well_placed self (coords r)).
  { destruct (search_by_line _ _ _ _ _ _ _ Es)
      as [[_ Hk]|[[_ Hk]|[_ ->]]].
    - exact (kept_well_placed _ _ _ _ _ Hk).
    - exact (kept_well_placed _ _ _ _ _ Hk).
    - now apply forced_well_placed. }
  destruct (stamping_centred self (coords r) Hw) as (st & Est & Hc).
  exists st. split; [exact Est|]. split; [exact Hc|].
  intros Hcols Hrows.
  destruct (search_returns self (nrows (raster w)) (ncols (raster w))
              (forbidden_mask (masks r)) (white_mask (raster w)) Hv)
    as (p & line & Ep & Hfit).
  rewrite Es in Ep. injection Ep as <- <-.
  destruct (Hfit Hcols Hrows) as (F1 & F2 & F3 & F4 & _).
  unfold centred_in_zone, min_margin in Hc. lia.
Qed.

(** ** Properties of the settings, the gateway and the token reader *)

(** X12. The adaptive settings of [process_document]: a longer document
    never gets fewer workers nor a higher resolution than a shorter one
    on the same machine; the workers stay between 2 and 16, and the
    resolution is 120, 150 or 200 dpi. *)
Theorem adaptive_settings_monotone (cpu_count n m : Z) :
  n <= m ->
  workers_for cpu_count n <= workers_for cpu_count m
  /\ dpi_for m <= dpi_for n
  /\ 2 <= workers_for cpu_count n <= 16
  /\ In (dpi_for n) [120; 150; 200].
Proof.
  intros Hnm. unfold workers_for, dpi_for, adaptive_settings.
  destruct (Z.ltb_spec 300 n), (Z.ltb_spec 100 n), (Z.ltb_spec 20 n),
    (Z.ltb_spec 300 m), (Z.ltb_spec 100 m), (Z.ltb_spec 20 m);
    try lia; cbn [fst snd In]; repeat split; try lia; auto.
Qed.

Lemma adaptive_settings_monotone_witness :
  workers_for 4 20 <= workers_for 4 301
  /\ dpi_for 301 <= dpi_for 20
  /\ 2 <= workers_for 4 20 <= 16
  /\ In (dpi_for 20) [120; 150; 200].
Proof. apply (adaptive_settings_monotone 4 20 301). lia. Defined.

(** X13. [_merge_first_page_with_rest] keeps the page count and the order
    of the document: with a stamped PDF that has a page, and an original
    of [num_pages >= 1] pages, the merged PDF has [num_pages] pages, the
    first is the first page of the stamped PDF, and every other page is
    the page of the original at the same position. *)
Theorem merge_keeps_every_page (stamped original : list Page)
    (num_pages : Z) (s : Session) :
  stamped <> [] -> Z.of_nat (length original) = num_pages -> 1 <= num_pages ->
  let merged :=
    evalState (_merge_first_page_with_rest stamped original num_pages) s in
  Z.of_nat (length merged) = num_pages
  /\ nth_error merged 0 = nth_error stamped 0
  /\ forall k, (1 <= k)%nat -> nth_error merged k = nth_error original k.
Proof.
  intros Hs Hlen Hn. cbv zeta. unfold evalState. rewrite merge_run.
  cbn [fst]. destruct stamped as [|p stamped]; [contradiction|].
  cbn [firstn app].
  destruct original as [|o original]; [simpl in Hlen; lia|].
  cbn [skipn].
  assert (Hf : (if 1 <? num_pages
                then firstn (Z.to_nat (num_pages - 1)) original else [])
               = original).
  { simpl length in Hlen. destruct (Z.ltb_spec 1 num_pages).
    - apply firstn_all2. lia.
    - destruct original; [reflexivity|simpl length in Hlen; lia]. }
  rewrite Hf. split; [exact Hlen|]. split; [reflexivity|].
  intros [|k] Hk; [lia|reflexivity].
Qed.

Lemma merge_keeps_every_page_witness :
  let stamped := [Image (mk_sheet 1 200 None)] in
  let original := [Original 1; Original 2; Original 3] in
  let merged :=
    evalState (_merge_first_page_with_rest stamped original 3)
              fresh_session in
  Z.of_nat (length merged) = 3
  /\ nth_error merged 0 = nth_error stamped 0
  /\ forall k, (1 <= k)%nat -> nth_error merged k = nth_error original k.
Proof.
  apply (merge_keeps_every_page [Image (mk_sheet 1 200 None)]
           [Original 1; Original 2; Original 3] 3 fresh_session).
  - discriminate.
  - reflexivity.
  - lia.
Defined.

(** X14. The gateway and the servicer do not test the source of a request
    alike. The gateway refuses a request (status 400) only when it names
    no source at all. Of a request it is sent, the servicer takes Google
    Drive before OoDrive before the URL, each Drive source only if its
    file id and its token are both non-empty; so it finds no source, and
    raises the [ValueError] of line 1337, exactly when the request has no
    URL and no Drive source with both strings set: a request that names a
    Drive source with an empty string passes the gateway and fails in the
    servicer. *)
Theorem gateway_forwards_unusable_sources (request : Gateway.StampRequest) :
  (forall u, Gateway.pdf_url request = Some u -> nonempty (strip u) = true) ->
  (Gateway.no_source request = true
   <-> Gateway.pdf_url request = None
       /\ Gateway.google_drive request = None
       /\ Gateway.oodrive request = None)
  /\ (select_source (Gateway.grpc_request_of request) = None
      <-> Gateway.pdf_url request = None
          /\ usable (Gateway.google_drive request) = false
          /\ usable (Gateway.oodrive request) = false)
  /\ (forall g, Gateway.google_drive request = Some g ->
        usable (Some g) = true ->
        select_source (Gateway.grpc_request_of request)
        = Some (GoogleDrive (Gateway.file_id g) (Gateway.access_token g)))
  /\ (forall o, Gateway.oodrive request = Some o ->
        usable (Some o) = true ->
        usable (Gateway.google_drive request) = false ->
        select_source (Gateway.grpc_request_of request)
        = Some (OoDrive (Pb.mk_drive_file (Gateway.file_id o)
                                          (Gateway.access_token o)))).
Proof.
  intros Hurl. split.
  { unfold Gateway.no_source.
    destruct (Gateway.pdf_url request), (Gateway.google_drive request),
      (Gateway.oodrive request); cbn; split;
      try discriminate; try (intros (? & ? & ?); discriminate); auto. }
  unfold select_source, Gateway.grpc_request_of, usable.
  cbn [Pb.googleDriveFile Pb.ooDriveFile Pb.pdf_url Pb.id Pb.accessToken].
  assert (Hsn : forall u : str, nonempty (strip u) = true -> nonempty u = true).
  { intros [|c u]; [discriminate|reflexivity]. }
  destruct (Gateway.google_drive request) as [g|],
    (Gateway.oodrive request) as [o|],
    (Gateway.pdf_url request) as [u|];
    cbn [Gateway.drive_file Pb.id Pb.accessToken nonempty andb
         Gateway.file_id Gateway.access_token];
    try (pose proof (Hurl u eq_refl) as Hu; rewrite Hu, (Hsn u Hu));
    repeat match goal with
           | |- context [nonempty ?s && nonempty ?t] =>
               destruct (nonempty s && nonempty t) eqn:?
           end;
    cbn [andb];
    (split; [split; [intros; try discriminate; auto
                    |intros (? & ? & ?); try discriminate; auto]
            |split; intros ? [= <-]; intros; try discriminate;
             try congruence; auto]).
Qed.

Lemma gateway_forwards_unusable_sources_witness :
  let request :=
    Gateway.mk_stamp_request None
      (Some (Gateway.mk_drive_source [] (lit "token"))) None
      (lit "https://example.com/stamp.png") 1 [] false in
  Gateway.no_source request = false
  /\ select_source (Gateway.grpc_request_of request) = None.
Proof.
  cbv zeta. split; [reflexivity|].
  apply (proj1 (proj2 (gateway_forwards_unusable_sources
                  (Gateway.mk_stamp_request None
                     (Some (Gateway.mk_drive_source [] (lit "token"))) None
                     (lit "https://example.com/stamp.png") 1 [] false)
                  ltac:(intros u [=])))).
  repeat split.
Defined.



(** X16. [get_token_from_metadata] on an [authorization] entry of the form
    [scheme token ...]: with no space in the scheme, the call returns the
    piece between the first space and the next one (the whole rest when
    it holds no space), whatever the other entries are; when the key is
    repeated the last entry is the one read. *)
Theorem bearer_token_is_extracted (before after : list (str * str))
    (scheme rest : str) :
  spaceless scheme ->
  Forall (fun kv => fst kv <> lit "authorization") after ->
  snd (Jwt.get_token_from_metadata
         (before ++ (lit "authorization", scheme ++ 32%N :: rest) :: after))
  = Jwt.Returns (hd [] (split 32 rest))
  /\ (spaceless rest ->
      snd (Jwt.get_token_from_metadata
             (before ++ (lit "authorization", scheme ++ 32%N :: rest)
                     :: after))
      = Jwt.Returns rest).
Proof.
  intros Hs Hafter. unfold Jwt.get_token_from_metadata.
  rewrite (dict_get_last before _ _ after Hafter).
  rewrite (split_at_first_space scheme rest Hs). cbn [nth_error snd].
  destruct (split 32 rest) as [|p ps] eqn:E;
    [exfalso; exact (split_nonempty 32 rest E)|].
  cbn [nth_error hd]. split; [reflexivity|].
  intros Hr. rewrite (split_spaceless rest Hr) in E. now injection E as <- _.
Qed.

Lemma bearer_token_is_extracted_witness :
  snd (Jwt.get_token_from_metadata
         [(lit "authorization", lit "Basic old");
          (lit "user-agent", lit "grpc-python");
          (lit "authorization", lit "Bearer abc.def.ghi");
          (lit "x-request-id", lit "42")])
  = Jwt.Returns (lit "abc.def.ghi").
Proof.
  apply (proj2 (bearer_token_is_extracted
                  [(lit "authorization", lit "Basic old");
                   (lit "user-agent", lit "grpc-python")]
                  [(lit "x-request-id", lit "42")]
                  (lit "Bearer") (lit "abc.def.ghi")
                  ltac:(intros Hin; vm_compute in Hin; intuition discriminate)
                  ltac:(repeat constructor; discriminate))).
  intros Hin. vm_compute in Hin. intuition discriminate.
Defined.

(** X17. How [get_token_from_metadata] fails. Without an [authorization]
    entry it raises [Exception('Token not found')] and logs nothing. With
    an entry whose value holds no space it raises [IndexError], not that
    exception. And whenever the entry is there, the call first hands its
    whole value, token included, to [logging.debug], even when it then
    raises. *)
Theorem token_extraction_failures (metadata : list (str * str)) :
  (Jwt.get_token_from_metadata metadata = ([], Jwt.RaisesTokenNotFound)
   <-> Forall (fun kv => fst kv <> lit "authorization") metadata)
  /\ (snd (Jwt.get_token_from_metadata metadata) = Jwt.RaisesIndexError
      <-> exists value,
            Jwt.dict_get metadata (lit "authorization") = Some value
            /\ spaceless value)
  /\ (forall value,
        Jwt.dict_get metadata (lit "authorization") = Some value ->
        fst (Jwt.get_token_from_metadata metadata)
        = [(DEBUG, lit "Authorization value: " ++ value)]).
Proof.
  unfold Jwt.get_token_from_metadata.
  pose proof (dict_get_none metadata (lit "authorization")) as Hn.
  destruct (Jwt.dict_get metadata (lit "authorization")) as [value|].
  - split; [|split].
    + split.
      * destruct (nth_error (split 32 value) 1); discriminate.
      * intros HF. apply Hn in HF. discriminate.
    + split.
      * destruct (split 32 value) as [|p [|q ps]] eqn:E.
        -- exfalso. exact (split_nonempty 32 value E).
        -- intros _. exists value. split; [reflexivity|].
           exact (split_single value p E).
        -- discriminate.
      * intros (v & [= <-] & Hv). now rewrite (split_spaceless value Hv).
    + intros v [= <-]. destruct (nth_error (split 32 value) 1); reflexivity.
  - split; [|split].
    + split; [intros _; now apply Hn|reflexivity].
    + split; [discriminate|intros (v & [=] & _)].
    + intros v [=].
Qed.

(** ** The pipeline of server.py *)

(** *** Running the pipeline *)

Lemma srun_bind {A B : Type} (m : state Session A) (f : A -> state Session B)
    s :
  runState (bind m f) s = runState (f (fst (runState m s))) (snd (runState m s)).
Proof. simpl. destruct (runState m s). reflexivity. Qed.

Lemma record_run lvl line s :
  runState (record lvl line) s
  = (tt, mk_session (low_dpi s) (kernel_cache s) (log s ++ [(lvl, line)])).
Proof. reflexivity. Qed.

Lemma set_low_dpi_run dpi s :
  runState (set_low_dpi dpi) s
  = (tt, mk_session dpi (kernel_cache s) (log s)).
Proof. reflexivity. Qed.

(** *** The sort of the results does nothing *)

Lemma insert_by_page_last {A : Type} (r : Z * A) sorted :
  Forall (fun r' => fst r' <= fst r) sorted ->
  insert_by_page r sorted = sorted ++ [r].
Proof.
  induction sorted as [|r' sorted IH]; intros HF; simpl; [reflexivity|].
  pose proof (Forall_inv HF) as Hr. simpl in Hr.
  destruct (Z.leb_spec (fst r') (fst r)); [|lia].
  now rewrite IH by exact (Forall_inv_tail HF).
Qed.

Lemma sort_by_page_sorted {A : Type} (results : list (Z * A)) :
  StronglySorted Z.le (map fst results) -> sort_by_page results = results.
Proof.
  unfold sort_by_page.
  assert (Hgen : forall done,
            StronglySorted Z.le (map fst (done ++ results)) ->
            fold_left (fun sorted r => insert_by_page r sorted) results done
            = done ++ results).
  { induction results as [|r results IH]; intros done Hs; simpl.
    - now rewrite app_nil_r.
    - rewrite insert_by_page_last.
      + rewrite IH; rewrite <- app_assoc; [reflexivity|exact Hs].
      + rewrite map_app in Hs. simpl in Hs.
        clear IH. induction done as [|d done IHd]; [constructor|].
        simpl in Hs. inversion Hs as [|? ? Hs' Hd]; subst. constructor.
        * rewrite Forall_forall in Hd. apply Hd. apply in_or_app. right.
          now left.
        * now apply IHd. }
  intros Hs. exact (Hgen [] Hs).
Qed.

Lemma seq_pages_sorted start a k :
  StronglySorted Z.le (map (fun i => start + Z.of_nat i * 1) (seq a k)).
Proof.
  revert a. induction k as [|k IH]; intros a; cbn [seq map]; constructor.
  - apply IH.
  - rewrite Forall_forall. intros v Hv. apply in_map_iff in Hv.
    destruct Hv as (i & <- & Hi). apply in_seq in Hi. lia.
Qed.

Lemma page_args_range n :
  map (fun i => i + 1) (Py.range 0 n 1) = Py.range 1 (n + 1) 1.
Proof.
  unfold Py.range. rewrite map_map.
  assert (E : Py.range_len 1 (n + 1) 1 = Py.range_len 0 n 1).
  { unfold Py.range_len. change (0 <? 1) with true. cbv iota.
    destruct (Z.ltb_spec 1 (n + 1)), (Z.ltb_spec 0 n); try lia.
    rewrite !Z.div_1_r. lia. }
  rewrite E. apply map_ext. intros i. lia.
Qed.

Lemma page_args_sorted n : StronglySorted Z.le (Py.range 1 (n + 1) 1).
Proof. unfold Py.range. apply seq_pages_sorted. Qed.

Lemma pages_after_first n :
  1 <= n ->
  (if 1 <? n
   then firstn (Z.to_nat (n - 1))
               (skipn 1 (map Original (Py.range 1 (n + 1) 1)))
   else [])
  = map Original (Py.range 2 (n + 1) 1).
Proof.
  intros Hn.
  assert (Er : Py.range 2 (n + 1) 1 = skipn 1 (Py.range 1 (n + 1) 1)).
  { replace (n + 1) with (1 + 1 + (n - 1)) by ring.
    change 2 with (1 + 1) at 1. apply range_shift. lia. }
  destruct (Z.ltb_spec 1 n).
  - rewrite skipn_map, <- Er. apply firstn_all2.
    rewrite length_map.
    replace (n + 1) with (2 + (n - 1)) by ring.
    rewrite range_succ_length by lia. lia.
  - assert (n = 1) by lia. subst. reflexivity.
Qed.

(** *** One page *)

Section Pages.

Context `{Cv2}.
Variable gray_page : Z -> Z -> ndarray.
Variable self : PDFProcessor.
Hypothesis valid : stamp_size_min self <= stamp_size_max self.
Hypothesis positive : 0 < stamp_size_min self.

Lemma find_whitest_space_alone w :
  cache_ok (kernel_lru w) ->
  evalState (find_whitest_space self) w
  = evalState (find_whitest_space self) (mk_world (raster w) [] []).
Proof.
  intros Hw. rewrite !eval_find_whitest_space.
  rewrite (eval_detect_ok w Hw).
  rewrite (eval_detect_ok (mk_world (raster w) [] []) (Forall_nil _)).
  reflexivity.
Qed.

Lemma find_whitest_space_returns w :
  exists r, evalState (find_whitest_space self) w = Py.Returns r.
Proof.
  rewrite eval_find_whitest_space.
  destruct (search_returns self (nrows (raster w)) (ncols (raster w))
              (forbidden_mask (evalState (detect (raster w)) w))
              (white_mask (raster w)) valid) as (p & line & -> & _).
  eexists. reflexivity.
Qed.

(** What a page gives: its number, its sheet and its placement. *)
Abbreviation page_ok :=
  (fun (dpi : Z) (r : Z * (Sheet * option Placement.t)) =>
     exists c,
       snd r = (mk_sheet (fst r) dpi (stamping_of c), Some c)
       /\ placed_alone self (gray_page dpi (fst r)) c
       /\ well_placed self c
       /\ stamping_of c <> None).

Lemma _process_single_page_run page_num s :
  session_ok s ->
  exists r s',
    runState (_process_single_page gray_page self page_num) s
    = (PageReturns r, s')
    /\ fst r = page_num /\ page_ok (low_dpi s) r
    /\ low_dpi s' = low_dpi s /\ session_ok s'.
Proof.
  intros Hs. unfold _process_single_page.
  rewrite srun_bind. cbn [get fst snd runState].
  change (runState get s) with (s, s). cbn [fst snd].
  set (w := mk_world (gray_page (low_dpi s) page_num) (kernel_cache s)
                     (log s)).
  assert (Hw : cache_ok (kernel_lru w)) by exact Hs.
  destruct (find_whitest_space_returns w) as [r Er].
  pose proof (find_whitest_space_alone w Hw) as Ealone.
  assert (Hk : cache_ok (kernel_lru (execState (find_whitest_space self) w))).
  { destruct (exec_find_whitest_space self w) as (_ & -> & _).
    apply (detect_page_masks (raster w) w Hw). }
  unfold evalState in Er. unfold execState in Hk.
  destruct (runState (find_whitest_space self) w) as [result w'] eqn:Erun.
  cbn [fst snd] in *. subst result.
  assert (Hwp : well_placed self (coords r)).
  { assert (E : evalState (find_whitest_space self) w = Py.Returns r)
      by (unfold evalState; now rewrite Erun).
    destruct (find_whitest_space_returned self w r E) as [_ Es].
    destruct (search_by_line _ _ _ _ _ _ _ Es)
      as [[_ Hkz]|[[_ Hkz]|[_ ->]]].
    - exact (kept_well_placed _ _ _ _ _ Hkz).
    - exact (kept_well_placed _ _ _ _ _ Hkz).
    - now apply forced_well_placed. }
  destruct (stamping_centred self (coords r) Hwp) as (st & Est & _).
  rewrite Est.
  destruct (Z.eqb_spec (Placement.size (coords r)) 0) as [Hz|_].
  { exfalso. unfold well_placed, min_margin in Hwp. lia. }
  eexists. eexists. split; [reflexivity|].
  cbn [fst snd low_dpi kernel_cache]. repeat split; try assumption.
  exists (coords r). cbn [fst snd]. rewrite Est. split; [reflexivity|].
  split; [|split; [exact Hwp|discriminate]].
  exists (masks r), (return_line r).
  change (mk_world (gray_page (low_dpi s) page_num) [] [])
    with (mk_world (raster w) [] []).
  rewrite <- Ealone. unfold evalState. rewrite Erun. cbn [fst].
  destruct r; reflexivity.
Qed.

Lemma executor_map_run page_args s :
  session_ok s ->
  exists rs s',
    runState (executor_map gray_page self page_args) s
    = (PageReturns rs, s')
    /\ map fst rs = page_args
    /\ Forall (page_ok (low_dpi s)) rs
    /\ low_dpi s' = low_dpi s /\ session_ok s'.
Proof.
  revert s. induction page_args as [|n rest IH]; intros s Hs.
  - exists [], s. repeat split; auto.
  - cbn [executor_map]. rewrite srun_bind.
    destruct (_process_single_page_run n s Hs)
      as (r & s1 & -> & Hn & Hr & Hd & Hs1).
    cbn [fst snd]. rewrite srun_bind.
    destruct (IH s1 Hs1) as (rs & s2 & -> & Hm & HF & Hd2 & Hs2).
    cbn [fst snd]. exists (r :: rs), s2.
    split; [reflexivity|]. cbn [map]. rewrite Hn, Hm.
    split; [reflexivity|]. rewrite Hd in HF.
    split; [constructor; assumption|]. split; [congruence|exact Hs2].
Qed.

Lemma process_document_all_run cpu_count num_pages s :
  session_ok s ->
  exists rs s',
    runState (process_document gray_page self cpu_count num_pages false) s
    = (Done (map (fun r => Image (fst (snd r))) rs,
             map (fun r => snd (snd r)) rs), s')
    /\ map fst rs = Py.range 1 (num_pages + 1) 1
    /\ Forall (page_ok (dpi_for num_pages)) rs
    /\ low_dpi s' = dpi_for num_pages /\ session_ok s'.
Proof.
  intros Hs. unfold process_document.
  assert (Ed : adaptive_settings cpu_count num_pages
               = (workers_for cpu_count num_pages, dpi_for num_pages,
                  snd (adaptive_settings cpu_count num_pages))).
  { unfold workers_for, dpi_for, adaptive_settings.
    destruct (300 <? num_pages), (100 <? num_pages), (20 <? num_pages);
      reflexivity. }
  rewrite Ed. cbv iota beta.
  rewrite srun_bind, set_low_dpi_run. cbn [fst snd].
  rewrite srun_bind, record_run. cbn [fst snd low_dpi kernel_cache log].
  rewrite srun_bind, page_args_range.
  match goal with
  | |- context [runState (executor_map _ _ _) ?s0] =>
      destruct (executor_map_run (Py.range 1 (num_pages + 1) 1) s0 Hs)
        as (rs & s1 & -> & Hm & HF & Hd & Hs1)
  end.
  cbn [fst snd low_dpi] in *.
  rewrite (sort_by_page_sorted rs)
    by (rewrite Hm; apply page_args_sorted).
  rewrite srun_bind, record_run. cbn [fst snd].
  rewrite srun_bind. cbn [fst snd].
  eexists rs, _. split.
  { rewrite map_map. reflexivity. }
  cbn [low_dpi kernel_cache]. repeat split; assumption.
Qed.

Lemma process_document_first_run cpu_count num_pages s :
  1 <= num_pages -> session_ok s ->
  exists r s',
    runState (process_document gray_page self cpu_count num_pages true) s
    = (Done (Image (fst (snd r))
               :: map Original (Py.range 2 (num_pages + 1) 1),
             [snd (snd r)]), s')
    /\ fst r = 1 /\ page_ok (low_dpi s) r
    /\ low_dpi s' = low_dpi s /\ session_ok s'.
Proof.
  intros Hn Hs. unfold process_document.
  rewrite srun_bind, record_run. cbn [fst snd].
  rewrite srun_bind, record_run. cbn [fst snd low_dpi kernel_cache log].
  rewrite srun_bind.
  match goal with
  | |- context [runState (_process_single_page _ _ _) ?s0] =>
      destruct (_process_single_page_run 1 s0 Hs)
        as (r & s1 & -> & Hp & Hr & Hd & Hs1)
  end.
  cbn [fst snd low_dpi] in *.
  destruct r as [n [sheet oc]]. cbn [fst snd] in *.
  rewrite srun_bind, record_run. cbn [fst snd].
  rewrite srun_bind, record_run. cbn [fst snd low_dpi kernel_cache log].
  pose proof (pages_after_first num_pages Hn) as Hrest.
  destruct (Z.ltb_spec 1 num_pages) as [Hgt|Hle].
  - rewrite srun_bind, record_run. cbn [fst snd].
    rewrite srun_bind, merge_run. cbn [fst snd firstn app].
    destruct (Z.ltb_spec 1 num_pages); [|lia]. rewrite Hrest.
    exists (n, (sheet, oc)). eexists. split; [reflexivity|].
    cbn [fst snd low_dpi kernel_cache]. repeat split; assumption.
  - rewrite <- Hrest.
    exists (n, (sheet, oc)). eexists. split; [reflexivity|].
    cbn [fst snd low_dpi kernel_cache]. repeat split; assumption.
Qed.

End Pages.

(** ** The servicer *)

(** *** The response of the servicer *)

Lemma enumerate_from_map {A B C : Type} (f : Z -> B -> C) (g : A -> B)
    start (l : list A) :
  enumerate_from f start (map g l)
  = map (fun ir => f (fst ir) (g (snd ir)))
        (combine (map (fun k => start + Z.of_nat k) (seq 0 (length l))) l).
Proof.
  revert start. induction l as [|a l IH]; intros start; [reflexivity|].
  cbn [map enumerate_from length seq combine fst snd].
  rewrite Z.add_0_r. f_equal. rewrite IH. f_equal. f_equal.
  rewrite <- seq_shift, map_map. apply map_ext. intros k. lia.
Qed.

Lemma range_as_seq start n :
  0 <= n ->
  Py.range start (start + n) 1
  = map (fun k => start + Z.of_nat k) (seq 0 (Z.to_nat n)).
Proof.
  intros Hn. unfold Py.range.
  assert (Hl : Py.range_len start (start + n) 1 = n).
  { unfold Py.range_len. change (0 <? 1) with true. cbv iota.
    destruct (Z.ltb_spec start (start + n)); [|lia].
    rewrite Z.div_1_r. lia. }
  rewrite Hl. apply map_ext. intros k. lia.
Qed.

Lemma range_length_bound start stop :
  start <= stop ->
  Py.range start stop 1
  = map (fun k => start + Z.of_nat k) (seq 0 (Z.to_nat (stop - start))).
Proof.
  intros H. replace stop with (start + (stop - start)) at 1 by ring.
  apply range_as_seq. lia.
Qed.

Lemma combine_pages {A : Type} (rs : list (Z * A)) ks :
  map fst rs = map (fun k => 1 + Z.of_nat k) ks ->
  combine (map (fun k => 0 + Z.of_nat k) ks) rs
  = map (fun r => (fst r - 1, r)) rs.
Proof.
  revert ks. induction rs as [|r rs IH]; intros [|k ks] Hm;
    try discriminate; try reflexivity.
  pose proof (f_equal (@hd Z 0) Hm) as Hr.
  pose proof (f_equal (@tl Z) Hm) as Hrest.
  cbn [map hd tl] in Hr, Hrest. cbn [map combine].
  rewrite (IH ks Hrest).
  replace (0 + Z.of_nat k) with (fst r - 1) by lia. reflexivity.
Qed.

(** The entries of a response whose placements came from [rs], a list of
    page results on consecutive pages from 1. *)
Lemma encode_results (rs : list (Z * (Sheet * option Placement.t))) n :
  0 <= n -> map fst rs = Py.range 1 (n + 1) 1 ->
  enumerate_from encode_coordinates 0 (map (fun r => snd (snd r)) rs)
  = map (fun r => encode_coordinates (fst r - 1) (snd (snd r))) rs.
Proof.
  intros Hn Hm. rewrite enumerate_from_map.
  assert (Hlen : length rs = Z.to_nat n).
  { rewrite <- (length_map fst rs), Hm.
    replace (n + 1) with (1 + n) by ring. apply range_succ_length, Hn. }
  replace (n + 1) with (1 + n) in Hm by ring.
  rewrite range_as_seq in Hm by exact Hn. rewrite <- Hlen in Hm.
  rewrite (combine_pages rs _ Hm), map_map. reflexivity.
Qed.

Lemma cleanup_run n s :
  runState (cleanup n) s
  = (tt, mk_session (low_dpi s) (kernel_cache s)
                    (log s ++ repeat (DEBUG, 1403) n ++ [(DEBUG, 1410)])).
Proof. reflexivity. Qed.

Section ServiceFacts.

Context `{Cv2}.
Variable fetch : Source -> option Document.
Variable fetch_stamp : str -> bool.
Variable cpu_count : Z.

Lemma download_run src s :
  exists l,
    runState (download fetch src) s
    = (fetch src, mk_session (low_dpi s) (kernel_cache s) (log s ++ l)).
Proof.
  unfold download. destruct src, (fetch _); cbn;
    first [ exists []; rewrite app_nil_r; now destruct s
          | eexists; reflexivity ].
Qed.

Lemma download_stamp_run url s :
  exists l,
    runState (download_stamp fetch_stamp url) s
    = (fetch_stamp url,
       mk_session (low_dpi s) (kernel_cache s) (log s ++ l)).
Proof.
  unfold download_stamp. destruct (fetch_stamp url); eexists; reflexivity.
Qed.

(** The call up to the processing of the document. *)
Lemma ProcessPDF_refused request s :
  select_source request = None
  \/ (exists src, select_source request = Some src /\ fetch src = None)
  \/ (exists src pdf, select_source request = Some src
                      /\ fetch src = Some pdf
                      /\ fetch_stamp (Pb.stamp_url request) = false) ->
  exists l,
    runState (ProcessPDF fetch fetch_stamp cpu_count request) s
    = ((Pb.INTERNAL, Pb.empty_response),
       mk_session (low_dpi s) (kernel_cache s) (log s ++ l)).
Proof.
  unfold ProcessPDF. intros [E|[(src & E & Ef)|(src & pdf & E & Ef & Es)]];
    rewrite E.
  - eexists. cbn. rewrite <- app_assoc. reflexivity.
  - rewrite srun_bind. destruct (download_run src s) as [l ->].
    cbn [fst snd]. rewrite Ef. eexists. cbn. rewrite <- !app_assoc.
    reflexivity.
  - rewrite srun_bind. destruct (download_run src s) as [l ->].
    cbn [fst snd]. rewrite Ef. rewrite srun_bind.
    match goal with
    | |- context [runState (download_stamp _ _) ?s0] =>
        destruct (download_stamp_run (Pb.stamp_url request) s0) as [l' ->]
    end.
    cbn [fst snd]. rewrite Es. eexists. cbn. rewrite <- !app_assoc.
    reflexivity.
Qed.

Lemma ProcessPDF_processed request src pdf s :
  select_source request = Some src -> fetch src = Some pdf ->
  fetch_stamp (Pb.stamp_url request) = true ->
  exists l,
    let s0 := mk_session (low_dpi s) (kernel_cache s) (log s ++ l) in
    let processed :=
      runState (process_document (gray_page pdf) servicer_processor cpu_count
                                 (Pages pdf) (Pb.stampOnlyFirstPage request))
               s0 in
    evalState (ProcessPDF fetch fetch_stamp cpu_count request) s
    = match fst processed with
      | Done (processed_pdf, coordinates) =>
          (Pb.OK,
           Pb.mk_response processed_pdf
             (enumerate_from encode_coordinates 0 coordinates))
      | RaisesValueError => (Pb.INTERNAL, Pb.empty_response)
      end.
Proof.
  intros E Ef Es. unfold evalState, ProcessPDF. rewrite E.
  rewrite srun_bind. destruct (download_run src s) as [l ->].
  cbn [fst snd]. rewrite Ef. rewrite srun_bind.
  match goal with
  | |- context [runState (download_stamp _ _) ?s0] =>
      destruct (download_stamp_run (Pb.stamp_url request) s0) as [l' ->]
  end.
  cbn [fst snd low_dpi kernel_cache log]. rewrite Es. cbn [negb].
  rewrite srun_bind, record_run. cbn [fst snd].
  rewrite srun_bind, record_run. cbn [fst snd low_dpi kernel_cache log].
  rewrite srun_bind.
  exists (((l ++ l') ++ [(DEBUG, 1352)]) ++ [(INFO, 1355)]).
  cbv zeta. rewrite !app_assoc.
  destruct (runState (process_document _ _ _ _ _) _) as [[[pdf' cs]|] s1];
    reflexivity.
Qed.

End ServiceFacts.

Lemma servicer_valid :
  stamp_size_min servicer_processor <= stamp_size_max servicer_processor.
Proof. vm_compute. discriminate. Qed.

Lemma servicer_positive : 0 < stamp_size_min servicer_processor.
Proof. reflexivity. Qed.

Lemma page_ok_placed `{Cv2} self (c : Placement.t) image :
  placed_alone self image c -> well_placed self c.
Proof.
  intros (m & line & E).
  pose proof (find_whitest_space_valid self _ _ E) as Hv.
  destruct (find_whitest_space_returned self _ _ E) as [_ Es].
  cbn [coords masks return_line] in Es.
  destruct (search_by_line _ _ _ _ _ _ _ Es) as [[_ Hk]|[[_ Hk]|[_ ->]]].
  - exact (kept_well_placed _ _ _ _ _ Hk).
  - exact (kept_well_placed _ _ _ _ _ Hk).
  - now apply forced_well_placed.
Qed.

(** *** The call as a whole *)

Lemma ProcessPDF_ok_run `{Cv2}
    (fetch : Source -> option Document) (fetch_stamp : str -> bool)
    (cpu_count : Z) (request : Pb.PDFRequest) (src : Source)
    (pdf : Document) (s : Session) :
  select_source request = Some src -> fetch src = Some pdf ->
  fetch_stamp (Pb.stamp_url request) = true -> 1 <= Pages pdf ->
  session_ok s ->
  let dpi :=
    if Pb.stampOnlyFirstPage request then low_dpi s
    else dpi_for (Pages pdf) in
  exists response,
    evalState (ProcessPDF fetch fetch_stamp cpu_count request) s
    = (Pb.OK, response)
    /\ Z.of_nat (length (Pb.processed_pdf response)) = Pages pdf
    /\ map Pb.page_number (Pb.coordinates response)
       = Py.range 1 ((if Pb.stampOnlyFirstPage request then 1
                      else Pages pdf) + 1) 1
    /\ Forall (fun entry =>
                 exists c,
                   placed_alone servicer_processor
                     (gray_page pdf dpi (Pb.page_number entry)) c
                   /\ Pb.x entry = Placement.x c
                   /\ Pb.y entry = Placement.y c
                   /\ Pb.size entry = Placement.size c
                   /\ 0 <= Pb.x entry /\ 0 <= Pb.y entry
                   /\ servicer_min_zone <= Pb.size entry)
              (Pb.coordinates response).
Proof.
  intros E Ef Es Hn Hs. cbv zeta.
  destruct (ProcessPDF_processed fetch fetch_stamp cpu_count request src pdf s
              E Ef Es) as [l ->].
  cbv zeta.
  set (s0 := mk_session (low_dpi s) (kernel_cache s) (log s ++ l)).
  assert (Hs0 : session_ok s0) by exact Hs.
  assert (Hentry : forall image c,
            placed_alone servicer_processor image c ->
            0 <= Placement.x c /\ 0 <= Placement.y c
            /\ servicer_min_zone <= Placement.size c).
  { intros image c Hc. destruct (page_ok_placed _ _ _ Hc) as (H1 & H2 & H3 & H4).
    unfold servicer_min_zone, min_zone_size. lia. }
  destruct (Pb.stampOnlyFirstPage request).
  - destruct (process_document_first_run (gray_page pdf) servicer_processor
                servicer_valid servicer_positive cpu_count (Pages pdf) s0 Hn Hs0)
      as ([n [sheet oc]] & s' & -> & Hp & (c & Er & Hc & _ & Hd) & _).
    cbn [fst snd] in *. injection Er as -> ->. subst n.
    eexists. split; [reflexivity|].
    cbn [Pb.processed_pdf Pb.coordinates enumerate_from encode_coordinates
         map Pb.page_number].
    split.
    { cbn [length]. rewrite length_map.
      replace (Pages pdf + 1) with (2 + (Pages pdf - 1)) by ring.
      rewrite range_succ_length by lia. lia. }
    split; [reflexivity|].
    constructor; [|constructor]. exists c.
    cbn [Pb.page_number Pb.x Pb.y Pb.size].
    destruct (Hentry _ c Hc) as (H1 & H2 & H3). auto 10.
  - destruct (process_document_all_run (gray_page pdf) servicer_processor
                servicer_valid servicer_positive cpu_count (Pages pdf) s0 Hs0)
      as (rs & s' & -> & Hm & HF & _).
    cbn [fst]. eexists. split; [reflexivity|].
    cbn [Pb.processed_pdf Pb.coordinates].
    rewrite (encode_results rs (Pages pdf)) by (lia || exact Hm).
    split.
    { rewrite length_map, <- (length_map fst rs), Hm.
      replace (Pages pdf + 1) with (1 + Pages pdf) by ring.
      rewrite range_succ_length by lia. lia. }
    split.
    { rewrite map_map, <- Hm. apply map_ext_in. intros r Hr.
      rewrite Forall_forall in HF. destruct (HF r Hr) as (c & Er & _).
      rewrite Er. cbn [snd encode_coordinates Pb.page_number]. lia. }
    rewrite Forall_map, Forall_forall. intros r Hr.
    rewrite Forall_forall in HF. destruct (HF r Hr) as (c & Er & Hc & _).
    rewrite Er. cbn [snd encode_coordinates Pb.page_number Pb.x Pb.y Pb.size].
    exists c. replace (fst r - 1 + 1) with (fst r) by ring.
    destruct (Hentry _ c Hc) as (H1 & H2 & H3). auto 10.
Qed.

Lemma ProcessPDF_closed_run `{Cv2}
    (fetch : Source -> option Document) (fetch_stamp : str -> bool)
    (cpu_count : Z) (request : Pb.PDFRequest) (s : Session) :
  (forall src pdf, fetch src = Some pdf -> 1 <= Pages pdf) ->
  session_ok s ->
  let status :=
    fst (evalState (ProcessPDF fetch fetch_stamp cpu_count request) s) in
  let response :=
    snd (evalState (ProcessPDF fetch fetch_stamp cpu_count request) s) in
  let s' := execState (ProcessPDF fetch fetch_stamp cpu_count request) s in
  (status = Pb.OK
   <-> exists src pdf,
         select_source request = Some src /\ fetch src = Some pdf
         /\ fetch_stamp (Pb.stamp_url request) = true)
  /\ (status = Pb.INTERNAL ->
      response = Pb.empty_response
      /\ low_dpi s' = low_dpi s /\ kernel_cache s' = kernel_cache s).
Proof.
  intros Hpages Hs. cbv zeta.
  destruct (select_source request) as [src|] eqn:E.
  2:{ destruct (ProcessPDF_refused fetch fetch_stamp cpu_count request s
                  (or_introl E)) as [l El].
      unfold evalState, execState. rewrite El. cbn [fst snd].
      split; [split; [discriminate|intros (? & ? & [=] & _)]|].
      intros _. repeat split. }
  destruct (fetch src) as [pdf|] eqn:Ef.
  2:{ destruct (ProcessPDF_refused fetch fetch_stamp cpu_count request s
                  (or_intror (or_introl (ex_intro _ src (conj E Ef)))))
        as [l El].
      unfold evalState, execState. rewrite El. cbn [fst snd].
      split; [split; [discriminate|]|intros _; repeat split].
      intros (src' & pdf' & [= <-] & Ef' & _). congruence. }
  destruct (fetch_stamp (Pb.stamp_url request)) eqn:Es.
  2:{ destruct (ProcessPDF_refused fetch fetch_stamp cpu_count request s
                  (or_intror (or_intror
                     (ex_intro _ src (ex_intro _ pdf
                        (conj E (conj Ef Es))))))) as [l El].
      unfold evalState, execState. rewrite El. cbn [fst snd].
      split; [split; [discriminate|]|intros _; repeat split].
      intros (src' & pdf' & _ & _ & [=]). }
  destruct (ProcessPDF_processed fetch fetch_stamp cpu_count request src pdf s
              E Ef Es) as [l El]. cbv zeta in El.
  set (s0 := mk_session (low_dpi s) (kernel_cache s) (log s ++ l)) in *.
  assert (Hs0 : session_ok s0) by exact Hs.
  assert (Hdone : exists v s1,
            runState (process_document (gray_page pdf) servicer_processor
                        cpu_count (Pages pdf) (Pb.stampOnlyFirstPage request))
                     s0 = (Done v, s1)).
  { destruct (Pb.stampOnlyFirstPage request).
    - destruct (process_document_first_run (gray_page pdf) servicer_processor
                  servicer_valid servicer_positive cpu_count (Pages pdf) s0
                  (Hpages src pdf Ef) Hs0) as (r & s1 & -> & _).
      eexists. eexists. reflexivity.
    - destruct (process_document_all_run (gray_page pdf) servicer_processor
                  servicer_valid servicer_positive cpu_count (Pages pdf) s0 Hs0)
        as (rs & s1 & -> & _).
      eexists. eexists. reflexivity. }
  destruct Hdone as ([pdf' cs] & s1 & Erun). rewrite Erun in El.
  cbn [fst] in El. rewrite El. cbn [fst snd].
  split; [|discriminate].
  split; [intros _; exists src, pdf; auto|reflexivity].
Qed.

(** ** Properties of the pipeline and of the servicer *)

(** The sheets and the placements of a list of page results. *)
Lemma results_split `{Cv2} gray_page self dpi
    (rs : list (Z * (Sheet * option Placement.t))) :
  Forall (fun r =>
            exists c,
              snd r = (mk_sheet (fst r) dpi (stamping_of c), Some c)
              /\ placed_alone self (gray_page dpi (fst r)) c
              /\ well_placed self c
              /\ stamping_of c <> None) rs ->
  exists sheets coordinates,
    map (fun r => Image (fst (snd r))) rs = map Image sheets
    /\ map (fun r => snd (snd r)) rs = map Some coordinates
    /\ map sheet_page sheets = map fst rs
    /\ Forall2 (fun sheet c =>
                  sheet_dpi sheet = dpi
                  /\ placed_alone self (gray_page dpi (sheet_page sheet)) c
                  /\ drawn sheet = stamping_of c /\ drawn sheet <> None)
               sheets coordinates.
Proof.
  induction 1
    as [|r rs (c & Er & Hp & _ & Hd) _ (sheets & cs & E1 & E2 & E3 & HF)].
  - exists [], []. repeat split; constructor.
  - exists (mk_sheet (fst r) dpi (stamping_of c) :: sheets), (c :: cs).
    cbn [map]. rewrite Er, E1, E2, E3. cbn [fst snd sheet_page].
    repeat split. constructor; [|exact HF].
    cbn [sheet_dpi sheet_page drawn]. auto.
Qed.

(** Three pages too small for a zone, and a servicer on four cores. *)
Abbreviation tiny_pages := (fun _ _ : Z => raster (blank_page 209 209 255)).

(** X11. [_process_single_page] with [0 < stamp_size_min <=
    stamp_size_max]: the call returns the page with its stamp pasted (the
    guard of line 1044 holds of every placement [find_whitest_space]
    returns, and the division of line 1062 is by a zone side that is not
    0), at the size the placement names, inside the zone with
    [min_margin] = 5 pixels or more on each side, centred in it to the
    pixel; and on a page of at least [stamp_size_min + 10] pixels each way
    the stamp lies inside the page. *)
Theorem stamp_is_pasted_inside_its_zone `{Cv2}
    (gray_page : Z -> Z -> ndarray) (self : PDFProcessor) (page_num : Z)
    (s : Session) :
  0 < stamp_size_min self -> stamp_size_min self <= stamp_size_max self ->
  session_ok s ->
  let image := gray_page (low_dpi s) page_num in
  exists c st s',
    runState (_process_single_page gray_page self page_num) s
    = (PageReturns (page_num,
                    (mk_sheet page_num (low_dpi s) (Some st), Some c)), s')
    /\ placed_alone self image c
    /\ centred_in_zone c st
    /\ (min_zone_size self <= ncols image ->
        min_zone_size self <= nrows image ->
        0 <= paste_x st /\ paste_x st + paste_size st <= ncols image
        /\ 0 <= paste_y st /\ paste_y st + paste_size st <= nrows image).
Proof.
  intros Hp Hv Hs. cbv zeta.
  destruct (_process_single_page_run gray_page self Hv Hp page_num s Hs)
    as ([n [sheet oc]] & s' & E & Hn & (c & Er & Hc & _ & _) & _).
  cbn [fst snd] in *. subst n. injection Er as -> ->.
  destruct Hc as (m & line & Ec).
  destruct (stamping_inside_page self _ _ Ec) as (st & Est & Hcz & Hin).
  cbn [coords raster] in *. rewrite Est in E.
  exists c, st, s'. split; [exact E|]. split; [|split; assumption].
  exists m, line. exact Ec.
Qed.

Lemma stamp_is_pasted_inside_its_zone_witness :
  let image := tiny_pages (low_dpi fresh_session) 1 in
  exists c st s',
    runState (@_process_single_page no_contours tiny_pages servicer_processor
                1) fresh_session
    = (PageReturns (1, (mk_sheet 1 (low_dpi fresh_session) (Some st),
                        Some c)), s')
    /\ @placed_alone no_contours servicer_processor image c
    /\ centred_in_zone c st
    /\ (min_zone_size servicer_processor <= ncols image ->
        min_zone_size servicer_processor <= nrows image ->
        0 <= paste_x st /\ paste_x st + paste_size st <= ncols image
        /\ 0 <= paste_y st /\ paste_y st + paste_size st <= nrows image).
Proof.
  apply (@stamp_is_pasted_inside_its_zone no_contours tiny_pages
           servicer_processor 1 fresh_session).
  - reflexivity.
  - vm_compute. discriminate.
  - constructor.
Defined.

(** X18. [process_document] on every page: with [0 < stamp_size_min <=
    stamp_size_max] and a document of [num_pages >= 1] pages, the call
    returns one image page and one placement per page of the document, in
    the order of the pages (the sort of line 1238 changes nothing); every
    page is rendered at the resolution the page count selects, which the
    processor keeps afterwards in [low_dpi]; the placement of a page is
    the one [find_whitest_space] returns for that page taken alone,
    whatever the pages before it left in the kernel cache; and every page
    carries its stamp. *)
Theorem every_page_is_stamped_in_order `{Cv2} (gray_page : Z -> Z -> ndarray)
    (self : PDFProcessor) (cpu_count num_pages : Z) (s : Session) :
  0 < stamp_size_min self -> stamp_size_min self <= stamp_size_max self ->
  1 <= num_pages ->
  session_ok s ->
  exists sheets coordinates s',
    runState (process_document gray_page self cpu_count num_pages false) s
    = (Done (map Image sheets, map Some coordinates), s')
    /\ map sheet_page sheets = Py.range 1 (num_pages + 1) 1
    /\ Forall2 (fun sheet c =>
                  sheet_dpi sheet = dpi_for num_pages
                  /\ placed_alone self
                       (gray_page (dpi_for num_pages) (sheet_page sheet)) c
                  /\ drawn sheet = stamping_of c /\ drawn sheet <> None)
               sheets coordinates
    /\ low_dpi s' = dpi_for num_pages.
Proof.
  intros Hp Hv Hn Hs.
  destruct (process_document_all_run gray_page self Hv Hp cpu_count num_pages s
              Hs) as (rs & s' & E & Hm & HF & Hd & _).
  destruct (results_split gray_page self _ rs HF)
    as (sheets & cs & E1 & E2 & E3 & HF2).
  exists sheets, cs, s'. rewrite E, E1, E2, E3, Hm. auto.
Qed.

Lemma every_page_is_stamped_in_order_witness :
  exists sheets coordinates s',
    runState (@process_document no_contours tiny_pages servicer_processor
                4 3 false) fresh_session
    = (Done (map Image sheets, map Some coordinates), s')
    /\ map sheet_page sheets = [1; 2; 3]
    /\ Forall2 (fun sheet c =>
                  sheet_dpi sheet = 200
                  /\ @placed_alone no_contours servicer_processor
                       (tiny_pages 200 (sheet_page sheet)) c
                  /\ drawn sheet = stamping_of c /\ drawn sheet <> None)
               sheets coordinates
    /\ low_dpi s' = 200.
Proof.
  apply (@every_page_is_stamped_in_order no_contours tiny_pages
           servicer_processor 4 3 fresh_session).
  - reflexivity.
  - vm_compute. discriminate.
  - lia.
  - constructor.
Defined.

(** X19. [process_document] with [stamp_only_first_page]: with
    [0 < stamp_size_min <= stamp_size_max] and a document of [num_pages >= 1]
    pages, the PDF returned has the [num_pages] pages of the document, the
    first as the stamped image of page 1 and the others as the original
    pages 2 to [num_pages] in order, and [coordinates] holds the single
    placement of page 1. The page is rendered at the [low_dpi] the
    processor holds when the call starts, which the call leaves as it is:
    this branch returns before the adaptive settings. *)
Theorem first_page_mode_keeps_the_other_pages `{Cv2}
    (gray_page : Z -> Z -> ndarray) (self : PDFProcessor)
    (cpu_count num_pages : Z) (s : Session) :
  0 < stamp_size_min self -> stamp_size_min self <= stamp_size_max self ->
  1 <= num_pages ->
  session_ok s ->
  exists sheet c s',
    runState (process_document gray_page self cpu_count num_pages true) s
    = (Done (Image sheet :: map Original (Py.range 2 (num_pages + 1) 1),
             [Some c]), s')
    /\ Z.of_nat (length (Image sheet
                           :: map Original (Py.range 2 (num_pages + 1) 1)))
       = num_pages
    /\ sheet_page sheet = 1 /\ sheet_dpi sheet = low_dpi s
    /\ placed_alone self (gray_page (low_dpi s) 1) c
    /\ drawn sheet = stamping_of c /\ drawn sheet <> None
    /\ low_dpi s' = low_dpi s.
Proof.
  intros Hp Hv Hn Hs.
  destruct (process_document_first_run gray_page self Hv Hp cpu_count num_pages
              s Hn Hs)
    as ([n [sheet oc]] & s' & E & Hn1 & (c & Er & Hc & _ & Hd) & Hl & _).
  cbn [fst snd] in *. injection Er as -> ->. subst n.
  eexists. exists c, s'. split; [exact E|].
  cbn [sheet_page sheet_dpi drawn length]. repeat split; try assumption.
  rewrite length_map. replace (num_pages + 1) with (2 + (num_pages - 1))
    by ring.
  rewrite range_succ_length by lia. lia.
Qed.

Lemma first_page_mode_keeps_the_other_pages_witness :
  exists sheet c s',
    runState (@process_document no_contours tiny_pages servicer_processor
                4 3 true) fresh_session
    = (Done ([Image sheet; Original 2; Original 3], [Some c]), s')
    /\ sheet_page sheet = 1 /\ sheet_dpi sheet = 200
    /\ drawn sheet = stamping_of c /\ drawn sheet <> None
    /\ low_dpi s' = 200.
Proof.
  destruct (@first_page_mode_keeps_the_other_pages no_contours tiny_pages
              servicer_processor 4 3 fresh_session)
    as (sheet & c & s' & E & _ & H1 & H2 & _ & H3 & H4 & H5).
  - reflexivity.
  - vm_compute. discriminate.
  - lia.
  - constructor.
  - exists sheet, c, s'. repeat split; assumption.
Defined.

(** X20. The resolution of the first-page mode depends on the documents
    processed before. A processor fresh from [__init__] renders the page
    at 200 dpi; after a document processed on every page, it renders the
    first page of the next document at the resolution that earlier
    document selected (120 dpi after one of more than 300 pages),
    whatever the length of the new document. *)
Theorem first_page_resolution_follows_last_document `{Cv2}
    (earlier later : Z -> Z -> ndarray) (self : PDFProcessor)
    (cpu_count earlier_pages later_pages : Z) (s : Session) :
  0 < stamp_size_min self -> stamp_size_min self <= stamp_size_max self ->
  1 <= earlier_pages -> 1 <= later_pages -> session_ok s ->
  (exists sheet pages coordinates s',
     runState (process_document later self cpu_count later_pages true)
              fresh_session
     = (Done (Image sheet :: pages, coordinates), s')
     /\ sheet_dpi sheet = 200)
  /\ (exists sheet pages coordinates s',
        runState (process_document later self cpu_count later_pages true)
                 (execState (process_document earlier self cpu_count
                                              earlier_pages false) s)
        = (Done (Image sheet :: pages, coordinates), s')
        /\ sheet_dpi sheet = dpi_for earlier_pages).
Proof.
  intros Hp Hv Hn1 Hn2 Hs. split.
  - destruct (process_document_first_run later self Hv Hp cpu_count later_pages
                fresh_session Hn2 (Forall_nil _))
      as ([n [sheet oc]] & s' & E & _ & (c & Er & _) & _).
    cbn [fst snd] in *. injection Er as -> ->.
    eexists. eexists. eexists. exists s'. split; [exact E|reflexivity].
  - destruct (process_document_all_run earlier self Hv Hp cpu_count
                earlier_pages s Hs) as (rs & s1 & E1 & _ & _ & Hd & Hs1).
    unfold execState. rewrite E1. cbn [snd].
    destruct (process_document_first_run later self Hv Hp cpu_count later_pages
                s1 Hn2 Hs1)
      as ([n [sheet oc]] & s' & E & _ & (c & Er & _) & _).
    cbn [fst snd] in *. injection Er as -> ->.
    eexists. eexists. eexists. exists s'. split; [exact E|].
    cbn [sheet_dpi]. exact Hd.
Qed.

Lemma first_page_resolution_follows_last_document_witness :
  exists sheet pages coordinates s',
    runState (@process_document no_contours tiny_pages servicer_processor
                4 2 true)
             (execState (@process_document no_contours tiny_pages
                           servicer_processor 4 301 false) fresh_session)
    = (Done (Image sheet :: pages, coordinates), s')
    /\ sheet_dpi sheet = 120.
Proof.
  apply (@first_page_resolution_follows_last_document no_contours tiny_pages
           tiny_pages servicer_processor 4 301 2 fresh_session).
  - reflexivity.
  - vm_compute. discriminate.
  - lia.
  - lia.
  - constructor.
Defined.





(** ** The engine and the pipeline of processor.py *)

(** *** The client scan: what it keeps lies inside the page *)

Section ClientFacts.

Variable self : PDFProcessor.
Variables height width : Z.
Variables forbidden white_binary : ndarray.

(** A zone inside the page with the effective stamp of its side. *)
Abbreviation zone_ok :=
  (fun x y sq stp =>
     0 <= x /\ x + sq <= width /\ 0 <= y /\ y + sq <= height
     /\ stp = available_stamp_size self sq /\ stamp_size_min self <= stp).

Abbreviation client_ok :=
  (fun st : Client.Scan =>
     (forall p, Client.returned st = Some p ->
        zone_ok (Placement.x p) (Placement.y p) (Placement.size p)
                (Placement.stamp_size p))
     /\ (forall x y sq stp, Client.best_position st = Some (x, y, sq, stp) ->
           zone_ok x y sq stp)).

Lemma client_scan_visit_ok s y x st :
  0 <= x -> x + s <= width -> 0 <= y -> y + s <= height ->
  client_ok st ->
  client_ok (fst (Client.scan_visit self forbidden white_binary s y x st)).
Proof.
  intros Hx Hxs Hy Hys [Hr Hb]. unfold Client.scan_visit.
  destruct (Client.candidate_is_clean _ _ _ _ _); [|split; assumption].
  destruct (Z.leb_spec (stamp_size_min self) (available_stamp_size self s));
    [|split; assumption].
  destruct (stamp_size_max self <=? available_stamp_size self s);
    [|destruct (Client.best_stamp_size st <? available_stamp_size self s);
      [|split; assumption]];
    cbn [fst Client.returned Client.best_position]; split; try assumption.
  - intros p [= <-]. cbn. repeat split; lia.
  - intros x' y' sq stp [= <- <- <- <-]. repeat split; lia.
Qed.

Lemma client_scan_ok sizes :
  client_ok (Py.for_break sizes
               (Client.scan_size self height width forbidden white_binary)
               (Client.mk_scan None None 0)).
Proof.
  apply (for_break_inv client_ok).
  2:{ split; [intros p [=]|intros x y sq stp [=]]. }
  intros s st _ Hst. unfold Client.scan_size.
  destruct (stamp_size_max self <=? Client.best_stamp_size st); [exact Hst|].
  destruct ((width - s <=? 0) || (height - s <=? 0)); [exact Hst|].
  cbn [fst]. apply (for_break_inv client_ok); [|exact Hst].
  intros y st' Hy Hst'. apply range_up_In in Hy;
    [|apply client_scan_step_pos].
  unfold Client.scan_row. cbn [fst].
  apply (for_break_inv client_ok); [|exact Hst'].
  intros x st'' Hx Hst''. apply range_up_In in Hx;
    [|apply client_scan_step_pos].
  unfold Client.scan_x.
  pose proof (client_scan_visit_ok s y x st'') as Hv.
  destruct (Client.scan_visit self forbidden white_binary s y x st'')
    as [st3 b].
  cbn [fst] in Hv. destruct b; apply Hv; auto; lia.
Qed.

Lemma client_scan_narrow sizes :
  (forall s, In s sizes -> width <= s) ->
  Py.for_break sizes
    (Client.scan_size self height width forbidden white_binary)
    (Client.mk_scan None None 0)
  = Client.mk_scan None None 0
  \/ stamp_size_max self <= 0.
Proof.
  intros Hs.
  destruct (Z.leb_spec (stamp_size_max self) 0) as [Hm|Hm]; [now right|left].
  apply (for_break_inv (fun st => st = Client.mk_scan None None 0));
    [|reflexivity].
  intros s st Hin ->. unfold Client.scan_size. cbn [Client.best_stamp_size].
  destruct (Z.leb_spec (stamp_size_max self) 0); [lia|].
  specialize (Hs s Hin).
  destruct (Z.leb_spec (width - s) 0); [reflexivity|lia].
Qed.

Lemma first_corner_in cs c :
  Client.first_corner self height width cs = Some c ->
  exists cx cy,
    In (cx, cy) cs
    /\ 0 <= cx < width - stamp_size_min self
    /\ 0 <= cy < height - stamp_size_min self
    /\ c = Placement.mk cx cy (stamp_size_min self + 20) (stamp_size_min self).
Proof.
  induction cs as [|[cx cy] cs IH]; cbn [Client.first_corner]; [discriminate|].
  destruct ((0 <=? cx) && (cx <? width - stamp_size_min self) && (0 <=? cy)
            && (cy <? height - stamp_size_min self)) eqn:E.
  - intros [= <-]. exists cx, cy.
    apply andb_prop in E as [E E4]. apply andb_prop in E as [E E3].
    apply andb_prop in E as [E1 E2].
    split; [now left|]. repeat split; lia.
  - intros Hc. destruct (IH Hc) as (cx' & cy' & Hin & H).
    exists cx', cy'. split; [now right|exact H].
Qed.

(** What the client returns, whatever the page. *)
Lemma client_search_sound p :
  stamp_size_min self <= stamp_size_max self ->
  Client.search self height width forbidden white_binary = Py.Returns p ->
  stamp_size_min self <= Placement.stamp_size p <= stamp_size_max self
  /\ Placement.stamp_size p + 2 * min_margin <= Placement.size p
  /\ (stamp_size_min self + 40 <= width ->
      stamp_size_min self + 40 <= height ->
      fits self height width p).
Proof.
  intros Hv. unfold Client.search.
  match goal with
  | |- context [Py.for_break ?sizes _ _] =>
      pose proof (client_scan_ok sizes) as [Hr Hb]
  end.
  destruct (Client.returned _) as [found|].
  { intros [= <-]. destruct (Hr _ eq_refl) as (H1 & H2 & H3 & H4 & H5 & H6).
    unfold fits. rewrite H5 in *.
    unfold available_stamp_size, min_margin in *. repeat split; lia. }
  destruct (Client.best_position _) as [[[[x y] sq] stp]|].
  { intros [= <-]. destruct (Hb _ _ _ _ eq_refl) as (H1 & H2 & H3 & H4 & H5 & H6).
    unfold fits. cbn [Placement.x Placement.y Placement.size
                      Placement.stamp_size].
    rewrite H5 in *. unfold available_stamp_size, min_margin in *.
    repeat split; lia. }
  destruct (Client.first_corner _ _ _ _) as [c|] eqn:Ec.
  - intros [= <-].
    destruct (first_corner_in _ _ Ec) as (cx & cy & Hin & Hx & Hy & ->).
    unfold fits, min_margin.
    cbn [Placement.x Placement.y Placement.size Placement.stamp_size].
    split; [lia|]. split; [lia|]. intros Hw Hh.
    (* the first corner is inside such a page, so that it is the one *)
    revert Ec. unfold Client.corners. cbn [Client.first_corner].
    destruct (Z.leb_spec 0 (width - stamp_size_min self - 40)); [|lia].
    destruct (Z.ltb_spec (width - stamp_size_min self - 40)
                         (width - stamp_size_min self)); [|lia].
    destruct (Z.ltb_spec 20 (height - stamp_size_min self)); [|lia].
    cbn [andb Z.leb]. intros [= <- <-]. repeat split; lia.
  - intros [= <-]. unfold fits, min_margin.
    cbn [Placement.x Placement.y Placement.size Placement.stamp_size].
    split; [lia|]. split; [lia|]. intros Hw Hh. exfalso.
    revert Ec. unfold Client.corners. cbn [Client.first_corner].
    destruct (Z.leb_spec 0 (width - stamp_size_min self - 40)); [|lia].
    destruct (Z.ltb_spec (width - stamp_size_min self - 40)
                         (width - stamp_size_min self)); [|lia].
    destruct (Z.ltb_spec 20 (height - stamp_size_min self)); [|lia].
    cbn [andb Z.leb]. discriminate.
Qed.

(** On a page no wider than the smallest zone. *)
Lemma client_search_narrow :
  0 < stamp_size_max self ->
  width <= stamp_size_min self + 2 * min_margin ->
  Client.search self height width forbidden white_binary
  = Py.Returns (Placement.mk (width - stamp_size_min self - 40) 20
                             (stamp_size_min self + 20)
                             (stamp_size_min self)).
Proof.
  intros Hp Hw. unfold Client.search.
  match goal with
  | |- context [Py.for_break ?sizes _ _] =>
      destruct (client_scan_narrow sizes) as [-> | Hz]; [|idtac|lia]
  end.
  { intros s Hs. apply range_down_In in Hs; lia. }
  cbn [Client.returned Client.best_position].
  unfold Client.corners, min_margin in *. cbn [Client.first_corner].
  destruct (Z.leb_spec 0 (width - stamp_size_min self - 40)); [lia|].
  destruct (Z.ltb_spec 20 (width - stamp_size_min self)); [lia|].
  cbn [andb]. rewrite !andb_false_r. cbn [andb]. reflexivity.
Qed.

End ClientFacts.

(** *** The client pipeline *)

Section ClientPages.

Context `{Cv2}.
Variable gray_page : Z -> Z -> ndarray.
Variable self : PDFProcessor.

Lemma client_alone w :
  cache_ok (kernel_lru w) ->
  evalState (Client.find_whitest_space self) w
  = evalState (Client.find_whitest_space self) (mk_world (raster w) [] []).
Proof.
  intros Hw. rewrite !client_run. cbn [raster].
  destruct (client_detect_forbidden (raster w) w Hw) as [<- _].
  destruct (client_detect_forbidden (raster w) (mk_world (raster w) [] [])
              (Forall_nil _)) as [<- _].
  reflexivity.
Qed.

Lemma client_exec_ok w :
  cache_ok (kernel_lru w) ->
  cache_ok (kernel_lru (execState (Client.find_whitest_space self) w))
  /\ log_out (execState (Client.find_whitest_space self) w) = log_out w.
Proof.
  intros Hw. unfold Client.find_whitest_space.
  rewrite exec_bind.
  change (evalState read_image w) with (raster w).
  change (execState read_image w) with w.
  rewrite exec_bind.
  change (execState (ret ?v) ?s) with s.
  split; [apply (client_detect_forbidden (raster w) w Hw)|].
  assert (Hf : frames (Client.detect (raster w)) []).
  { unfold Client.detect.
    apply (frames_bind _ _ [] []); [apply frames_detect_text|intros ?].
    apply (frames_bind _ _ [] []).
    - unfold Client.detect_lines. destruct (100 <? ncols (raster w));
        repeat frame_step.
    - intros f. generalize (findContours
                   (Cv.threshold_binary (laplacian_abs_u8 (raster w)) 30 255)
                   RETR_EXTERNAL) as contours.
      intros contours. revert f.
      induction contours as [|c cs IH]; intros f; cbn [Client.mark_images].
      + apply frames_ret.
      + destruct (negb _); [|apply IH].
        apply (frames_bind _ _ [] []); [apply frames_kernel|intros ?; apply IH].
  }
  destruct (Hf w) as [_ Hl]. rewrite Hl. apply app_nil_r.
Qed.

(** What a page gives. *)
Abbreviation client_page_ok :=
  (fun (dpi : Z) (r : Z * (Sheet * option Placement.t)) =>
     exists c,
       snd r = (mk_sheet (fst r) dpi (Cli.stamping_of c), Some c)
       /\ client_placed_alone self (gray_page dpi (fst r)) c).

Lemma client_page_run page_num s :
  session_ok s ->
  exists r s',
    runState (Cli._process_single_page gray_page self page_num) s
    = (Py.Returns r, s')
    /\ fst r = page_num /\ client_page_ok (low_dpi s) r
    /\ low_dpi s' = low_dpi s /\ session_ok s' /\ log s' = log s.
Proof.
  intros Hs. unfold Cli._process_single_page.
  rewrite srun_bind. change (runState get s) with (s, s). cbn [fst snd].
  set (w := mk_world (gray_page (low_dpi s) page_num) (kernel_cache s)
                     (log s)).
  assert (Hw : cache_ok (kernel_lru w)) by exact Hs.
  pose proof (client_alone w Hw) as Ealone.
  destruct (client_exec_ok w Hw) as [Hk Hl].
  assert (Er : exists c, evalState (Client.find_whitest_space self) w
                         = Py.Returns c).
  { rewrite client_run. apply client_search_returns. }
  destruct Er as [c Er]. rewrite Er in Ealone.
  unfold evalState in Er. unfold execState in Hk, Hl.
  destruct (runState (Client.find_whitest_space self) w) as [result w'].
  cbn [fst snd] in *. subst result.
  eexists. eexists. split; [reflexivity|].
  cbn [fst snd low_dpi kernel_cache log]. repeat split; try assumption.
  exists c. split; [reflexivity|]. symmetry. exact Ealone.
Qed.

Lemma client_executor_map_run page_args s :
  session_ok s ->
  exists rs s',
    runState (Cli.executor_map gray_page self page_args) s
    = (Py.Returns rs, s')
    /\ map fst rs = page_args
    /\ Forall (client_page_ok (low_dpi s)) rs
    /\ low_dpi s' = low_dpi s /\ session_ok s'.
Proof.
  revert s. induction page_args as [|n rest IH]; intros s Hs.
  - exists [], s. repeat split; auto.
  - cbn [Cli.executor_map]. rewrite srun_bind.
    destruct (client_page_run n s Hs)
      as (r & s1 & -> & Hn & Hr & Hd & Hs1 & _).
    cbn [fst snd]. rewrite srun_bind.
    destruct (IH s1 Hs1) as (rs & s2 & -> & Hm & HF & Hd2 & Hs2).
    cbn [fst snd]. exists (r :: rs), s2.
    split; [reflexivity|]. cbn [map]. rewrite Hn, Hm.
    split; [reflexivity|]. rewrite Hd in HF.
    split; [constructor; assumption|]. split; [congruence|exact Hs2].
Qed.

(** The resolution the client settles on. *)
Abbreviation client_dpi :=
  (fun (s : Session) (num_pages : Z) =>
     if 100 <? num_pages then 150
     else if 20 <? num_pages then 180 else low_dpi s).

Lemma client_process_document_run max_workers num_pages first s :
  1 <= max_workers -> 1 <= num_pages -> session_ok s ->
  exists rs s',
    runState (Cli.process_document gray_page self max_workers num_pages first)
             s
    = (Cli.Done
         (map (fun r => Image (fst (snd r))) rs
            ++ (if first then map Original (Py.range 2 (num_pages + 1) 1)
                else []),
          map (fun r => snd (snd r)) rs), s')
    /\ map fst rs = Py.range 1 ((if first then 1 else num_pages) + 1) 1
    /\ Forall (client_page_ok (client_dpi s num_pages)) rs.
Proof.
  intros Hw Hn Hs. unfold Cli.process_document.
  rewrite srun_bind.
  set (s0 := snd (runState
                    (if 100 <? num_pages then set_low_dpi 150
                     else if 20 <? num_pages then set_low_dpi 180
                     else ret tt) s)).
  assert (Hs0 : session_ok s0 /\ low_dpi s0 = client_dpi s num_pages).
  { subst s0. destruct (100 <? num_pages); [split; [exact Hs|reflexivity]|].
    destruct (20 <? num_pages); split; (exact Hs || reflexivity). }
  destruct Hs0 as [Hs0 Hd0].
  assert (Hk : 1 <= (if first then 1 else num_pages))
    by (destruct first; lia).
  destruct (Z.leb_spec (Z.min max_workers (if first then 1 else num_pages)) 0);
    [lia|].
  rewrite srun_bind, page_args_range.
  destruct (client_executor_map_run
              (Py.range 1 ((if first then 1 else num_pages) + 1) 1) s0 Hs0)
    as (rs & s1 & -> & Hm & HF & Hd & Hs1).
  cbn [fst snd].
  rewrite (sort_by_page_sorted rs) by (rewrite Hm; apply page_args_sorted).
  rewrite Hd0 in HF.
  exists rs, s1. split; [|split; assumption].
  destruct first; cbn [andb].
  - destruct (Z.ltb_spec 1 num_pages) as [Hgt|Hle].
    + assert (Hone : exists r, rs = [r]).
      { change (Py.range 1 (1 + 1) 1) with [1] in Hm.
        destruct rs as [|r [|r' rs']]; try discriminate Hm.
        eexists; reflexivity. }
      destruct Hone as [r ->].
      pose proof (pages_after_first num_pages Hn) as Hrest.
      destruct (Z.ltb_spec 1 num_pages); [|lia].
      rewrite <- Hrest. unfold insert_pdf.
      replace (num_pages - 1 - 1 + 1) with (num_pages - 1) by ring.
      reflexivity.
    + assert (num_pages = 1) by lia. subst num_pages.
      change (Py.range 2 (1 + 1) 1) with (@nil Z). cbn [map].
      now rewrite app_nil_r, map_map.
  - now rewrite app_nil_r, map_map.
Qed.

End ClientPages.

(** The entries built from [rs], a list of page results on consecutive
    pages from 1. *)
Lemma enumerate_pages {B : Type} (f : Z -> option Placement.t -> B)
    (rs : list (Z * (Sheet * option Placement.t))) n :
  0 <= n -> map fst rs = Py.range 1 (n + 1) 1 ->
  enumerate_from f 0 (map (fun r => snd (snd r)) rs)
  = map (fun r => f (fst r - 1) (snd (snd r))) rs.
Proof.
  intros Hn Hm. rewrite enumerate_from_map.
  assert (Hlen : length rs = Z.to_nat n).
  { rewrite <- (length_map fst rs), Hm.
    replace (n + 1) with (1 + n) by ring. apply range_succ_length, Hn. }
  replace (n + 1) with (1 + n) in Hm by ring.
  rewrite range_as_seq in Hm by exact Hn. rewrite <- Hlen in Hm.
  rewrite (combine_pages rs _ Hm), map_map. reflexivity.
Qed.

Lemma pages_length {A : Type} (rs : list (Z * A)) n :
  0 <= n -> map fst rs = Py.range 1 (n + 1) 1 ->
  Z.of_nat (length rs) = n.
Proof.
  intros Hn Hm. rewrite <- (length_map fst rs), Hm.
  replace (n + 1) with (1 + n) by ring. rewrite range_succ_length; lia.
Qed.

(** A request without a source object selects no source. *)
Lemma no_source_selects_none request :
  Gateway.no_source request = true ->
  select_source (Gateway.grpc_request_of request) = None.
Proof.
  unfold Gateway.no_source. destruct request as [u g o ? ? ? ?].
  cbn [Gateway.pdf_url Gateway.google_drive Gateway.oodrive].
  destruct u, g, o; cbn; try discriminate. reflexivity.
Qed.

(** ** Properties of the gateway and of processor.py *)



(** X24. The engine of processor.py, with [stamp_size_min <=
    stamp_size_max]: it returns a placement whose stamp side lies between
    the two bounds and whose zone leaves [min_margin] on each side of the
    stamp; and on a page of [stamp_size_min + 40] pixels or more each way
    the zone lies inside the page. *)
Theorem client_placement_fits_page `{Cv2} (self : PDFProcessor) (w : World) :
  stamp_size_min self <= stamp_size_max self ->
  exists p,
    evalState (Client.find_whitest_space self) w = Py.Returns p
    /\ stamp_size_min self <= Placement.stamp_size p <= stamp_size_max self
    /\ Placement.stamp_size p + 2 * min_margin <= Placement.size p
    /\ (stamp_size_min self + 40 <= ncols (raster w) ->
        stamp_size_min self + 40 <= nrows (raster w) ->
        fits self (nrows (raster w)) (ncols (raster w)) p).
Proof.
  intros Hv. rewrite client_run.
  destruct (client_search_returns self (nrows (raster w)) (ncols (raster w))
              (evalState (Client.detect (raster w)) w)
              (white_mask (raster w))) as [p Ep].
  exists p. split; [exact Ep|].
  exact (client_search_sound self _ _ _ _ p Hv Ep).
Qed.

(** The servicer's sizes on a black A4 page. *)
Lemma client_placement_fits_page_witness :
  exists p,
    evalState (@Client.find_whitest_space no_contours servicer_processor)
              (blank_page 2970 2100 0)
    = Py.Returns p
    /\ stamp_size_min servicer_processor <= Placement.stamp_size p
       <= stamp_size_max servicer_processor
    /\ Placement.stamp_size p + 2 * min_margin <= Placement.size p
    /\ (stamp_size_min servicer_processor + 40
        <= ncols (raster (blank_page 2970 2100 0)) ->
        stamp_size_min servicer_processor + 40
        <= nrows (raster (blank_page 2970 2100 0)) ->
        fits servicer_processor (nrows (raster (blank_page 2970 2100 0)))
             (ncols (raster (blank_page 2970 2100 0))) p).
Proof.
  apply (@client_placement_fits_page no_contours servicer_processor
           (blank_page 2970 2100 0)).
  vm_compute. discriminate.
Defined.

(** X25. [_process_single_page] of processor.py on a page no wider than
    the smallest zone, [stamp_size_min + 10] pixels: the engine falls through to its last
    line, whose [x] is [width - stamp_size_min - 40], a negative number;
    the test of line 188 then skips the pasting, so that the page is
    saved without a stamp while the placement is still returned. *)
Theorem client_narrow_page_is_left_unstamped `{Cv2}
    (gray_page : Z -> Z -> ndarray) (self : PDFProcessor) (page_num : Z)
    (s : Session) :
  0 < stamp_size_max self ->
  ncols (gray_page (low_dpi s) page_num) <= stamp_size_min self + 10 ->
  let x := ncols (gray_page (low_dpi s) page_num) - stamp_size_min self - 40 in
  evalState (Cli._process_single_page gray_page self page_num) s
  = Py.Returns
      (page_num,
       (mk_sheet page_num (low_dpi s) None,
        Some (Placement.mk x 20 (stamp_size_min self + 20)
                           (stamp_size_min self))))
  /\ x < 0.
Proof.
  intros Hp Hw. cbv zeta. split; [|lia].
  unfold Cli._process_single_page, evalState.
  rewrite srun_bind. change (runState get s) with (s, s). cbn [fst snd].
  set (w := mk_world (gray_page (low_dpi s) page_num) (kernel_cache s)
                     (log s)).
  pose proof (client_run self w) as Er.
  rewrite (client_search_narrow self _ _ _ _ Hp) in Er
    by (unfold min_margin; exact Hw).
  unfold evalState in Er.
  destruct (runState (Client.find_whitest_space self) w) as [result w'].
  cbn [fst] in Er. subst result. cbn [fst runState bind ret].
  unfold Cli.stamping_of. cbn [Placement.x].
  change (raster w) with (gray_page (low_dpi s) page_num).
  destruct (Z.leb_spec 0 (ncols (gray_page (low_dpi s) page_num)
                          - stamp_size_min self - 40)); [lia|].
  reflexivity.
Qed.

(** The processor of the command line on pages 100 pixels wide. *)
Lemma client_narrow_page_is_left_unstamped_witness :
  let gray_page := fun _ _ : Z => raster (blank_page 400 100 255) in
  let self := mk_processor 300 90 in
  let x := ncols (gray_page (low_dpi fresh_session) 1)
           - stamp_size_min self - 40 in
  evalState (@Cli._process_single_page no_contours gray_page self 1)
            fresh_session
  = Py.Returns
      (1, (mk_sheet 1 (low_dpi fresh_session) None,
           Some (Placement.mk x 20 (stamp_size_min self + 20)
                              (stamp_size_min self))))
  /\ x < 0.
Proof.
  cbv zeta.
  apply (@client_narrow_page_is_left_unstamped no_contours
           (fun _ _ : Z => raster (blank_page 400 100 255))
           (mk_processor 300 90) 1 fresh_session).
  - simpl. lia.
  - vm_compute. discriminate.
Defined.

(** X26. The command line of processor.py on a document of [num_pages >=
    1] pages with one core or more: it prints a success whose
    [pagesProcessed] is 1 with [--first-page-only] and the page count
    otherwise, with one entry per processed page, numbered from 1 in page
    order. Every page is rendered at 150 dpi above 100 pages, 180 dpi
    above 20 and 200 dpi otherwise, with [--first-page-only] too. The
    [x] and [y] of an entry are those of the placement of its page taken
    alone, and its [size] is the side of the stamp, between 90 and 300,
    not the side of the zone. *)
Theorem cli_reports_every_processed_page `{Cv2}
    (gray_page : Z -> Z -> ndarray) (cpu_count num_pages : Z)
    (first_page_only : bool) :
  1 <= cpu_count -> 1 <= num_pages ->
  let processed := if first_page_only then 1 else num_pages in
  let dpi :=
    if 100 <? num_pages then 150 else if 20 <? num_pages then 180 else 200 in
  exists entries,
    Cli.main gray_page cpu_count num_pages first_page_only
    = Cli.Success entries processed
    /\ map Cli.pageNumber entries = Py.range 1 (processed + 1) 1
    /\ Forall (fun entry =>
                 exists c,
                   client_placed_alone (mk_processor 300 90)
                     (gray_page dpi (Cli.pageNumber entry)) c
                   /\ Cli.x entry = Placement.x c
                   /\ Cli.y entry = Placement.y c
                   /\ Cli.size entry = Placement.stamp_size c
                   /\ 90 <= Cli.size entry <= 300)
              entries.
Proof.
  intros Hc Hn. cbv zeta. unfold Cli.main.
  assert (Hs : session_ok fresh_session) by constructor.
  destruct (client_process_document_run gray_page (mk_processor 300 90)
              (Z.min 8 cpu_count) num_pages first_page_only fresh_session
              ltac:(lia) Hn Hs) as (rs & s' & Er & Hm & HF).
  unfold evalState. rewrite Er. cbn [fst].
  assert (Hk : 0 <= (if first_page_only then 1 else num_pages))
    by (destruct first_page_only; lia).
  rewrite (enumerate_pages Cli.entry_of rs _ Hk Hm), length_map.
  rewrite (pages_length rs _ Hk Hm).
  eexists. split; [reflexivity|].
  change (low_dpi fresh_session) with 200 in HF.
  split.
  - rewrite map_map, <- Hm. apply map_ext_Forall.
    revert HF. apply Forall_impl. intros r (c & Ec & _).
    rewrite Ec. cbn [snd Cli.entry_of Cli.pageNumber]. lia.
  - apply Forall_map. revert HF. apply Forall_impl.
    intros r (c & Ec & Hp). rewrite Ec.
    cbn [snd Cli.entry_of Cli.pageNumber Cli.x Cli.y Cli.size].
    exists c. replace (fst r - 1 + 1) with (fst r) by ring.
    split; [exact Hp|].
    unfold client_placed_alone in Hp. rewrite client_run in Hp.
    apply (client_search_sound (mk_processor 300 90) _ _ _ _ c) in Hp;
      [|simpl; lia].
    destruct Hp as (Hb & _). cbn [stamp_size_min stamp_size_max] in Hb.
    repeat split; try reflexivity; apply Hb.
Qed.

(** Three small pages and four cores. *)
Lemma cli_reports_every_processed_page_witness :
  let gray_page := tiny_pages in
  let processed := if false then 1 else 3 in
  let dpi := if 100 <? 3 then 150 else if 20 <? 3 then 180 else 200 in
  exists entries,
    @Cli.main no_contours gray_page 4 3 false = Cli.Success entries processed
    /\ map Cli.pageNumber entries = Py.range 1 (processed + 1) 1
    /\ Forall (fun entry =>
                 exists c,
                   @client_placed_alone no_contours (mk_processor 300 90)
                     (gray_page dpi (Cli.pageNumber entry)) c
                   /\ Cli.x entry = Placement.x c
                   /\ Cli.y entry = Placement.y c
                   /\ Cli.size entry = Placement.stamp_size c
                   /\ 90 <= Cli.size entry <= 300)
              entries.
Proof.
  cbv zeta.
  apply (@cli_reports_every_processed_page no_contours tiny_pages 4 3 false);
    lia.
Defined.
